(** * kana-cli: the container lifecycle layer, embedded in Rocq

    The development follows the Go packages of the repository:

    - [gostrings], [fmt]: the few functions of Go's standard library the
      code calls ([strings.Trim], [strings.Contains], [fmt.Sprintf]);
    - [client]: the world the program runs in.  The Docker daemon behind
      [d.client], the operating system and the HTTP endpoint are modelled as
      one state ([World]) with a trace of every external call and oracles for
      the answers the program cannot influence (transport failures, exit
      statuses, command output, HTTP status codes, file contents);
    - [docker]: the engine adapter (package [docker] of the repository);
    - [site]: the site lifecycle controller (package [site]).

    The packages are followed by the vocabulary of the statements, by
    [demo] (one concrete daemon, site and set of libraries on which the
    definitions are evaluated) and by the properties themselves.

    Go functions returning [(value, error)] return a pair whose second
    component is an [error]; [nil] is [None]. *)

From stdpp Require Import base strings list gmap infinite.
From Stdlib Require Import Ascii ZArith Lia.

(** Go's [error] interface, reduced to its message. *)
Definition error : Type := option string.

(** ** Package strings *)
Module gostrings.

Fixpoint in_cutset (c : ascii) (cutset : string) : bool :=
  match cutset with
  | "" => false
  | String d rest => bool_decide (c = d) || in_cutset c rest
  end.

(** [strings.TrimLeft]: drops the leading characters contained in [cutset]. *)
Fixpoint TrimLeft (s cutset : string) : string :=
  match s with
  | "" => ""
  | String c rest => if in_cutset c cutset then TrimLeft rest cutset else s
  end.

(** [strings.TrimRight]: drops the trailing characters contained in [cutset]. *)
Fixpoint TrimRight (s cutset : string) : string :=
  match s with
  | "" => ""
  | String c rest =>
      match TrimRight rest cutset with
      | "" => if in_cutset c cutset then "" else String c ""
      | kept => String c kept
      end
  end.

(** [strings.Trim(s, cutset)]. *)
Definition Trim (s cutset : string) : string :=
  TrimRight (TrimLeft s cutset) cutset.

(** [strings.HasPrefix]. *)
Fixpoint HasPrefix (s prefix : string) : bool :=
  match prefix, s with
  | "", _ => true
  | String p ps, String c cs => bool_decide (c = p) && HasPrefix cs ps
  | String _ _, "" => false
  end.

(** [strings.Contains(s, substr)]. *)
Fixpoint Contains (s substr : string) : bool :=
  HasPrefix s substr ||
  match s with
  | "" => false
  | String _ rest => Contains rest substr
  end.

End gostrings.

(** ** Package fmt *)
Module fmt.

(** [fmt.Sprintf] for formats whose only verb is [%s]. *)
Fixpoint Sprintf (format : string) (args : list string) : string :=
  match format with
  | "" => ""
  | String "%"%char (String "s"%char rest) =>
      match args with
      | a :: args' => a +:+ Sprintf rest args'
      | [] => "%!s(MISSING)" +:+ Sprintf rest []
      end
  | String c rest => String c (Sprintf rest args)
  end.

End fmt.

(** ** The world: Docker daemon, operating system, HTTP endpoint *)
Module client.

(** [mount.Mount]. *)
Record Mount := {
  MountType : string;
  Source : string;
  Target : string
}.

(** A container as the daemon holds and lists it ([types.Container]). *)
Record Container := {
  ID : string;
  Names : list string;
  Image : string;
  Labels : gmap string string;
  Mounts : list Mount;
  Running : bool
}.

(** [types.NetworkResource]. *)
Record NetworkResource := {
  NetworkID : string;
  NetworkName : string;
  Driver : string
}.

(** An exec session: the command, and what it will have printed and
    returned once run. *)
Record Exec := {
  ExecID : string;
  ExecContainer : string;
  ExecCmd : list string;
  ExecStdOut : string;
  ExecStdErr : string;
  ExecExitCode : Z
}.

(** The arguments of [ContainerCreate]: [container.Config], [HostConfig],
    [NetworkingConfig] and the name. *)
Record CreateRequest := {
  Tty : bool;
  ReqImage : string;
  ExposedPorts : gset string;
  Cmd : list string;
  Hostname : string;
  Env : list string;
  ReqLabels : gmap string string;
  PortBindings : gmap string (list string);
  ReqMounts : list Mount;
  EndpointsConfig : gset string;
  ReqName : string
}.

(** [http.Client]: what of its TLS configuration the code sets. *)
Record HttpClient := {
  InsecureSkipVerify : bool;
  RootCAs : option (list string)
}.

(** Every call that leaves the process. *)
Inductive Call :=
| CallContainerList (all : bool) (filters : list (string * string))
| CallContainerCreate (req : CreateRequest)
| CallContainerStart (id : string)
| CallContainerStop (id : string)
| CallContainerRemove (id : string)
| CallContainerWait (id : string)
| CallContainerLogs (id : string)
| CallReadAll (id : string)
| CallContainerInspect (id : string)
| CallContainerExecCreate (id : string) (cmd : list string)
| CallContainerExecAttach (execID : string)
| CallStdCopy (execID : string)
| CallContainerExecInspect (execID : string)
| CallNetworkList
| CallNetworkCreate (name driver : string)
| CallNetworkRemove (id : string)
| CallHttpGet (c : HttpClient) (url : string)
| CallSleep (seconds : Z)
| CallReadFile (path : string)
| CallGetwd
| CallMkdirAll (path : string)
| CallStat (path : string)
| CallRemove (path : string)
| CallPrint (format : string) (args : list string).

(** One entry of the trace: the call and the error it returned. *)
Inductive Event := Ev (c : Call) (err : error).

(** What the program cannot influence.  [fault n] is the failure, if any,
    of the external call made when the trace has [n] entries (transport
    error, daemon down, I/O error, timeout); the other oracles give the
    answers of calls that do not fail: the exit status and the log text of a
    container by identifier, what the [n]-th exec session prints and
    returns, the status code of an HTTP response, the contents of a file,
    the working directory. *)
Record Oracle := {
  fault : nat → error;
  exit_status : string → Z;
  output : string → string;
  exec_result : nat → string → list string → string * string * Z;
  http_status : nat → string → Z;
  file : nat → string → string;
  cwd : string
}.

(** The daemon's state. *)
Record Daemon := {
  containers : list Container;
  networks : list NetworkResource;
  execs : list Exec
}.

Record World := {
  daemon : Daemon;
  trace : list Event;
  oracle : Oracle
}.

(** *** Results and the monad of the embedding *)

(** A Go call returns, panics, or (for a loop run on fuel) does not finish
    within the fuel given. *)
Inductive Result (A : Type) :=
| Ret (a : A)
| Panic (msg : string)
| OutOfFuel.
Arguments Ret {A} a.
Arguments Panic {A} msg.
Arguments OutOfFuel {A}.

Definition M (A : Type) : Type := World → Result A * World.

Definition ret {A} (a : A) : M A := λ w, (Ret a, w).

Definition bind {A B} (m : M A) (k : A → M B) : M B :=
  λ w, match m w with
       | (Ret a, w') => k a w'
       | (Panic msg, w') => (Panic msg, w')
       | (OutOfFuel, w') => (OutOfFuel, w')
       end.

Definition panic {A} (msg : string) : M A := λ w, (Panic msg, w).

Definition out_of_fuel {A} : M A := λ w, (OutOfFuel, w).

Declare Scope go_scope.
Delimit Scope go_scope with go.
Notation "'let*' x ':=' c1 'in' c2" := (bind c1 (λ x, c2))
  (at level 10, x pattern, c1 at level 100, c2 at level 200) : go_scope.
Notation "c1 ;;; c2" := (bind c1 (λ _, c2))
  (at level 100, right associativity) : go_scope.
Open Scope go_scope.

Definition log (e : Event) (w : World) : World :=
  {| daemon := daemon w; trace := trace w ++ [e]; oracle := oracle w |}.

(** The number of external calls made so far. *)
Definition clock (w : World) : nat := length (trace w).

(** An external call: it fails with the injected fault, or takes its
    semantic step [sem] on the daemon; either way it is traced. *)
Definition extern {A} (c : Call) (zero : A)
    (sem : Oracle → nat → Daemon → A * error * Daemon) : M (A * error) :=
  λ w, match fault (oracle w) (clock w) with
       | Some e => (Ret (zero, Some e), log (Ev c (Some e)) w)
       | None =>
           let '(a, err, d) := sem (oracle w) (clock w) (daemon w) in
           (Ret (a, err),
            log (Ev c err) {| daemon := d; trace := trace w; oracle := oracle w |})
       end.

(** A local effect that cannot fail (printing, sleeping): traced only. *)
Definition effect (c : Call) : M unit :=
  λ w, (Ret tt, log (Ev c None) w).

(** *** The daemon's answers *)

(** A [label] filter value is [key] or [key=value]: split at the first [=]. *)
Fixpoint split_label (s : string) : string * option string :=
  match s with
  | "" => ("", None)
  | String c rest =>
      if bool_decide (c = "="%char) then ("", Some rest)
      else let '(k, v) := split_label rest in (String c k, v)
  end.

(** [label=key] selects the containers that carry the key, [label=key=value]
    those that carry it with that value. *)
Definition matches_label (f : string) (c : Container) : bool :=
  match split_label f with
  | (k, None) => bool_decide (is_Some (Labels c !! k))
  | (k, Some v) => bool_decide (Labels c !! k = Some v)
  end.

(** Only the [label] filter is given a meaning: it is the only one the
    adapter adds. *)
Definition matches_filters (filters : list (string * string)) (c : Container) : bool :=
  forallb (λ f, if bool_decide (f.1 = "label") then matches_label f.2 c else true)
          filters.

(** [ContainerList]: running containers only, unless [all] is set. *)
Definition listed (all : bool) (filters : list (string * string)) (d : Daemon)
    : list Container :=
  List.filter (λ c, (all || Running c) && matches_filters filters c) (containers d).

Definition has_id (id : string) (c : Container) : bool := bool_decide (ID c = id).

Definition with_Running (b : bool) (c : Container) : Container :=
  {| ID := ID c; Names := Names c; Image := Image c; Labels := Labels c;
     Mounts := Mounts c; Running := b |}.

Definition with_containers (cs : list Container) (d : Daemon) : Daemon :=
  {| containers := cs; networks := networks d; execs := execs d |}.

Definition set_running (id : string) (b : bool) (d : Daemon) : Daemon :=
  with_containers
    (map (λ c, if has_id id c then with_Running b c else c) (containers d)) d.

Definition all_names (d : Daemon) : list string :=
  concat (map Names (containers d)).

Definition is_alnum (c : ascii) : bool :=
  let n := nat_of_ascii c in
  (Nat.leb 48 n && Nat.leb n 57) || (Nat.leb 65 n && Nat.leb n 90)
  || (Nat.leb 97 n && Nat.leb n 122).

Definition is_name_char (c : ascii) : bool :=
  is_alnum c || gostrings.in_cutset c "_.-".

Fixpoint all_chars (p : ascii → bool) (s : string) : bool :=
  match s with
  | "" => true
  | String c rest => p c && all_chars p rest
  end.

(** The daemon's name pattern, [^/?[a-zA-Z0-9][a-zA-Z0-9_.-]+$]. *)
Definition valid_name (name : string) : bool :=
  let bare := match name with
              | String "/"%char rest => rest
              | _ => name
              end in
  match bare with
  | String c (String c' rest) =>
      is_alnum c && is_name_char c' && all_chars is_name_char rest
  | _ => false
  end.

(** The daemon stores names with a leading slash. *)
Definition full_name (name : string) : string :=
  match name with
  | String "/"%char _ => name
  | _ => "/" +:+ name
  end.

Definition new_container (req : CreateRequest) (id name : string) : Container :=
  {| ID := id; Names := [name]; Image := ReqImage req; Labels := ReqLabels req;
     Mounts := ReqMounts req; Running := false |}.

(** [ContainerCreate]: an empty name makes the daemon choose one; a given
    name must fit the pattern and be free.  The identifier is fresh. *)
Definition create (req : CreateRequest) (d : Daemon) : string * error * Daemon :=
  let id := fresh (map ID (containers d)) in
  if bool_decide (ReqName req = "") then
    let name := "/" +:+ fresh (map (λ n, gostrings.Trim n "/") (all_names d)) in
    (id, None, with_containers (containers d ++ [new_container req id name]) d)
  else if negb (valid_name (ReqName req)) then
    ("", Some "Invalid container name", d)
  else if bool_decide (full_name (ReqName req) ∈ all_names d) then
    ("", Some "Conflict. The container name is already in use", d)
  else
    (id, None,
     with_containers
       (containers d ++ [new_container req id (full_name (ReqName req))]) d).

Definition known (id : string) (d : Daemon) : bool :=
  existsb (has_id id) (containers d).

Definition no_such_container : error := Some "No such container".

Definition start (id : string) (d : Daemon) : unit * error * Daemon :=
  if known id d then (tt, None, set_running id true d)
  else (tt, no_such_container, d).

Definition stop (id : string) (d : Daemon) : unit * error * Daemon :=
  if known id d then (tt, None, set_running id false d)
  else (tt, no_such_container, d).

(** [ContainerRemove] without force: a running container is refused. *)
Definition remove (id : string) (d : Daemon) : unit * error * Daemon :=
  if negb (known id d) then (tt, no_such_container, d)
  else if existsb (λ c, has_id id c && Running c) (containers d) then
    (tt, Some "You cannot remove a running container", d)
  else (tt, None,
        with_containers (List.filter (λ c, negb (has_id id c)) (containers d)) d).

(** [ContainerWait]: the container's process ends, with the status the
    oracle gives it. *)
Definition wait (id : string) (o : Oracle) (d : Daemon) : Z * error * Daemon :=
  if known id d then (exit_status o id, None, set_running id false d)
  else (0%Z, no_such_container, d).

Definition logs (id : string) (d : Daemon) : string * error * Daemon :=
  if known id d then (id, None, d) else ("", no_such_container, d).

Definition inspect (id : string) (d : Daemon) : list Mount * error * Daemon :=
  match List.find (has_id id) (containers d) with
  | Some c => (Mounts c, None, d)
  | None => ([], no_such_container, d)
  end.

Definition has_exec_id (id : string) (e : Exec) : bool :=
  bool_decide (ExecID e = id).

(** [ContainerExecCreate] needs a running container. *)
Definition exec_create (id : string) (cmd : list string) (o : Oracle) (d : Daemon)
    : string * error * Daemon :=
  if negb (known id d) then ("", no_such_container, d)
  else if negb (existsb (λ c, has_id id c && Running c) (containers d)) then
    ("", Some "Container is not running", d)
  else
    let execID := fresh (map ExecID (execs d)) in
    let '(out, err, code) := exec_result o (length (execs d)) id cmd in
    (execID, None,
     {| containers := containers d; networks := networks d;
        execs := execs d ++ [{| ExecID := execID; ExecContainer := id;
                                ExecCmd := cmd; ExecStdOut := out;
                                ExecStdErr := err; ExecExitCode := code |}] |}).

Definition no_such_exec : error := Some "No such exec instance".

Definition exec_attach (execID : string) (d : Daemon) : string * error * Daemon :=
  if existsb (has_exec_id execID) (execs d) then (execID, None, d)
  else ("", no_such_exec, d).

Definition std_copy (execID : string) (d : Daemon)
    : (string * string) * error * Daemon :=
  match List.find (has_exec_id execID) (execs d) with
  | Some e => ((ExecStdOut e, ExecStdErr e), None, d)
  | None => (("", ""), Some "read on closed stream", d)
  end.

Definition exec_inspect (execID : string) (d : Daemon) : Z * error * Daemon :=
  match List.find (has_exec_id execID) (execs d) with
  | Some e => (ExecExitCode e, None, d)
  | None => (0%Z, no_such_exec, d)
  end.

Definition network_create (name driver : string) (d : Daemon)
    : string * error * Daemon :=
  let id := fresh (map NetworkID (networks d)) in
  (id, None,
   {| containers := containers d;
      networks := networks d ++ [{| NetworkID := id; NetworkName := name;
                                    Driver := driver |}];
      execs := execs d |}).

Definition network_remove (id : string) (d : Daemon) : unit * error * Daemon :=
  if existsb (λ n, bool_decide (NetworkID n = id)) (networks d) then
    (tt, None,
     {| containers := containers d;
        networks := List.filter (λ n, negb (bool_decide (NetworkID n = id)))
                                (networks d);
        execs := execs d |})
  else (tt, Some "No such network", d).

(** *** The calls, as the adapter makes them *)

Definition ContainerList (all : bool) (filters : list (string * string))
    : M (list Container * error) :=
  extern (CallContainerList all filters) [] (λ _ _ d, (listed all filters d, None, d)).

Definition ContainerCreate (req : CreateRequest) : M (string * error) :=
  extern (CallContainerCreate req) "" (λ _ _ d, create req d).

Definition ContainerStart (id : string) : M (unit * error) :=
  extern (CallContainerStart id) tt (λ _ _ d, start id d).

Definition ContainerStop (id : string) : M (unit * error) :=
  extern (CallContainerStop id) tt (λ _ _ d, stop id d).

Definition ContainerRemove (id : string) : M (unit * error) :=
  extern (CallContainerRemove id) tt (λ _ _ d, remove id d).

Definition ContainerWait (id : string) : M (Z * error) :=
  extern (CallContainerWait id) 0%Z (λ o _ d, wait id o d).

Definition ContainerLogs (id : string) : M (string * error) :=
  extern (CallContainerLogs id) "" (λ _ _ d, logs id d).

(** [io.ReadAll] on the log stream of container [id]. *)
Definition ReadAll (id : string) : M (string * error) :=
  extern (CallReadAll id) "" (λ o _ d, (output o id, None, d)).

Definition ContainerInspect (id : string) : M (list Mount * error) :=
  extern (CallContainerInspect id) [] (λ _ _ d, inspect id d).

Definition ContainerExecCreate (id : string) (cmd : list string)
    : M (string * error) :=
  extern (CallContainerExecCreate id cmd) "" (λ o _ d, exec_create id cmd o d).

Definition ContainerExecAttach (execID : string) : M (string * error) :=
  extern (CallContainerExecAttach execID) "" (λ _ _ d, exec_attach execID d).

(** [stdcopy.StdCopy] on the attached stream of exec session [execID]. *)
Definition StdCopy (execID : string) : M (string * string * error) :=
  extern (CallStdCopy execID) ("", "") (λ _ _ d, std_copy execID d).

Definition ContainerExecInspect (execID : string) : M (Z * error) :=
  extern (CallContainerExecInspect execID) 0%Z (λ _ _ d, exec_inspect execID d).

Definition NetworkList : M (list NetworkResource * error) :=
  extern CallNetworkList [] (λ _ _ d, (networks d, None, d)).

Definition NetworkCreate (name driver : string) : M (string * error) :=
  extern (CallNetworkCreate name driver) "" (λ _ _ d, network_create name driver d).

Definition NetworkRemove (id : string) : M (unit * error) :=
  extern (CallNetworkRemove id) tt (λ _ _ d, network_remove id d).

(** [client.Get(url)]: the status code of the response. *)
Definition HttpGet (c : HttpClient) (url : string) : M (Z * error) :=
  extern (CallHttpGet c url) 0%Z (λ o t d, (http_status o t url, None, d)).

(** [time.Sleep]. *)
Definition Sleep (seconds : Z) : M unit := effect (CallSleep seconds).

(** [fmt.Printf] and [fmt.Println]. *)
Definition Printf (format : string) (args : list string) : M unit :=
  effect (CallPrint format args).

Definition ReadFile (path : string) : M (string * error) :=
  extern (CallReadFile path) "" (λ o t d, (file o t path, None, d)).

Definition Getwd : M (string * error) :=
  extern CallGetwd "" (λ o _ d, (cwd o, None, d)).

Definition MkdirAll (path : string) : M (unit * error) :=
  extern (CallMkdirAll path) tt (λ _ _ d, (tt, None, d)).

Definition Stat (path : string) : M (unit * error) :=
  extern (CallStat path) tt (λ _ _ d, (tt, None, d)).

Definition Remove (path : string) : M (unit * error) :=
  extern (CallRemove path) tt (λ _ _ d, (tt, None, d)).

End client.

(** ** Package docker: the engine adapter *)
Module docker.
Import client.

(** [nat.NewPort(proto, port)] of the go-connections library: the port's
    name, or the error of a port that does not parse. *)
Class GoConnections := {
  NewPort : string → string → string * error
}.

(** [DockerClient.EnsureImage] is defined in a file of the package that is
    not part of the sources at hand; it is a parameter of what calls it. *)
Class ImageStore := {
  EnsureImage : string → M error
}.

Record ExposedPorts := {
  Port : string;
  Protocol : string
}.

Record ContainerConfig := {
  Name : string;
  Image : string;
  Ports : list ExposedPorts;
  HostName : string;
  NetworkName : string;
  Volumes : list Mount;
  Command : list string;
  Env : list string;
  Labels : gmap string string
}.

Record ExecResult := {
  StdOut : string;
  StdErr : string;
  ExitCode : Z
}.

(** [ExecResult{}]. *)
Definition ExecResult_zero : ExecResult :=
  {| StdOut := ""; StdErr := ""; ExitCode := 0 |}.

Record portConfig := {
  PortBindings : gmap string (list string);
  PortSet : gset string
}.

(** [ListContainers]: identifiers of the containers of a site, or of all
    sites if no site is given. *)
Definition ListContainers (site : string) : M (list string * error) :=
  let f := if Nat.eqb (String.length site) 0
           then [("label", "kana.site")]
           else [("label", fmt.Sprintf "kana.site=%s" [site])] in
  let* (containers, err) := ContainerList true f in
  match err with
  | Some _ => ret ([], err)
  | None => ret (map ID containers, None)
  end.

(** The inner loop of [IsContainerRunning]: one of the container's names,
    stripped of slashes, is [containerName]. *)
Definition named (containerName : string) (container : Container) : bool :=
  existsb (λ name, bool_decide (containerName = gostrings.Trim name "/"))
          (Names container).

(** Its outer loop: the first such container of the listing. *)
Fixpoint find_running (containerName : string) (containers : list Container)
    : string * bool :=
  match containers with
  | [] => ("", false)
  | container :: rest =>
      if named containerName container then (ID container, true)
      else find_running containerName rest
  end.

Definition IsContainerRunning (containerName : string) : M (string * bool) :=
  let* (containers, err) := ContainerList false [] in
  match err with
  | Some _ => ret ("", false)
  | None => ret (find_running containerName containers)
  end.

Definition ContainerGetMounts (containerName : string) : M (list Mount) :=
  let* (containerID, isRunning) := IsContainerRunning containerName in
  if negb isRunning then ret []
  else
    let* (results, _) := ContainerInspect containerID in
    ret results.

Section adapter.
Context `{GoConnections}.

Fixpoint getNetworkConfig_from (ports : list ExposedPorts)
    (portBindings : gmap string (list string)) (portSet : gset string)
    : M portConfig :=
  match ports with
  | [] => ret {| PortBindings := portBindings; PortSet := portSet |}
  | port :: rest =>
      match NewPort (Protocol port) (Port port) with
      | (_, Some err) => panic err
      | (portName, None) =>
          getNetworkConfig_from rest (<[portName := [Port port]]> portBindings)
                                ({[portName]} ∪ portSet)
      end
  end.

Definition getNetworkConfig (ports : list ExposedPorts) : M portConfig :=
  getNetworkConfig_from ports ∅ ∅.

Definition ContainerRun (config : ContainerConfig) : M (string * error) :=
  let* (containerID, isRunning) := IsContainerRunning (Name config) in
  if isRunning then ret (containerID, None)
  else
    let* containerPorts := getNetworkConfig (Ports config) in
    let hostPortBindings :=
      if Nat.ltb 0 (size (PortBindings containerPorts))
      then PortBindings containerPorts else ∅ in
    let endpoints : gset string :=
      if Nat.ltb 0 (String.length (NetworkName config))
      then {[NetworkName config]} else ∅ in
    let* (resp, err) :=
      ContainerCreate
        {| Tty := true;
           ReqImage := Image config;
           client.ExposedPorts := PortSet containerPorts;
           Cmd := Command config;
           Hostname := HostName config;
           client.Env := Env config;
           ReqLabels := Labels config;
           client.PortBindings := hostPortBindings;
           ReqMounts := Volumes config;
           EndpointsConfig := endpoints;
           ReqName := Name config |} in
    match err with
    | Some _ => ret ("", err)
    | None =>
        let* (_, err) := ContainerStart resp in
        match err with
        | Some _ => ret ("", err)
        | None => ret (resp, None)
        end
    end.

Definition ContainerWait (id : string) : M (Z * error) :=
  let* (statusCode, errorCode) := client.ContainerWait id in
  match errorCode with
  | Some _ => ret (0%Z, errorCode)
  | None => ret (statusCode, None)
  end.

(** [io.EOF]. *)
Definition io_EOF : error := Some "EOF".

Definition ContainerLog (id : string) : M (string * error) :=
  let* (reader, err) := ContainerLogs id in
  match err with
  | Some _ => ret ("", err)
  | None =>
      let* (buffer, err) := ReadAll reader in
      if bool_decide (err ≠ None) && bool_decide (err ≠ io_EOF)
      then ret ("", err)
      else ret (buffer, None)
  end.

Definition ContainerRunAndClean (config : ContainerConfig)
    : M (Z * string * error) :=
  let* (id, err) := ContainerRun config in
  match err with
  | Some _ => ret (0%Z, "", err)
  | None =>
      let* (statusCode, err) := ContainerWait id in
      match err with
      | Some _ => ret (statusCode, "", err)
      | None =>
          let* (body, _) := ContainerLog id in
          let* (_, err) := ContainerRemove id in
          (match err with
           | Some e => Printf "Unable to remove container %q: %q\n" [id; e]
           | None => ret tt
           end) ;;;
          ret (statusCode, body, err)
      end
  end.

Definition ContainerStop (containerName : string) : M (bool * error) :=
  let* (containerID, isRunning) := IsContainerRunning containerName in
  if negb isRunning then ret (true, None)
  else
    let* (_, err) := client.ContainerStop containerID in
    match err with
    | Some _ => ret (false, err)
    | None =>
        let* (_, err) := ContainerRemove containerID in
        match err with
        | Some _ => ret (false, err)
        | None => ret (true, None)
        end
    end.

Definition ContainerRestart (containerName : string) : M (bool * error) :=
  let* (containerID, isRunning) := IsContainerRunning containerName in
  if negb isRunning then ret (true, None)
  else
    let* (_, err) := client.ContainerStop containerID in
    match err with
    | Some _ => ret (false, err)
    | None =>
        let* (_, err) := ContainerStart containerID in
        match err with
        | Some _ => ret (false, err)
        | None => ret (true, None)
        end
    end.

Definition ContainerExec (containerName : string) (command : list string)
    : M (ExecResult * error) :=
  let* (containerID, isRunning) := IsContainerRunning containerName in
  if negb isRunning then ret (ExecResult_zero, None)
  else
    let fullCommand := ["sh"; "-c"] ++ command in
    let* (execID, err) := ContainerExecCreate containerID fullCommand in
    match err with
    | Some _ => ret (ExecResult_zero, err)
    | None =>
        let* (aresp, err) := ContainerExecAttach execID in
        match err with
        | Some _ => ret (ExecResult_zero, err)
        | None =>
            let* (outBuf, errBuf, err) := StdCopy aresp in
            match err with
            | Some _ => ret (ExecResult_zero, err)
            | None =>
                let* (iresp, err) := ContainerExecInspect execID in
                match err with
                | Some _ => ret (ExecResult_zero, err)
                | None =>
                    ret ({| ExitCode := iresp; StdOut := outBuf;
                            StdErr := errBuf |}, None)
                end
            end
        end
    end.

(** [types.NetworkResource{}]. *)
Definition NetworkResource_zero : NetworkResource :=
  {| NetworkID := ""; client.NetworkName := ""; Driver := "" |}.

Definition findNetworkByName (name : string)
    : M (bool * NetworkResource * error) :=
  let* (networks, err) := NetworkList in
  match err with
  | Some _ => ret (false, NetworkResource_zero, err)
  | None =>
      match List.find (λ n, bool_decide (client.NetworkName n = name)) networks with
      | Some n => ret (true, n, None)
      | None => ret (false, NetworkResource_zero, None)
      end
  end.

Definition findNetworkById (ID : string)
    : M (bool * NetworkResource * error) :=
  let* (networks, err) := NetworkList in
  match err with
  | Some _ => ret (false, NetworkResource_zero, err)
  | None =>
      match List.find (λ n, bool_decide (NetworkID n = ID)) networks with
      | Some n => ret (true, n, None)
      | None => ret (false, NetworkResource_zero, None)
      end
  end.

Definition EnsureNetwork (name : string) : M (bool * NetworkResource * error) :=
  let* (hasNetwork, network, err) := findNetworkByName name in
  match err with
  | Some _ => ret (false, NetworkResource_zero, err)
  | None =>
      if hasNetwork then ret (false, network, None)
      else
        let* (networkCreateResults, err) := NetworkCreate name "bridge" in
        match err with
        | Some _ => ret (false, NetworkResource_zero, err)
        | None =>
            let* (hasNetwork, network, err) :=
              findNetworkById networkCreateResults in
            match err with
            | Some _ => ret (false, NetworkResource_zero, err)
            | None =>
                if hasNetwork then ret (true, network, None)
                else ret (false, NetworkResource_zero,
                          Some "could not create network")
            end
        end
  end.

Definition RemoveNetwork (name : string) : M (bool * error) :=
  let* (hasNetwork, network, err) := findNetworkByName name in
  match err with
  | Some _ => ret (false, err)
  | None =>
      if negb hasNetwork then ret (false, None)
      else
        let* (_, err) := NetworkRemove (NetworkID network) in
        ret (true, err)
  end.

End adapter.

(** [runtime.GOOS], and [exec.Command(name, arg...).Run()] of os/exec: the
    program that is started runs outside the daemon, so running it is a
    parameter of what calls it. *)
Class Host := {
  GOOS : string;
  Command_Run : string → list string → M error
}.

Section availability.
Context `{Host}.

Definition unable_to_start : error := Some "error: unable to start Docker for Mac".

(** The retry loop of [ensureDockerIsAvailable], run on fuel: [retries] is
    the counter, [err] the error of the last call. *)
Fixpoint ensureDockerIsAvailable_loop (fuel : nat) (retries : Z) (err : error)
    : M error :=
  if bool_decide (retries ≤ 12)%Z then
    match fuel with
    | O => out_of_fuel
    | S fuel' =>
        let retries := (retries + 1)%Z in
        if bool_decide (retries = 12%Z) then
          Printf "Restarting Docker is taking too long. We seem to have hit an error" [] ;;;
          ret unable_to_start
        else
          Sleep 5 ;;;
          let* (_, err) := ContainerList false [] in
          match err with
          | None => ret err
          | Some _ => ensureDockerIsAvailable_loop fuel' retries err
          end
    end
  else ret err.

Definition ensureDockerIsAvailable (fuel : nat) : M error :=
  let* (_, err) := ContainerList false [] in
  match err with
  | Some _ =>
      if bool_decide (GOOS = "darwin") then
        Printf "Docker doesn't appear to be running. Trying to start Docker." [] ;;;
        let* err := Command_Run "open" ["-a"; "Docker"] in
        match err with
        | Some _ => ret unable_to_start
        | None => ensureDockerIsAvailable_loop fuel 0 err
        end
      else ret err
  | None => ret err
  end.

End availability.

End docker.

(** ** Package site: the site lifecycle controller *)
Module site.
Import client docker.

Record CurrentConfig := {
  Type_ : string;
  Local : bool;
  Xdebug : bool
}.

Record PluginInfo := {
  Name : string;
  Status : string;
  Update : string;
  Version : string
}.

(** The libraries the package calls and the sources do not contain:
    viper's configuration registry with its typed getters, [path.Join], and
    [json.Unmarshal] into a slice of [PluginInfo]. *)
Class Libraries := {
  Viper : Type;
  GetString : Viper → string → string;
  GetBool : Viper → string → bool;
  path_Join : list string → string;
  json_Unmarshal : string → list PluginInfo * error
}.

(** [appConfig.StaticConfig]: the fields the package reads. *)
Record StaticConfig := {
  SiteName : string;
  SiteDirectory : string;
  AppDirectory : string;
  AppDomain : string;
  WorkingDirectory : string;
  RootCert : string
}.

Section controller.
Context `{GoConnections} `{ImageStore} `{Libraries}.

(** The site; its [dockerClient] is the world the monad threads. *)
Record Site := {
  Static : StaticConfig;
  DynamicConfig : Viper;
  SiteConfig : Viper;
  rootCert : string;
  siteDomain : string;
  secureURL : string;
  url : string
}.

(** Methods of [Site] defined in files of the package that are not part of
    the sources at hand; they are parameters of what calls them. *)
Class SiteMethods := {
  IsLocalSite : Site → M bool;
  GetRunningConfig : Site → M CurrentConfig
}.
Context `{SiteMethods}.

Definition GetSiteContainers (s : Site) : list string :=
  [fmt.Sprintf "kana_%s_database" [SiteName (Static s)];
   fmt.Sprintf "kana_%s_wordpress" [SiteName (Static s)]].

Definition IsSiteRunning (s : Site) : M bool :=
  let* (containers, _) := ListContainers (SiteName (Static s)) in
  ret (negb (Nat.eqb (length containers) 0)).

Definition getLocalAppDir : M (string * error) :=
  let* (cwd, err) := Getwd in
  match err with
  | Some _ => ret ("", err)
  | None =>
      let localAppDir := path_Join [cwd; "wordpress"] in
      let* (_, err) := MkdirAll localAppDir in
      match err with
      | Some _ => ret ("", err)
      | None => ret (localAppDir, None)
      end
  end.

Definition getMounts (s : Site) (appDir siteType : string)
    : M (list Mount * error) :=
  let appVolumes :=
    [{| MountType := "bind"; Source := appDir; Target := "/var/www/html" |}] in
  let* (cwd, err) := Getwd in
  match err with
  | Some _ => ret (appVolumes, err)
  | None =>
      let appVolumes :=
        if bool_decide (siteType = "plugin") then
          appVolumes ++
          [{| MountType := "bind"; Source := cwd;
              Target := path_Join ["/var/www/html"; "wp-content"; "plugins";
                                   SiteName (Static s)] |}]
        else appVolumes in
      let appVolumes :=
        if bool_decide (siteType = "theme") then
          appVolumes ++
          [{| MountType := "bind"; Source := cwd;
              Target := path_Join ["/var/www/html"; "wp-content"; "themes";
                                   SiteName (Static s)] |}]
        else appVolumes in
      ret (appVolumes, None)
  end.

(** The container specifications [StartWordPress] builds: database, then
    application. *)
Definition wordPressContainers (s : Site) (appVolumes : list Mount)
    (databaseDir : string) : list ContainerConfig :=
  let name := SiteName (Static s) in
  [ {| docker.Name := fmt.Sprintf "kana_%s_database" [name];
       docker.Image := "mariadb";
       Ports := [];
       NetworkName := "kana";
       HostName := fmt.Sprintf "kana_%s_database" [name];
       Command := [];
       docker.Env := ["MARIADB_ROOT_PASSWORD=password";
                      "MARIADB_DATABASE=wordpress";
                      "MARIADB_USER=wordpress";
                      "MARIADB_PASSWORD=wordpress"];
       docker.Labels := {["kana.site" := name]};
       Volumes := [{| MountType := "bind"; Source := databaseDir;
                      Target := "/var/lib/mysql" |}] |};
    {| docker.Name := fmt.Sprintf "kana_%s_wordpress" [name];
       docker.Image := fmt.Sprintf "wordpress:php%s" [GetString (SiteConfig s) "php"];
       Ports := [];
       NetworkName := "kana";
       HostName := fmt.Sprintf "kana_%s_wordpress" [name];
       Command := [];
       docker.Env := [fmt.Sprintf "WORDPRESS_DB_HOST=kana_%s_database" [name];
                      "WORDPRESS_DB_USER=wordpress";
                      "WORDPRESS_DB_PASSWORD=wordpress";
                      "WORDPRESS_DB_NAME=wordpress"];
       docker.Labels :=
         list_to_map
           [("traefik.enable", "true");
            (fmt.Sprintf "traefik.http.routers.wordpress-%s-http.entrypoints" [name],
             "web");
            (fmt.Sprintf "traefik.http.routers.wordpress-%s-http.rule" [name],
             fmt.Sprintf "Host(`%s.%s`)" [name; AppDomain (Static s)]);
            (fmt.Sprintf "traefik.http.routers.wordpress-%s.entrypoints" [name],
             "websecure");
            (fmt.Sprintf "traefik.http.routers.wordpress-%s.rule" [name],
             fmt.Sprintf "Host(`%s.%s`)" [name; AppDomain (Static s)]);
            (fmt.Sprintf "traefik.http.routers.wordpress-%s.tls" [name], "true");
            ("kana.site", name)];
       Volumes := appVolumes |} ].

(** The loop of [StartWordPress] over its specifications. *)
Fixpoint runContainers (containers : list ContainerConfig) : M error :=
  match containers with
  | [] => ret None
  | container :: rest =>
      let* err := EnsureImage (docker.Image container) in
      match err with
      | Some _ => ret err
      | None =>
          let* (_, err) := ContainerRun container in
          match err with
          | Some _ => ret err
          | None => runContainers rest
          end
      end
  end.

Definition StartWordPress (s : Site) : M error :=
  let* (_, _, err) := EnsureNetwork "kana" in
  match err with
  | Some _ => ret err
  | None =>
      let appDir := path_Join [SiteDirectory (Static s); "app"] in
      let databaseDir := path_Join [SiteDirectory (Static s); "database"] in
      let* isLocal := IsLocalSite s in
      let* (appDir, err) :=
        if isLocal then
          let* (appDir, err) := getLocalAppDir in
          match err with
          | Some _ => ret (appDir, err)
          | None =>
              let* (_, err) := Stat (path_Join [appDir; "wp-config.php"]) in
              match err with
              | None =>
                  Remove (path_Join [appDir; "wp-config.php"]) ;;;
                  ret (appDir, None)
              | Some _ => ret (appDir, None)
              end
          end
        else ret (appDir, None) in
      match err with
      | Some _ => ret err
      | None =>
          let* (_, err) := MkdirAll appDir in
          match err with
          | Some _ => ret err
          | None =>
              let* (_, err) := MkdirAll databaseDir in
              match err with
              | Some _ => ret err
              | None =>
                  let* (appVolumes, err) :=
                    getMounts s appDir (GetString (SiteConfig s) "type") in
                  match err with
                  | Some _ => ret err
                  | None =>
                      runContainers (wordPressContainers s appVolumes databaseDir)
                  end
              end
          end
      end
  end.

(** The container specification [RunWPCli] builds. *)
Definition wpCliContainer (s : Site) (fullCommand : list string)
    (appVolumes : list Mount) : ContainerConfig :=
  let name := SiteName (Static s) in
  {| docker.Name := fmt.Sprintf "kana_%s_wordpress_cli" [name];
     docker.Image :=
       fmt.Sprintf "wordpress:cli-php%s" [GetString (DynamicConfig s) "php"];
     Ports := [];
     NetworkName := "kana";
     HostName := fmt.Sprintf "kana_%s_wordpress_cli" [name];
     Command := fullCommand;
     docker.Env := [fmt.Sprintf "WORDPRESS_DB_HOST=kana_%s_database" [name];
                    "WORDPRESS_DB_USER=wordpress";
                    "WORDPRESS_DB_PASSWORD=wordpress";
                    "WORDPRESS_DB_NAME=wordpress"];
     docker.Labels := {["kana.site" := name]};
     Volumes := appVolumes |}.

Definition RunWPCli (s : Site) (command : list string) : M (string * error) :=
  let* (_, _, err) := EnsureNetwork "kana" in
  match err with
  | Some _ => ret ("", err)
  | None =>
      let siteDir :=
        path_Join [AppDirectory (Static s); "sites"; SiteName (Static s)] in
      let appDir := path_Join [siteDir; "app"] in
      let* runningConfig := GetRunningConfig s in
      let* (appDir, err) :=
        if Local runningConfig then getLocalAppDir else ret (appDir, None) in
      match err with
      | Some _ => ret ("", err)
      | None =>
          let* (appVolumes, err) := getMounts s appDir (Type_ runningConfig) in
          match err with
          | Some _ => ret ("", err)
          | None =>
              let fullCommand := ["wp"; "--path=/var/www/html"] ++ command in
              let container := wpCliContainer s fullCommand appVolumes in
              let* err := EnsureImage (docker.Image container) in
              match err with
              | Some _ => ret ("", err)
              | None =>
                  let* (_, output, err) := ContainerRunAndClean container in
                  match err with
                  | Some _ => ret ("", err)
                  | None => ret (output, None)
                  end
              end
          end
      end
  end.

(** The loop of [GetInstalledWordPressPlugins] over the parsed list. *)
Fixpoint collectPlugins (s : Site) (rawPlugins : list PluginInfo)
    (plugins : list string) : list string :=
  match rawPlugins with
  | [] => plugins
  | plugin :: rest =>
      if bool_decide (Status plugin ≠ "dropin")
         && bool_decide (Name plugin ≠ SiteName (Static s))
         && bool_decide (Name plugin ≠ "hello")
         && bool_decide (Name plugin ≠ "akismet")
      then collectPlugins s rest (plugins ++ [Name plugin])
      else collectPlugins s rest plugins
  end.

Definition GetInstalledWordPressPlugins (s : Site) : M (list string * error) :=
  let commands := ["plugin"; "list"; "--format=json"] in
  let* (commandOutput, err) := RunWPCli s commands in
  match err with
  | Some _ => ret ([], err)
  | None =>
      let '(rawPlugins, err) := json_Unmarshal commandOutput in
      match err with
      | Some _ => ret ([], err)
      | None => ret (collectPlugins s rawPlugins [], None)
      end
  end.

Definition GetURL (s : Site) (insecure : bool) : string :=
  if insecure then url s else secureURL s.

Definition timeout_reached : error :=
  Some "timeout reached. unable to open site".

(** The loop of [VerifySite], run on fuel: [StatusCode] is the status of the
    last response, [tries] the counter. *)
Fixpoint VerifySite_loop (fuel : nat) (s : Site) (c : HttpClient)
    (StatusCode : Z) (tries : Z) : M (bool * error) :=
  if bool_decide (StatusCode ≠ 200%Z) then
    match fuel with
    | O => out_of_fuel
    | S fuel' =>
        let* (StatusCode, err) := HttpGet c (secureURL s) in
        match err with
        | Some _ => ret (false, err)
        | None =>
            if bool_decide (StatusCode = 200%Z) then ret (true, None)
            else if bool_decide (tries = 30%Z) then ret (false, timeout_reached)
            else
              Sleep 1 ;;;
              VerifySite_loop fuel' s c StatusCode (tries + 1)
        end
    end
  else ret (true, None).

Definition VerifySite (fuel : nat) (s : Site) : M (bool * error) :=
  let* (caCert, err) := ReadFile (rootCert s) in
  match err with
  | Some _ => ret (false, err)
  | None =>
      let caCertPool := [caCert] in
      let c := {| InsecureSkipVerify := true; RootCAs := None |} in
      let* (StatusCode, err) := HttpGet c (secureURL s) in
      match err with
      | Some _ => ret (false, err)
      | None => VerifySite_loop fuel s c StatusCode 0
      end
  end.

Definition runCli (s : Site) (command : string) (restart : bool)
    : M (ExecResult * error) :=
  let container := fmt.Sprintf "kana_%s_wordpress" [SiteName (Static s)] in
  let* (output, err) := ContainerExec container [command] in
  match err with
  | Some _ => ret (ExecResult_zero, err)
  | None =>
      if restart then
        let* (_, err) := ContainerRestart container in
        ret (output, err)
      else ret (output, None)
  end.

Definition xdebugCommands : list string :=
  ["pecl list | grep xdebug";
   "pecl install xdebug";
   "docker-php-ext-enable xdebug";
   "echo 'xdebug.start_with_request=yes' >> /usr/local/etc/php/php.ini";
   "echo 'xdebug.mode=debug' >> /usr/local/etc/php/php.ini";
   "echo 'xdebug.client_host=host.docker.internal' >> /usr/local/etc/php/php.ini";
   "echo 'xdebug.discover_client_host=on' >> /usr/local/etc/php/php.ini";
   "echo 'xdebug.start_with_request=trigger' >> /usr/local/etc/php/php.ini"].

(** The loop of [InstallXdebug]: [i] is the index of the first of [rest],
    [n] is [len(commands)]. *)
Fixpoint InstallXdebug_range (s : Site) (n i : nat) (rest : list string)
    : M (bool * error) :=
  match rest with
  | [] => ret (true, None)
  | command :: rest' =>
      let restart := Nat.eqb (i + 1) n in
      let* (output, err) := runCli s command restart in
      match err with
      | Some _ => ret (false, err)
      | None =>
          if Nat.eqb i 0 && gostrings.Contains (StdOut output) "xdebug"
          then ret (false, None)
          else InstallXdebug_range s n (S i) rest'
      end
  end.

Definition InstallXdebug (s : Site) : M (bool * error) :=
  if negb (GetBool (SiteConfig s) "xdebug") then ret (false, None)
  else
    Printf "Installing Xdebug..." [] ;;;
    InstallXdebug_range s (length xdebugCommands) 0 xdebugCommands.

End controller.

(** Package traefik, viper's [GetStringSlice] and [browser.OpenURL] are not
    part of the sources at hand; they are parameters of what calls them. *)
Class Traefik := {
  TraefikClient : Type;
  NewTraefik : StaticConfig → M (TraefikClient * error);
  MaybeStopTraefik : TraefikClient → M error
}.

Class Browser := {
  OpenURL : string → M error
}.

Section lifecycle.
Context `{GoConnections} `{ImageStore} `{Libraries} `{!SiteMethods}
        `{Traefik} `{Host} `{Browser}.

Class StringSlices := {
  GetStringSlice : Viper → string → list string
}.
Context `{StringSlices}.

(** The loop of [StopWordPress] over the site's containers. *)
Fixpoint stopContainers (wordPressContainers : list string) : M error :=
  match wordPressContainers with
  | [] => ret None
  | wordPressContainer :: rest =>
      let* (_, err) := docker.ContainerStop wordPressContainer in
      match err with
      | Some _ => ret err
      | None => stopContainers rest
      end
  end.

Definition StopWordPress (s : Site) : M error :=
  let wordPressContainers := GetSiteContainers s in
  let* err := stopContainers wordPressContainers in
  match err with
  | Some _ => ret err
  | None =>
      let* (traefikClient, err) := NewTraefik (Static s) in
      match err with
      | Some _ => ret err
      | None => MaybeStopTraefik traefikClient
      end
  end.

Definition InstallWordPress (s : Site) : M error :=
  Printf "Finishing WordPress setup..." [] ;;;
  let setupCommand :=
    ["core";
     "install";
     fmt.Sprintf "--url=%s" [GetURL s false];
     fmt.Sprintf "--title=Kana Development %s: %s"
                 [GetString (SiteConfig s) "type"; SiteName (Static s)];
     fmt.Sprintf "--admin_user=%s" [GetString (DynamicConfig s) "admin.username"];
     fmt.Sprintf "--admin_password=%s" [GetString (DynamicConfig s) "admin.password"];
     fmt.Sprintf "--admin_email=%s" [GetString (DynamicConfig s) "admin.email"]] in
  let* (_, err) := RunWPCli s setupCommand in
  ret err.

(** The loop of [InstallDefaultPlugins] over the configured plugins. *)
Fixpoint installPlugins (s : Site) (plugins : list string) : M error :=
  match plugins with
  | [] => ret None
  | plugin :: rest =>
      let setupCommand := ["plugin"; "install"; "--activate"; plugin] in
      let* (_, err) := RunWPCli s setupCommand in
      match err with
      | Some _ => ret err
      | None => installPlugins s rest
      end
  end.

Definition InstallDefaultPlugins (s : Site) : M error :=
  installPlugins s (GetStringSlice (SiteConfig s) "plugins").

Definition openURL (url : string) : M error :=
  if bool_decide (GOOS = "linux") then Command_Run "xdg-open" [url]
  else OpenURL url.

Definition OpenSite (fuel : nat) (s : Site) : M error :=
  let* (_, err) := VerifySite fuel s in
  match err with
  | Some _ => ret err
  | None =>
      openURL (secureURL s) ;;;
      ret None
  end.

End lifecycle.

End site.

(** ** Vocabulary of the statements *)

Import client docker.

(** The events a computation added to the trace. *)
Definition new_events (w w' : World) : list Event :=
  drop (length (trace w)) (trace w').

(** The world after more events, and with another daemon state. *)
Definition extend (evs : list Event) (w : World) : World :=
  {| daemon := daemon w; trace := trace w ++ evs; oracle := oracle w |}.

Definition with_daemon (d : Daemon) (w : World) : World :=
  {| daemon := d; trace := trace w; oracle := oracle w |}.

(** No external call fails for a reason outside the model. *)
Definition quiet (w : World) : Prop := ∀ n, fault (oracle w) n = None.

(** A running container answers to [name], as the adapter compares names. *)
Definition is_running (name : string) (d : Daemon) : bool :=
  existsb (λ c, Running c && named name c) (containers d).

(** The containers that answer to [name], running or not. *)
Definition containers_named (name : string) (d : Daemon) : list Container :=
  List.filter (named name) (containers d).

(** The daemon's names are distinct and in its canonical form: a slash,
    then a non-empty name without a slash at either end. *)
Definition canonical (n : string) : Prop :=
  ∃ bare, n = "/" +:+ bare ∧ bare ≠ "" ∧ gostrings.Trim bare "/" = bare.

Definition well_formed (d : Daemon) : Prop :=
  Forall canonical (all_names d) ∧ NoDup (all_names d).

(** The ownership label of a site, and of any site. *)
Definition carries_site (name : string) (c : Container) : bool :=
  bool_decide (client.Labels c !! "kana.site" = Some name).

Definition carries_any_site (c : Container) : bool :=
  bool_decide (is_Some (client.Labels c !! "kana.site")).

(** What [ListContainers] selects: the containers of the site, or of any
    site when the name is empty. *)
Definition site_filter (name : string) : list (string * string) :=
  if bool_decide (name = "") then [("label", "kana.site")]
  else [("label", "kana.site=" +:+ name)].

Definition site_label_present (name : string) (d : Daemon) : bool :=
  existsb (if bool_decide (name = "") then carries_any_site else carries_site name)
          (containers d).

(** The listing [IsContainerRunning] makes. *)
Definition list_running_event : Event := Ev (CallContainerList false []) None.

(** [k] such listings in a row from the call number [start], each with the
    fault the environment has for it. *)
Fixpoint listing_events (o : Oracle) (start k : nat) : list Event :=
  match k with
  | O => []
  | S k' => Ev (CallContainerList false []) (fault o start)
            :: listing_events o (S start) k'
  end.

(** The exec session the daemon creates next for [cmd] in container [id]. *)
Definition next_exec (id : string) (cmd : list string) (w : World) : Exec :=
  let r := exec_result (oracle w) (length (execs (daemon w))) id cmd in
  {| ExecID := fresh (map ExecID (execs (daemon w)));
     ExecContainer := id; ExecCmd := cmd;
     ExecStdOut := r.1.1; ExecStdErr := r.1.2; ExecExitCode := r.2 |}.

Definition add_exec (e : Exec) (d : Daemon) : Daemon :=
  {| containers := containers d; networks := networks d; execs := execs d ++ [e] |}.

(** The calls of one successful [ContainerExec]. *)
Definition exec_events (id : string) (cmd : list string) (execID : string)
    : list Event :=
  [list_running_event;
   Ev (CallContainerExecCreate id cmd) None;
   Ev (CallContainerExecAttach execID) None;
   Ev (CallStdCopy execID) None;
   Ev (CallContainerExecInspect execID) None].

(** The commands handed to the daemon for execution, in order. *)
Definition commands_run (evs : list Event) : list (string * list string) :=
  omap (λ ev, match ev with
              | Ev (CallContainerExecCreate id cmd) _ => Some (id, cmd)
              | _ => None
              end) evs.

(** The stop and start requests, in order. *)
Definition restart_calls (evs : list Event) : list Call :=
  omap (λ ev, match ev with
              | Ev (CallContainerStop id) _ => Some (CallContainerStop id)
              | Ev (CallContainerStart id) _ => Some (CallContainerStart id)
              | _ => None
              end) evs.

(** The HTTP requests and the pauses of a trace. *)
Definition http_requests (evs : list Event) : list (HttpClient * string) :=
  omap (λ ev, match ev with
              | Ev (CallHttpGet c u) _ => Some (c, u)
              | _ => None
              end) evs.

Definition pauses (evs : list Event) : list Z :=
  omap (λ ev, match ev with
              | Ev (CallSleep n) _ => Some n
              | _ => None
              end) evs.

(** The client [VerifySite] builds. *)
Definition insecure_client : HttpClient :=
  {| InsecureSkipVerify := true; RootCAs := None |}.

(** The request [ContainerRun] sends for a specification. *)
Definition create_request (config : ContainerConfig) (containerPorts : portConfig)
    : CreateRequest :=
  {| Tty := true;
     ReqImage := Image config;
     client.ExposedPorts := PortSet containerPorts;
     Cmd := Command config;
     Hostname := HostName config;
     client.Env := Env config;
     ReqLabels := Labels config;
     client.PortBindings :=
       if Nat.ltb 0 (size (PortBindings containerPorts))
       then PortBindings containerPorts else ∅;
     ReqMounts := Volumes config;
     EndpointsConfig :=
       if Nat.ltb 0 (String.length (NetworkName config))
       then {[NetworkName config]} else ∅;
     ReqName := Name config |}.

(** Every container that answers to [name] has identifier [id]. *)
Definition named_only (name id : string) (d : Daemon) : Prop :=
  ∀ c, c ∈ containers d → named name c = true → ID c = id.

(** The daemon without the containers of identifier [id]. *)
Definition without (id : string) (d : Daemon) : Daemon :=
  with_containers (List.filter (λ c, negb (has_id id c)) (containers d)) d.

Definition removal_notice (id e : string) : Event :=
  Ev (CallPrint "Unable to remove container %q: %q\n" [id; e]) None.

(** The operations of the adapter on containers and networks. *)
Inductive Operation :=
| OpListContainers (site : string)
| OpIsContainerRunning (name : string)
| OpContainerGetMounts (name : string)
| OpContainerRun (config : ContainerConfig)
| OpContainerWait (id : string)
| OpContainerLog (id : string)
| OpContainerRunAndClean (config : ContainerConfig)
| OpContainerStop (name : string)
| OpContainerRestart (name : string)
| OpContainerExec (name : string) (command : list string)
| OpEnsureNetwork (name : string)
| OpRemoveNetwork (name : string).

Section adapter_vocabulary.
Context `{GoConnections}.

(** The error an operation returns to its caller; [IsContainerRunning] and
    [ContainerGetMounts] have no error result. *)
Definition returned_error (op : Operation) : M error :=
  match op with
  | OpListContainers site => let* (_, err) := ListContainers site in ret err
  | OpIsContainerRunning name => let* _ := IsContainerRunning name in ret None
  | OpContainerGetMounts name => let* _ := ContainerGetMounts name in ret None
  | OpContainerRun config => let* (_, err) := ContainerRun config in ret err
  | OpContainerWait id => let* (_, err) := docker.ContainerWait id in ret err
  | OpContainerLog id => let* (_, err) := ContainerLog id in ret err
  | OpContainerRunAndClean config =>
      let* (_, _, err) := ContainerRunAndClean config in ret err
  | OpContainerStop name => let* (_, err) := docker.ContainerStop name in ret err
  | OpContainerRestart name => let* (_, err) := ContainerRestart name in ret err
  | OpContainerExec name command =>
      let* (_, err) := ContainerExec name command in ret err
  | OpEnsureNetwork name => let* (_, _, err) := EnsureNetwork name in ret err
  | OpRemoveNetwork name => let* (_, err) := RemoveNetwork name in ret err
  end.

End adapter_vocabulary.

(** The requests to the daemon ([d.client]); reads of a response stream,
    HTTP requests and calls of the operating system are not among them. *)
Definition daemon_call (c : Call) : bool :=
  match c with
  | CallContainerList _ _ | CallContainerCreate _ | CallContainerStart _
  | CallContainerStop _ | CallContainerRemove _ | CallContainerWait _
  | CallContainerLogs _ | CallContainerInspect _
  | CallContainerExecCreate _ _ | CallContainerExecAttach _
  | CallContainerExecInspect _
  | CallNetworkList | CallNetworkCreate _ _ | CallNetworkRemove _ => true
  | _ => false
  end.

(** The requests whose failure an operation absorbs: the listing by which a
    name is resolved, the inspection behind [ContainerGetMounts], and the
    log request of [ContainerRunAndClean]. *)
Definition absorbed (op : Operation) (c : Call) : bool :=
  match c with
  | CallContainerList false [] => true
  | CallContainerInspect _ => true
  | CallContainerLogs _ =>
      match op with
      | OpContainerRunAndClean _ => true
      | _ => false
      end
  | _ => false
  end.

(** The failed requests of a trace that an operation does not absorb. *)
Definition unabsorbed_failures (op : Operation) (evs : list Event) : list string :=
  omap (λ ev, match ev with
              | Ev c (Some e) =>
                  if daemon_call c && negb (absorbed op c) then Some e else None
              | Ev _ None => None
              end) evs.

(** The images of the containers a trace asks the daemon to create. *)
Definition images_requested (evs : list Event) : list string :=
  omap (λ ev, match ev with
              | Ev (CallContainerCreate req) _ => Some (ReqImage req)
              | _ => None
              end) evs.

(** A command that appends a line to php.ini. *)
Definition appends_to_ini (command : string * list string) : bool :=
  existsb (λ c, gostrings.HasPrefix c "echo "
                && gostrings.Contains c " >> /usr/local/etc/php/php.ini")
          command.2.

Section site_vocabulary.
Context `{site.Libraries}.

Definition get_event (s : site.Site) : Event :=
  Ev (CallHttpGet insecure_client (site.secureURL s)) None.

Definition sleep_event : Event := Ev (CallSleep 1) None.

(** [k] rounds of a request and a pause, then a last request. *)
Definition polls (s : site.Site) (k : nat) : list Event :=
  concat (replicate k [get_event s; sleep_event]) ++ [get_event s].

(** An entry is kept if its status is not [dropin] and its name is none of
    the site's own slug, [hello] and [akismet]. *)
Definition kept (s : site.Site) (p : site.PluginInfo) : bool :=
  bool_decide (site.Status p ≠ "dropin"
               ∧ site.Name p ∉ [site.SiteName (site.Static s); "hello"; "akismet"]).

(** The application container of a site. *)
Definition app_container (s : site.Site) : string :=
  "kana_" +:+ site.SiteName (site.Static s) +:+ "_wordpress".

Definition shell (command : string) : list string := ["sh"; "-c"; command].

Definition restart_events (id : string) : list Event :=
  [list_running_event; Ev (CallContainerStop id) None;
   Ev (CallContainerStart id) None].

(** What the check for an installed extension prints, as the first command
    run in container [id]. *)
Definition check_output (id : string) (w : World) : string :=
  (exec_result (oracle w) (length (execs (daemon w))) id
               (shell "pecl list | grep xdebug")).1.1.

Definition installing_event : Event :=
  Ev (CallPrint "Installing Xdebug..." []) None.

End site_vocabulary.

(** *** Networks and ports *)

(** The first network of the daemon's list that carries the name. *)
Definition network_named (name : string) (d : Daemon) : option NetworkResource :=
  List.find (λ n, bool_decide (client.NetworkName n = name)) (networks d).

Definition add_network (n : NetworkResource) (d : Daemon) : Daemon :=
  {| containers := containers d; networks := networks d ++ [n]; execs := execs d |}.

(** The daemon without the networks of identifier [id]. *)
Definition without_network (id : string) (d : Daemon) : Daemon :=
  {| containers := containers d;
     networks := List.filter (λ n, negb (bool_decide (NetworkID n = id))) (networks d);
     execs := execs d |}.

(** The bridge network the daemon creates next under [name]. *)
Definition next_network (name : string) (d : Daemon) : NetworkResource :=
  {| NetworkID := fresh (map NetworkID (networks d));
     client.NetworkName := name; Driver := "bridge" |}.

Section creation_vocabulary.
Context `{GoConnections}.

(** The name [nat.NewPort] gives a port, and the error of a port that does
    not parse. *)
Definition port_name (port : ExposedPorts) : string :=
  (NewPort (Protocol port) (Port port)).1.

Definition port_error (port : ExposedPorts) : error :=
  (NewPort (Protocol port) (Port port)).2.

(** The error of the first port of the list that does not parse. *)
Fixpoint first_port_error (ports : list ExposedPorts) : error :=
  match ports with
  | [] => None
  | port :: rest =>
      match port_error port with
      | Some e => Some e
      | None => first_port_error rest
      end
  end.

(** The port configuration of a list of ports that all parse. *)
Definition port_config (ports : list ExposedPorts) : portConfig :=
  {| PortBindings := foldl (λ m port, <[port_name port := [Port port]]> m) ∅ ports;
     PortSet := foldl (λ s port, {[port_name port]} ∪ s) ∅ ports |}.

(** The container the daemon creates for a specification, as it is once
    created, and the daemon with it. *)
Definition created (config : ContainerConfig) (d : Daemon) : Container :=
  new_container (create_request config (port_config (Ports config)))
                (fresh (map ID (containers d))) (full_name (Name config)).

Definition add_container (c : Container) (d : Daemon) : Daemon :=
  with_containers (containers d ++ [c]) d.

(** The calls of a [ContainerRun] that creates the container. *)
Definition run_events (config : ContainerConfig) (d : Daemon) : list Event :=
  [list_running_event;
   Ev (CallContainerCreate (create_request config (port_config (Ports config)))) None;
   Ev (CallContainerStart (fresh (map ID (containers d)))) None].

(** The calls of a one-shot run that creates its container. *)
Definition one_shot_events (config : ContainerConfig) (d : Daemon) : list Event :=
  run_events config d
  ++ [Ev (CallContainerWait (fresh (map ID (containers d)))) None;
      Ev (CallContainerLogs (fresh (map ID (containers d)))) None;
      Ev (CallReadAll (fresh (map ID (containers d)))) None;
      Ev (CallContainerRemove (fresh (map ID (containers d)))) None].

End creation_vocabulary.

(** The requests for a new container, in order. *)
Definition requests_created (evs : list Event) : list CreateRequest :=
  omap (λ ev, match ev with
              | Ev (CallContainerCreate req) _ => Some req
              | _ => None
              end) evs.

(** The daemon once the network [name] is ensured, and the calls that
    ensure it. *)
Definition ensured (name : string) (d : Daemon) : Daemon :=
  match network_named name d with
  | Some _ => d
  | None => add_network (next_network name d) d
  end.

Definition ensure_events (name : string) (d : Daemon) : list Event :=
  match network_named name d with
  | Some _ => [Ev CallNetworkList None]
  | None => [Ev CallNetworkList None; Ev (CallNetworkCreate name "bridge") None;
             Ev CallNetworkList None]
  end.

(** The world [EnsureNetwork] leaves for the network [name] when the daemon
    answers. *)
Definition network_ensured (name : string) (w : World) : World :=
  extend (ensure_events name (daemon w)) (with_daemon (ensured name (daemon w)) w).

(** What the statements ask of a computation of a package that is not
    embedded here: whenever no call fails, it returns a value that satisfies
    [P], leaves the daemon as it is and asks for no container.  Nothing is
    asked of it when a call fails. *)
Definition returns_quietly {A} (m : M A) (P : A → Prop) : Prop :=
  ∀ w, quiet w →
    ∃ a evs, m w = (Ret a, extend evs w) ∧ P a ∧ requests_created evs = [].

(** *** The daemon that does not answer *)

(** The errors of the listings of a trace, in order. *)
Definition listings (evs : list Event) : list error :=
  omap (λ ev, match ev with
              | Ev (CallContainerList _ _) err => Some err
              | _ => None
              end) evs.

(** [k] retries from the call number [start]: a pause of five seconds, then
    a listing. *)
Fixpoint retry_events (o : Oracle) (start k : nat) : list Event :=
  match k with
  | O => []
  | S k' =>
      Ev (CallSleep 5) None
      :: Ev (CallContainerList false []) (fault o (S start))
      :: retry_events o (S (S start)) k'
  end.

Definition starting_notice : Event :=
  Ev (CallPrint "Docker doesn't appear to be running. Trying to start Docker." [])
     None.

Definition giving_up_notice : Event :=
  Ev (CallPrint "Restarting Docker is taking too long. We seem to have hit an error" [])
     None.

(** *** The containers of a site *)

Section lifecycle_vocabulary.
Context `{site.Libraries} `{site.Traefik}.

(** The database container of a site. *)
Definition database_container (s : site.Site) : string :=
  "kana_" +:+ site.SiteName (site.Static s) +:+ "_database".

(** The end of [StopWordPress]: the proxy is asked to stop if no site is
    left. *)
Definition maybe_stop_traefik (s : site.Site) : M error :=
  let* (traefikClient, err) := site.NewTraefik (site.Static s) in
  match err with
  | Some _ => ret err
  | None => site.MaybeStopTraefik traefikClient
  end.

(** The command-line container of a site. *)
Definition cli_container (s : site.Site) : string :=
  "kana_" +:+ site.SiteName (site.Static s) +:+ "_wordpress_cli".

(** The mounts of a site's containers: the application directory at the
    document root and, for a plugin or a theme, the working directory under
    the site's name among the plugins or the themes. *)
Definition site_mounts (s : site.Site) (appDir siteType cwd : string)
    : list Mount :=
  {| MountType := "bind"; Source := appDir; Target := "/var/www/html" |}
  :: (if bool_decide (siteType = "plugin") then
        [{| MountType := "bind"; Source := cwd;
            Target := site.path_Join ["/var/www/html"; "wp-content"; "plugins";
                                      site.SiteName (site.Static s)] |}]
      else if bool_decide (siteType = "theme") then
        [{| MountType := "bind"; Source := cwd;
            Target := site.path_Join ["/var/www/html"; "wp-content"; "themes";
                                      site.SiteName (site.Static s)] |}]
      else []).

(** The mounts of the command-line container under a running
    configuration, and those of the application container that
    [StartWordPress] asks for, for a local site or not; [cwd] is the working
    directory. *)
Definition cli_mounts (s : site.Site) (cfg : site.CurrentConfig) (cwd : string)
    : list Mount :=
  site_mounts s
    (if site.Local cfg then site.path_Join [cwd; "wordpress"]
     else site.path_Join
            [site.path_Join [site.AppDirectory (site.Static s); "sites";
                             site.SiteName (site.Static s)]; "app"])
    (site.Type_ cfg) cwd.

Definition start_mounts (s : site.Site) (local : bool) (cwd : string)
    : list Mount :=
  site_mounts s
    (if local then site.path_Join [cwd; "wordpress"]
     else site.path_Join [site.SiteDirectory (site.Static s); "app"])
    (site.GetString (site.SiteConfig s) "type") cwd.

End lifecycle_vocabulary.


(** ** A concrete site in concrete worlds *)
Module demo.

Definition connections : GoConnections :=
  {| NewPort proto port := (port +:+ "/" +:+ proto, None) |}.

Definition images : ImageStore :=
  {| EnsureImage _ := ret None |}.

Definition plugin (name status : string) : site.PluginInfo :=
  {| site.Name := name; site.Status := status;
     site.Update := "none"; site.Version := "1.0" |}.

Definition raw_plugins : list site.PluginInfo :=
  [plugin "akismet" "inactive";
   plugin "query-monitor" "active";
   plugin "advanced-cache.php" "dropin";
   plugin "demo" "active";
   plugin "hello" "inactive";
   plugin "classic-editor" "inactive"].

Definition libraries : site.Libraries :=
  {| site.Viper := gmap string string;
     site.GetString v k := default "" (v !! k);
     site.GetBool v k := bool_decide (v !! k = Some "true");
     site.path_Join parts := foldr (λ p rest, if bool_decide (rest = "") then p
                                             else p +:+ "/" +:+ rest) "" parts;
     site.json_Unmarshal out :=
       if bool_decide (out = "[plugins]") then (raw_plugins, None)
       else ([], Some "invalid character") |}.

Definition methods : @site.SiteMethods libraries :=
  {| site.IsLocalSite _ := ret false;
     site.GetRunningConfig _ :=
       ret {| site.Type_ := "site"; site.Local := false; site.Xdebug := false |} |}.

(** An environment in which nothing fails: commands print nothing, the
    endpoint answers 503. *)
Definition answers : Oracle :=
  {| fault _ := None;
     exit_status _ := 0%Z;
     output _ := "[plugins]";
     exec_result _ _ _ := ("", "", 0%Z);
     http_status _ _ := 503%Z;
     file _ _ := "-----BEGIN CERTIFICATE-----";
     cwd := "/home/dev/demo" |}.

(** The same, with the external call number [n] failing. *)
Definition failing_at (n : nat) (e : string) : Oracle :=
  {| fault k := if Nat.eqb k n then Some e else None;
     exit_status := exit_status answers;
     output := output answers;
     exec_result := exec_result answers;
     http_status := http_status answers;
     file := file answers;
     cwd := cwd answers |}.

(** The same as [answers], with the extension reported as installed. *)
Definition xdebug_installed : Oracle :=
  {| fault := fault answers;
     exit_status := exit_status answers;
     output := output answers;
     exec_result _ _ _ := ("xdebug  3.1.5  stable", "", 0%Z);
     http_status := http_status answers;
     file := file answers;
     cwd := cwd answers |}.

Definition container (id name : string) (running : bool) : Container :=
  {| ID := id; Names := ["/" +:+ name]; client.Image := "wordpress:php8.1";
     client.Labels := {["kana.site" := "demo"]}; Mounts := [];
     Running := running |}.

Definition world (cs : list Container) (o : Oracle) : World :=
  {| daemon := {| containers := cs; networks := []; execs := [] |};
     trace := []; oracle := o |}.

(** No container; the application container running; the application
    container stopped. *)
Definition fresh_start : World := world [] answers.

Definition app_running (o : Oracle) : World :=
  world [container "a1" "kana_demo_wordpress" true] o.

Definition app_stopped : World :=
  world [container "a1" "kana_demo_wordpress" false] answers.

Definition static (name : string) : site.StaticConfig :=
  {| site.SiteName := name;
     site.SiteDirectory := "/home/dev/.config/kana/sites/demo";
     site.AppDirectory := "/home/dev/.config/kana";
     site.AppDomain := "sites.kana.li";
     site.WorkingDirectory := "/home/dev/demo";
     site.RootCert := "kana.root.pem" |}.

(** The site [demo]: PHP 7.4 in the dynamic configuration, PHP 8.1 and
    xdebug in the site's own. *)
Definition the_site : @site.Site libraries :=
  {| site.Static := static "demo";
     site.DynamicConfig := {["php" := "7.4"]};
     site.SiteConfig := <["xdebug" := "true"]> {["php" := "8.1"]};
     site.rootCert := "/home/dev/.config/kana/certs/kana.root.pem";
     site.siteDomain := "demo.sites.kana.li";
     site.secureURL := "https://demo.sites.kana.li/";
     site.url := "http://demo.sites.kana.li/" |}.

(** The same site without xdebug, and a site without a name. *)
Definition plain_site : @site.Site libraries :=
  {| site.Static := static "demo";
     site.DynamicConfig := {["php" := "7.4"]};
     site.SiteConfig := {["php" := "7.4"]};
     site.rootCert := "/home/dev/.config/kana/certs/kana.root.pem";
     site.siteDomain := "demo.sites.kana.li";
     site.secureURL := "https://demo.sites.kana.li/";
     site.url := "http://demo.sites.kana.li/" |}.

Definition nameless_site : @site.Site libraries :=
  {| site.Static := static "";
     site.DynamicConfig := {["php" := "7.4"]};
     site.SiteConfig := {["php" := "7.4"]};
     site.rootCert := "/home/dev/.config/kana/certs/kana.root.pem";
     site.siteDomain := ".sites.kana.li";
     site.secureURL := "https://.sites.kana.li/";
     site.url := "http://.sites.kana.li/" |}.

(** A specification by name. *)
Definition spec (name : string) : ContainerConfig :=
  {| docker.Name := name; docker.Image := "wordpress:cli-php7.4"; Ports := [];
     HostName := name; NetworkName := "kana"; Volumes := [];
     Command := ["wp"; "--path=/var/www/html"; "plugin"; "list"];
     docker.Env := []; docker.Labels := {["kana.site" := "demo"]} |}.

(** The world after a first run of the database specification, next to a
    running application container. *)
Definition after_first_run : World :=
  (ContainerRun (H := connections) (spec "kana_demo_database")
                (app_running answers)).2.

(** The one-shot container of the demo site, run and waited for. *)
Definition one_shot : ContainerConfig := spec "kana_demo_wordpress_cli".

Definition after_run (o : Oracle) : World :=
  (ContainerRun (H := connections) one_shot (app_running o)).2.

Definition after_wait (o : Oracle) : World :=
  (docker.ContainerWait "0" (after_run o)).2.

(** Stopping the running application container with the daemon
    unreachable at the stop request (the second call). *)
Definition stop_fails : World :=
  app_running (failing_at 1 "daemon unreachable").

Definition stop_error : error :=
  match (returned_error (H := connections)
           (OpContainerStop "kana_demo_wordpress") stop_fails).1 with
  | Ret err => err
  | _ => None
  end.

(** The certificate cannot be read. *)
Definition no_certificate : World :=
  world [] (failing_at 0 "open kana.root.pem: no such file or directory").

(** *** Hosts, daemons and specifications of the further properties *)

(** Hosts: a Mac on which Docker starts, a Mac on which it cannot be
    started, and a Linux machine. *)
Definition mac : Host :=
  {| GOOS := "darwin"; Command_Run _ _ := ret None |}.

Definition mac_without_docker : Host :=
  {| GOOS := "darwin"; Command_Run _ _ := ret (Some "exit status 1") |}.

Definition linux : Host :=
  {| GOOS := "linux"; Command_Run _ _ := ret None |}.

Definition traefik : site.Traefik :=
  {| site.TraefikClient := unit;
     site.NewTraefik _ := ret (tt, None);
     site.MaybeStopTraefik _ := ret None |}.

(** No browser can be opened. *)
Definition browser : site.Browser :=
  {| site.OpenURL _ := ret (Some "exec: no browser found") |}.

Definition slices : @site.StringSlices libraries :=
  {| site.GetStringSlice _ key :=
       if bool_decide (key = "plugins") then ["query-monitor"; "classic-editor"]
       else [] |}.

(** The daemon does not answer before the call number [n]. *)
Definition down_until (n : nat) : Oracle :=
  {| fault k := if Nat.ltb k n then Some "Cannot connect to the Docker daemon"
                else None;
     exit_status := exit_status answers;
     output := output answers;
     exec_result := exec_result answers;
     http_status := http_status answers;
     file := file answers;
     cwd := cwd answers |}.

(** The daemon never answers. *)
Definition down : Oracle :=
  {| fault _ := Some "Cannot connect to the Docker daemon";
     exit_status := exit_status answers;
     output := output answers;
     exec_result := exec_result answers;
     http_status := http_status answers;
     file := file answers;
     cwd := cwd answers |}.

(** The endpoint answers 503 before the call number [n], 200 from it on. *)
Definition ready_from (n : nat) : Oracle :=
  {| fault := fault answers;
     exit_status := exit_status answers;
     output := output answers;
     exec_result := exec_result answers;
     http_status k _ := if Nat.ltb k n then 503%Z else 200%Z;
     file := file answers;
     cwd := cwd answers |}.

(** Both containers of the site running, and both stopped. *)
Definition site_running (o : Oracle) : World :=
  world [container "d1" "kana_demo_database" true;
              container "a1" "kana_demo_wordpress" true] o.

Definition site_stopped : World :=
  world [container "d1" "kana_demo_database" false;
              container "a1" "kana_demo_wordpress" false] answers.

(** A port parses unless its number is empty. *)
Definition strict_connections : GoConnections :=
  {| NewPort proto port :=
       if bool_decide (port = "") then ("", Some "No port specified")
       else (port +:+ "/" +:+ proto, None) |}.

Definition web_ports : list ExposedPorts :=
  [{| Port := "80"; Protocol := "tcp" |}; {| Port := "443"; Protocol := "tcp" |}].

Definition with_ports (ports : list ExposedPorts) : ContainerConfig :=
  {| docker.Name := "kana_traefik"; docker.Image := "traefik"; Ports := ports;
     HostName := "kana_traefik"; NetworkName := "kana"; Volumes := [];
     Command := []; docker.Env := []; docker.Labels := ∅ |}.

(** A daemon with the network of the tool. *)
Definition with_network (o : Oracle) : World :=
  {| daemon := {| containers := [];
                  networks := [{| NetworkID := "n1"; client.NetworkName := "kana";
                                  Driver := "bridge" |}];
                  execs := [] |};
     trace := []; oracle := o |}.

(** The application container running, with the daemon unreachable at the
    removal request (the third call), and what [ContainerStop] leaves. *)
Definition removal_fails : World :=
  app_running (failing_at 2 "daemon unreachable").

Definition left_stopped : World :=
  extend [list_running_event; Ev (CallContainerStop "a1") None;
          Ev (CallContainerRemove "a1") (Some "daemon unreachable")]
         (with_daemon (set_running "a1" false (daemon removal_fails)) removal_fails).

(** The world after the network was ensured. *)
Definition after_network : World := (EnsureNetwork "kana" fresh_start).2.

(** The daemon does not answer; the notice printed, Docker is launched. *)
Definition no_daemon (o : Oracle) : World := world [] o.

Definition launched (o : Oracle) : World :=
  extend [Ev (CallContainerList false []) (Some "Cannot connect to the Docker daemon");
          starting_notice] (no_daemon o).

(** The command-line container of the site left behind, stopped, by an
    earlier command. *)
Definition cli_left_over : World :=
  world [container "c1" "kana_demo_wordpress_cli" false] answers.

(** An image store that asks the daemon, and returns the failure of its
    request. *)
Definition checking_images : ImageStore :=
  {| EnsureImage _ := let* (_, err) := ContainerList true [] in ret err |}.

End demo.

(** ** Frame lemmas of the monad *)

Lemma extend_extend evs evs' w :
  extend evs' (extend evs w) = extend (evs ++ evs') w.
Proof. unfold extend; simpl. by rewrite app_assoc. Qed.

Lemma extend_nil w : extend [] w = w.
Proof. destruct w. unfold extend; simpl. by rewrite app_nil_r. Qed.

Lemma log_extend e w : log e w = extend [e] w.
Proof. done. Qed.

Lemma with_daemon_same w : with_daemon (daemon w) w = w.
Proof. by destruct w. Qed.

Lemma with_daemon_extend d evs w :
  with_daemon d (extend evs w) = extend evs (with_daemon d w).
Proof. done. Qed.

Lemma new_events_extend evs w : new_events w (extend evs w) = evs.
Proof. unfold new_events, extend; simpl. by rewrite drop_app_length. Qed.

Lemma new_events_extend_daemon evs d w :
  new_events w (extend evs (with_daemon d w)) = evs.
Proof. unfold new_events, extend; simpl. by rewrite drop_app_length. Qed.

(** An external call that meets a fault returns it and changes nothing. *)
Lemma extern_fault {A} (c : Call) (zero : A) sem w e :
  fault (oracle w) (clock w) = Some e →
  extern c zero sem w = (Ret (zero, Some e), extend [Ev c (Some e)] w).
Proof. intros Hf. unfold extern. by rewrite Hf. Qed.

(** Otherwise it takes the daemon's step. *)
Lemma extern_step {A} (c : Call) (zero : A) sem w a err d :
  fault (oracle w) (clock w) = None →
  sem (oracle w) (clock w) (daemon w) = (a, err, d) →
  extern c zero sem w = (Ret (a, err), extend [Ev c err] (with_daemon d w)).
Proof. intros Hf Hs. unfold extern. by rewrite Hf, Hs. Qed.

(** Every external call returns, adds one event that records its error, and
    leaves the oracle alone. *)
Lemma extern_inv {A} (c : Call) (zero : A) sem w :
  ∃ a err d,
    extern c zero sem w = (Ret (a, err), extend [Ev c err] (with_daemon d w)).
Proof.
  destruct (fault (oracle w) (clock w)) as [e|] eqn:Hf.
  - exists zero, (Some e), (daemon w).
    rewrite with_daemon_same. by apply extern_fault.
  - destruct (sem (oracle w) (clock w) (daemon w)) as [[a err] d] eqn:Hs.
    exists a, err, d. by apply extern_step.
Qed.

(** ** Strings *)

Lemma append_empty_r (s : string) : s +:+ "" = s.
Proof.
  induction s as [|c s IH]; [done|].
  unfold String.app in *. simpl. by rewrite IH.
Qed.

Lemma Sprintf_site name :
  fmt.Sprintf "kana.site=%s" [name] = "kana.site=" +:+ name.
Proof.
  change (fmt.Sprintf "kana.site=%s" [name]) with ("kana.site=" +:+ (name +:+ "")).
  by rewrite append_empty_r.
Qed.

Lemma length_zero_empty (s : string) :
  Nat.eqb (String.length s) 0 = bool_decide (s = "").
Proof. by destruct s. Qed.

(** ** The listing of a site's containers *)

Lemma site_filter_matches name c :
  matches_filters [("label", "kana.site=" +:+ name)] c = carries_site name c.
Proof.
  unfold matches_filters, matches_label, carries_site. simpl.
  by rewrite andb_true_r.
Qed.

Lemma any_site_filter_matches c :
  matches_filters [("label", "kana.site")] c = carries_any_site c.
Proof.
  unfold matches_filters, matches_label, carries_any_site. simpl.
  by rewrite andb_true_r.
Qed.

Lemma listed_site name d :
  listed true (site_filter name) d =
  List.filter (if bool_decide (name = "") then carries_any_site
               else carries_site name) (containers d).
Proof.
  unfold listed, site_filter. apply List.filter_ext. intros c.
  destruct (bool_decide (name = "")).
  - by rewrite any_site_filter_matches.
  - by rewrite site_filter_matches.
Qed.

Lemma nonempty_filter_existsb {A B} (f : A → B) (p : A → bool) (l : list A) :
  negb (Nat.eqb (length (map f (List.filter p l))) 0) = existsb p l.
Proof.
  induction l as [|a l IH]; simpl; [done|].
  destruct (p a); simpl; [done|]. apply IH.
Qed.

Lemma ListContainers_spec name w :
  ListContainers name w =
  (Ret (match fault (oracle w) (clock w) with
        | Some e => ([], Some e)
        | None => (map ID (listed true (site_filter name) (daemon w)), None)
        end),
   extend [Ev (CallContainerList true (site_filter name))
              (fault (oracle w) (clock w))] w).
Proof.
  unfold ListContainers, bind, ContainerList.
  rewrite length_zero_empty, Sprintf_site. fold (site_filter name).
  destruct (fault (oracle w) (clock w)) as [e|] eqn:Hf.
  - by rewrite (extern_fault _ _ _ _ e).
  - erewrite extern_step; [|done|done]. by rewrite with_daemon_same.
Qed.

(** ** Resolving a name to a running container *)

Lemma IsContainerRunning_answer name w :
  fault (oracle w) (clock w) = None →
  IsContainerRunning name w =
  (Ret (find_running name (listed false [] (daemon w))),
   extend [list_running_event] w).
Proof.
  intros Hf. unfold IsContainerRunning, bind, ContainerList.
  erewrite extern_step; [|done|done]. by rewrite with_daemon_same.
Qed.

Lemma IsContainerRunning_fault name w e :
  fault (oracle w) (clock w) = Some e →
  IsContainerRunning name w =
  (Ret ("", false), extend [Ev (CallContainerList false []) (Some e)] w).
Proof.
  intros Hf. unfold IsContainerRunning, bind, ContainerList.
  by rewrite (extern_fault _ _ _ _ e).
Qed.

Lemma listed_running d :
  listed false [] d = List.filter Running (containers d).
Proof.
  unfold listed. apply List.filter_ext. intros c. simpl. by rewrite andb_true_r.
Qed.

Lemma find_running_none name cs :
  existsb (λ c, Running c && named name c) cs = false →
  find_running name (List.filter Running cs) = ("", false).
Proof.
  induction cs as [|c cs IH]; simpl; [done|].
  intros [Hc Hcs]%orb_false_iff.
  destruct (Running c); simpl in *; [rewrite Hc|]; auto.
Qed.

(** The container a name resolves to is known to the daemon, running, and
    answers to the name. *)
Lemma find_running_sound name cs id :
  find_running name (List.filter Running cs) = (id, true) →
  ∃ c, c ∈ cs ∧ ID c = id ∧ Running c = true ∧ named name c = true.
Proof.
  induction cs as [|c cs IH]; simpl; [done|].
  destruct (Running c) eqn:Hr; simpl.
  - destruct (named name c) eqn:Hn.
    + intros [= <-]. exists c. split; [left|done].
    + intros (c' & ? & ?)%IH. exists c'. split; [by right|done].
  - intros (c' & ? & ?)%IH. exists c'. split; [by right|done].
Qed.

Lemma found_running name d id :
  find_running name (listed false [] d) = (id, true) →
  existsb (λ c, has_id id c && Running c) (containers d) = true.
Proof.
  rewrite listed_running. intros (c & Hin & Hid & Hr & _)%find_running_sound.
  apply existsb_exists. exists c. split; [by apply list_elem_of_In|].
  unfold has_id. by rewrite bool_decide_true, Hr.
Qed.

Lemma running_known id cs :
  existsb (λ c, has_id id c && Running c) cs = true →
  existsb (has_id id) cs = true.
Proof.
  induction cs as [|c cs IH]; simpl; [done|].
  intros [[-> _]%andb_true_iff|?]%orb_true_iff; [done|].
  rewrite IH by done. by rewrite orb_true_r.
Qed.

Lemma IsContainerRunning_not_running name w :
  is_running name (daemon w) = false →
  IsContainerRunning name w =
  (Ret ("", false),
   extend [Ev (CallContainerList false []) (fault (oracle w) (clock w))] w).
Proof.
  intros Hn. destruct (fault (oracle w) (clock w)) as [e|] eqn:Hf.
  - by apply IsContainerRunning_fault.
  - rewrite IsContainerRunning_answer by done.
    by rewrite listed_running, find_running_none.
Qed.

(** C8: for every container name that no running container answers to, and
    every command, [ContainerExec] returns the empty result and no error;
    the only call it makes is the listing of the running containers, so no
    exec session is created and the daemon's state is unchanged. *)
Theorem ContainerExec_not_running name command w :
  is_running name (daemon w) = false →
  ContainerExec name command w =
  (Ret ({| StdOut := ""; StdErr := ""; ExitCode := 0 |}, None),
   extend [Ev (CallContainerList false []) (fault (oracle w) (clock w))] w).
Proof.
  intros Hn. unfold ContainerExec, bind.
  by rewrite IsContainerRunning_not_running.
Qed.

(** ** The daemon's calls on a state that allows them *)

Lemma exec_exists (e : Exec) es :
  List.find (has_exec_id (ExecID e)) es = Some e →
  existsb (has_exec_id (ExecID e)) es = true.
Proof.
  intros Hf. apply existsb_exists. exists e. split.
  - by apply find_some in Hf as [? _].
  - unfold has_exec_id. by rewrite bool_decide_true.
Qed.

(** A session with a fresh identifier is the one found under it. *)
Lemma find_fresh_exec (e : Exec) es :
  ExecID e = fresh (map ExecID es) →
  List.find (has_exec_id (ExecID e)) (es ++ [e]) = Some e.
Proof.
  intros He.
  assert (Hnot : ∀ x, x ∈ es → has_exec_id (ExecID e) x = false).
  { intros x Hx. unfold has_exec_id. apply bool_decide_eq_false. intros Heq.
    apply (infinite_is_fresh (map ExecID es)). rewrite <- He, <- Heq.
    by apply list_elem_of_fmap_2. }
  clear He. induction es as [|x es IH]; simpl.
  - unfold has_exec_id. by rewrite bool_decide_true.
  - rewrite Hnot by left. apply IH. intros y Hy. apply Hnot. by right.
Qed.

Lemma ContainerExecCreate_running id cmd w :
  fault (oracle w) (clock w) = None →
  existsb (λ c, has_id id c && Running c) (containers (daemon w)) = true →
  ContainerExecCreate id cmd w =
  (Ret (ExecID (next_exec id cmd w), None),
   extend [Ev (CallContainerExecCreate id cmd) None]
          (with_daemon (add_exec (next_exec id cmd w) (daemon w)) w)).
Proof.
  intros Hf Hrun. apply extern_step; [done|].
  unfold exec_create, known. rewrite (running_known _ _ Hrun), Hrun. cbn [negb].
  unfold next_exec, add_exec.
  by destruct (exec_result _ _ _ _) as [[out err] code].
Qed.

Lemma ContainerExecAttach_found (e : Exec) w :
  fault (oracle w) (clock w) = None →
  List.find (has_exec_id (ExecID e)) (execs (daemon w)) = Some e →
  ContainerExecAttach (ExecID e) w =
  (Ret (ExecID e, None), extend [Ev (CallContainerExecAttach (ExecID e)) None] w).
Proof.
  intros Hf Hfind. unfold ContainerExecAttach.
  erewrite extern_step; [|done|unfold exec_attach; by rewrite exec_exists].
  by rewrite with_daemon_same.
Qed.

Lemma StdCopy_found (e : Exec) w :
  fault (oracle w) (clock w) = None →
  List.find (has_exec_id (ExecID e)) (execs (daemon w)) = Some e →
  StdCopy (ExecID e) w =
  (Ret (ExecStdOut e, ExecStdErr e, None),
   extend [Ev (CallStdCopy (ExecID e)) None] w).
Proof.
  intros Hf Hfind. unfold StdCopy.
  erewrite extern_step; [|done|unfold std_copy; by rewrite Hfind].
  by rewrite with_daemon_same.
Qed.

Lemma ContainerExecInspect_found (e : Exec) w :
  fault (oracle w) (clock w) = None →
  List.find (has_exec_id (ExecID e)) (execs (daemon w)) = Some e →
  ContainerExecInspect (ExecID e) w =
  (Ret (ExecExitCode e, None),
   extend [Ev (CallContainerExecInspect (ExecID e)) None] w).
Proof.
  intros Hf Hfind. unfold ContainerExecInspect.
  erewrite extern_step; [|done|unfold exec_inspect; by rewrite Hfind].
  by rewrite with_daemon_same.
Qed.

(** [ContainerExec] in a running container, with a daemon that answers. *)
Lemma ContainerExec_running name command id w :
  quiet w →
  find_running name (listed false [] (daemon w)) = (id, true) →
  let cmd := ["sh"; "-c"] ++ command in
  let e := next_exec id cmd w in
  ContainerExec name command w =
  (Ret ({| StdOut := ExecStdOut e; StdErr := ExecStdErr e;
           ExitCode := ExecExitCode e |}, None),
   extend (exec_events id cmd (ExecID e)) (with_daemon (add_exec e (daemon w)) w)).
Proof.
  intros Hq Hfind cmd e. unfold ContainerExec, bind.
  rewrite IsContainerRunning_answer by apply Hq. rewrite Hfind. cbn [negb].
  pose proof (found_running _ _ _ Hfind) as Hrun.
  rewrite ContainerExecCreate_running by (done || apply Hq). fold cmd e.
  assert (Hfound : ∀ evs, List.find (has_exec_id (ExecID e))
            (execs (daemon (extend evs (with_daemon (add_exec e (daemon w)) w))))
            = Some e).
  { intros evs. cbn [extend with_daemon daemon add_exec execs].
    by apply find_fresh_exec. }
  rewrite !with_daemon_extend, !extend_extend.
  rewrite ContainerExecAttach_found by (apply Hq || apply Hfound).
  rewrite !extend_extend.
  rewrite StdCopy_found by (apply Hq || apply Hfound).
  rewrite !extend_extend.
  rewrite ContainerExecInspect_found by (apply Hq || apply Hfound).
  by rewrite !extend_extend.
Qed.

Lemma known_set_running id id' b d :
  known id (set_running id' b d) = known id d.
Proof.
  unfold known, set_running. simpl.
  induction (containers d) as [|c cs IH]; simpl; [done|].
  rewrite IH. f_equal. unfold has_id. by destruct (bool_decide (ID c = id')).
Qed.

Lemma ContainerStop_known id w :
  fault (oracle w) (clock w) = None →
  known id (daemon w) = true →
  client.ContainerStop id w =
  (Ret (tt, None),
   extend [Ev (CallContainerStop id) None]
          (with_daemon (set_running id false (daemon w)) w)).
Proof.
  intros Hf Hk. apply extern_step; [done|]. unfold stop. by rewrite Hk.
Qed.

Lemma ContainerStart_known id w :
  fault (oracle w) (clock w) = None →
  known id (daemon w) = true →
  ContainerStart id w =
  (Ret (tt, None),
   extend [Ev (CallContainerStart id) None]
          (with_daemon (set_running id true (daemon w)) w)).
Proof.
  intros Hf Hk. apply extern_step; [done|]. unfold start. by rewrite Hk.
Qed.

(** [ContainerRestart] of a running container, with a daemon that answers. *)
Lemma ContainerRestart_running name id w :
  quiet w →
  find_running name (listed false [] (daemon w)) = (id, true) →
  ContainerRestart name w =
  (Ret (true, None),
   extend [list_running_event;
           Ev (CallContainerStop id) None;
           Ev (CallContainerStart id) None]
          (with_daemon (set_running id true (set_running id false (daemon w))) w)).
Proof.
  intros Hq Hfind. unfold ContainerRestart, bind.
  rewrite IsContainerRunning_answer by apply Hq. rewrite Hfind. cbn [negb].
  pose proof (running_known _ _ (found_running _ _ _ Hfind)) as Hk.
  rewrite ContainerStop_known by (apply Hq || done).
  rewrite with_daemon_extend, extend_extend.
  rewrite ContainerStart_known;
    [|apply Hq|cbn [daemon extend with_daemon]; by rewrite known_set_running].
  by rewrite !with_daemon_extend, !extend_extend.
Qed.

(** ** The site lifecycle controller *)

Section controller_proofs.
Context `{GoConnections} `{ImageStore} `{site.Libraries} `{!site.SiteMethods}.

(** C10, as the code has it: [IsSiteRunning] lists with the all-containers
    option and the site's label filter; it returns [false] if the listing
    fails (no error is surfaced), and otherwise [true] exactly when some
    container, running or stopped, carries the label [kana.site=<name>] for a
    site with a non-empty name, or carries the label [kana.site] with any
    value for a site whose name is empty. *)
Theorem IsSiteRunning_spec (s : site.Site) (w : World) :
  site.IsSiteRunning s w =
  (Ret (match fault (oracle w) (clock w) with
        | Some _ => false
        | None => site_label_present (site.SiteName (site.Static s)) (daemon w)
        end),
   extend [Ev (CallContainerList true (site_filter (site.SiteName (site.Static s))))
              (fault (oracle w) (clock w))] w).
Proof.
  unfold site.IsSiteRunning, bind. rewrite ListContainers_spec.
  destruct (fault (oracle w) (clock w)) as [e|]; [done|].
  unfold ret. by rewrite listed_site, nonempty_filter_existsb.
Qed.

(** *** Readiness verification *)

Lemma HttpGet_answer c url w :
  fault (oracle w) (clock w) = None →
  HttpGet c url w = (Ret (http_status (oracle w) (clock w) url, None),
                     extend [Ev (CallHttpGet c url) None] w).
Proof.
  intros Hf. unfold HttpGet.
  erewrite extern_step; [|done|done]. by rewrite with_daemon_same.
Qed.

Lemma VerifySite_loop_never_200 (s : site.Site) (k : nat) :
  ∀ fuel status tries w,
    quiet w →
    (∀ n, http_status (oracle w) n (site.secureURL s) ≠ 200%Z) →
    status ≠ 200%Z →
    tries = (30 - Z.of_nat k)%Z →
    (k < fuel)%nat →
    site.VerifySite_loop fuel s insecure_client status tries w =
    (Ret (false, site.timeout_reached), extend (polls s k) w).
Proof.
  induction k as [|k IH]; intros fuel status tries w Hq Hs Hst Ht Hfuel.
  - destruct fuel as [|fuel]; [lia|]. simpl.
    rewrite bool_decide_true by done.
    unfold bind. rewrite HttpGet_answer by apply Hq.
    rewrite bool_decide_false by apply Hs.
    by rewrite bool_decide_true by lia.
  - destruct fuel as [|fuel]; [lia|]. simpl.
    rewrite bool_decide_true by done.
    unfold bind at 1. rewrite HttpGet_answer by apply Hq.
    rewrite bool_decide_false by apply Hs.
    rewrite bool_decide_false by lia.
    unfold bind, Sleep, effect. rewrite log_extend, extend_extend.
    rewrite IH; [|done|apply Hs|apply Hs|lia|lia].
    by rewrite extend_extend.
Qed.

(** C3, as the code has it: if the root certificate is read and every
    request is answered, without transport error, by a status other than
    200, then [VerifySite] (on any fuel of 31 or more) fails with the timeout
    error after exactly 32 requests: one before the loop and 31 in it, with a
    one-second pause after each of the first 30 requests of the loop, so 30
    pauses, and none between the first two requests. *)
Theorem VerifySite_never_200 (s : site.Site) (fuel : nat) (w : World) :
  quiet w →
  (∀ n, http_status (oracle w) n (site.secureURL s) ≠ 200%Z) →
  (31 ≤ fuel)%nat →
  let evs := Ev (CallReadFile (site.rootCert s)) None :: get_event s :: polls s 30 in
  site.VerifySite fuel s w = (Ret (false, site.timeout_reached), extend evs w)
  ∧ length (http_requests evs) = 32%nat
  ∧ pauses evs = replicate 30 1%Z
  ∧ take 3 evs = [Ev (CallReadFile (site.rootCert s)) None; get_event s; get_event s].
Proof.
  intros Hq Hs Hfuel evs. split; [|done].
  unfold site.VerifySite, bind, ReadFile.
  erewrite extern_step; [|apply Hq|done]. rewrite with_daemon_same.
  rewrite HttpGet_answer by apply Hq. rewrite extend_extend.
  fold insecure_client.
  rewrite (VerifySite_loop_never_200 s 30); [|done|apply Hs|apply Hs|lia|lia].
  by rewrite extend_extend.
Qed.

Lemma HttpGet_inv c url w :
  ∃ st err, HttpGet c url w = (Ret (st, err), extend [Ev (CallHttpGet c url) err] w).
Proof.
  destruct (fault (oracle w) (clock w)) as [e|] eqn:Hf.
  - exists 0%Z, (Some e). by apply extern_fault.
  - eexists _, None. by apply HttpGet_answer.
Qed.

(** Whatever the endpoint answers, the loop only makes requests with the
    client it was given, and pauses. *)
Lemma VerifySite_loop_requests (s : site.Site) (c : HttpClient) (fuel : nat) :
  ∀ status tries w,
    ∃ evs, (site.VerifySite_loop fuel s c status tries w).2 = extend evs w
           ∧ Forall (λ r, r = (c, site.secureURL s)) (http_requests evs).
Proof.
  induction fuel as [|fuel IH]; intros status tries w; simpl.
  - exists []. rewrite extend_nil. by destruct (bool_decide _).
  - destruct (bool_decide (status ≠ 200%Z)); [|exists []; by rewrite extend_nil].
    unfold bind at 1.
    destruct (HttpGet_inv c (site.secureURL s) w) as (st & err & ->).
    destruct err as [e|].
    { eexists. split; [done|]. by repeat constructor. }
    destruct (bool_decide (st = 200%Z)).
    { eexists. split; [done|]. by repeat constructor. }
    destruct (bool_decide (tries = 30%Z)).
    { eexists. split; [done|]. by repeat constructor. }
    unfold bind, Sleep, effect. rewrite log_extend, extend_extend.
    destruct (IH st (tries + 1)%Z
                (extend ([Ev (CallHttpGet c (site.secureURL s)) None]
                         ++ [Ev (CallSleep 1) None]) w))
      as (evs & Hw & Hall).
    destruct (site.VerifySite_loop fuel s c st (tries + 1)%Z _) as [r w'].
    simpl in Hw. subst w'.
    exists (([Ev (CallHttpGet c (site.secureURL s)) None]
             ++ [Ev (CallSleep 1) None]) ++ evs).
    split.
    + destruct r; by rewrite extend_extend.
    + simpl. by constructor.
Qed.

Lemma ReadFile_inv path w :
  ∃ content err,
    ReadFile path w = (Ret (content, err), extend [Ev (CallReadFile path) err] w).
Proof.
  destruct (fault (oracle w) (clock w)) as [e|] eqn:Hf.
  - exists "", (Some e). by apply extern_fault.
  - eexists _, None. unfold ReadFile.
    erewrite extern_step; [|done|done]. by rewrite with_daemon_same.
Qed.

(** The loop ends within 31 turns whatever the endpoint answers: from
    [tries = 30 - k], fuel above [k] is enough. *)
Lemma VerifySite_loop_returns (s : site.Site) (c : HttpClient) (k : nat) :
  ∀ fuel status tries w,
    tries = (30 - Z.of_nat k)%Z →
    (k < fuel)%nat →
    ∃ r w', site.VerifySite_loop fuel s c status tries w = (Ret r, w').
Proof.
  induction k as [|k IH]; intros fuel status tries w Ht Hfuel;
    (destruct fuel as [|fuel]; [lia|]); simpl;
    (destruct (bool_decide (status ≠ 200%Z)); [|by eexists _, _]);
    unfold bind at 1;
    destruct (HttpGet_inv c (site.secureURL s) w) as (st & [e|] & ->);
    try (by eexists _, _);
    (destruct (bool_decide (st = 200%Z)); [by eexists _, _|]).
  - rewrite bool_decide_true by lia. by eexists _, _.
  - rewrite bool_decide_false by lia. unfold bind, Sleep, effect.
    apply IH; lia.
Qed.

(** [VerifySite] returns on any fuel of 31 or more, in every world. *)
Lemma VerifySite_returns (s : site.Site) (fuel : nat) (w : World) :
  (31 ≤ fuel)%nat → ∃ r w', site.VerifySite fuel s w = (Ret r, w').
Proof.
  intros Hfuel. unfold site.VerifySite, bind.
  destruct (ReadFile_inv (site.rootCert s) w) as (content & [e|] & ->);
    [by eexists _, _|].
  destruct (HttpGet_inv {| InsecureSkipVerify := true; RootCAs := None |}
              (site.secureURL s)
              (extend [Ev (CallReadFile (site.rootCert s)) None] w))
    as (st & [e|] & ->); [by eexists _, _|].
  apply (VerifySite_loop_returns s _ 30); lia.
Qed.

(** Every request [VerifySite] makes, in any world, goes to the secure URL
    through the client that skips certificate verification and has no
    certificate pool. *)
Lemma VerifySite_requests (s : site.Site) (fuel : nat) (w : World) :
  Forall (λ r, r = (insecure_client, site.secureURL s))
         (http_requests (new_events w (site.VerifySite fuel s w).2)).
Proof.
  unfold site.VerifySite, bind.
  destruct (ReadFile_inv (site.rootCert s) w) as (content & err & ->).
  destruct err as [e|].
  { simpl. rewrite new_events_extend. by constructor. }
  fold insecure_client.
  destruct (HttpGet_inv insecure_client (site.secureURL s)
              (extend [Ev (CallReadFile (site.rootCert s)) None] w))
    as (st & err & ->).
  rewrite extend_extend. destruct err as [e|].
  { simpl. rewrite new_events_extend. by repeat constructor. }
  destruct (VerifySite_loop_requests s insecure_client fuel st 0%Z
              (extend ([Ev (CallReadFile (site.rootCert s)) None]
                       ++ [Ev (CallHttpGet insecure_client (site.secureURL s)) None]) w))
    as (evs & -> & Hall).
  rewrite extend_extend, new_events_extend. simpl. by constructor.
Qed.

(** C9: whenever the read of the root certificate fails, [VerifySite]
    returns [false] with the read's error and makes no HTTP request (the
    read is the only event it adds); and the certificate it reads otherwise
    is never used: every request it makes, in any world, goes through a
    client that skips certificate verification and holds no certificate
    pool. *)
Theorem VerifySite_unreadable_root_cert (s : site.Site) (fuel : nat) (w : World)
    (e : string) :
  fault (oracle w) (clock w) = Some e →
  site.VerifySite fuel s w =
    (Ret (false, Some e), extend [Ev (CallReadFile (site.rootCert s)) (Some e)] w)
  ∧ http_requests (new_events w (site.VerifySite fuel s w).2) = []
  ∧ ∀ w2, Forall (λ r, r = ({| InsecureSkipVerify := true; RootCAs := None |},
                            site.secureURL s))
                 (http_requests (new_events w2 (site.VerifySite fuel s w2).2)).
Proof.
  intros Hf.
  assert (Hrun : site.VerifySite fuel s w =
    (Ret (false, Some e), extend [Ev (CallReadFile (site.rootCert s)) (Some e)] w)).
  { unfold site.VerifySite, bind, ReadFile. by rewrite (extern_fault _ _ _ _ e). }
  split; [done|]. split.
  - rewrite Hrun. simpl. by rewrite new_events_extend.
  - intros w2. apply VerifySite_requests.
Qed.

(** *** The plugin list *)

Lemma collectPlugins_spec (s : site.Site) (raw : list site.PluginInfo) :
  ∀ acc, site.collectPlugins s raw acc
         = acc ++ map site.Name (List.filter (kept s) raw).
Proof.
  induction raw as [|p raw IH]; intros acc; simpl.
  - by rewrite app_nil_r.
  - assert (Heq : bool_decide (site.Status p ≠ "dropin")
                  && bool_decide (site.Name p ≠ site.SiteName (site.Static s))
                  && bool_decide (site.Name p ≠ "hello")
                  && bool_decide (site.Name p ≠ "akismet") = kept s p).
    { unfold kept. rewrite <- !bool_decide_and. apply bool_decide_ext.
      rewrite !not_elem_of_cons. pose proof (not_elem_of_nil (site.Name p)).
      tauto. }
    rewrite Heq. destruct (kept s p); rewrite IH; [|done].
    by rewrite <- app_assoc.
Qed.

(** C7: if the plugin-listing command succeeds with output [out] and [out]
    parses to the raw list [raw], [GetInstalledWordPressPlugins] returns, in
    the order of [raw], exactly the names of the entries whose status is not
    [dropin] and whose name is none of the site's slug, [hello] and
    [akismet]. *)
Theorem GetInstalledWordPressPlugins_spec (s : site.Site) (w : World)
    (out : string) (raw : list site.PluginInfo) :
  (site.RunWPCli s ["plugin"; "list"; "--format=json"] w).1 = Ret (out, None) →
  site.json_Unmarshal out = (raw, None) →
  site.GetInstalledWordPressPlugins s w =
  (Ret (map site.Name (List.filter (kept s) raw), None),
   (site.RunWPCli s ["plugin"; "list"; "--format=json"] w).2).
Proof.
  intros Hrun Hparse. unfold site.GetInstalledWordPressPlugins, bind.
  destruct (site.RunWPCli s _ w) as [r w']. simpl in Hrun. subst r.
  rewrite Hparse. unfold ret. by rewrite collectPlugins_spec.
Qed.

(** *** The images of the application and of the command-line container *)

(** The image of the command-line container is built from the PHP version
    of the dynamic configuration, the image of the application container
    from the PHP version of the site configuration. *)
Lemma wpCliContainer_image (s : site.Site) command appVolumes :
  docker.Image (site.wpCliContainer s command appVolumes)
  = "wordpress:cli-php" +:+ site.GetString (site.DynamicConfig s) "php".
Proof.
  unfold site.wpCliContainer. cbn [docker.Image].
  change (fmt.Sprintf "wordpress:cli-php%s" [site.GetString (site.DynamicConfig s) "php"])
    with ("wordpress:cli-php" +:+ (site.GetString (site.DynamicConfig s) "php" +:+ "")).
  by rewrite append_empty_r.
Qed.

Lemma wordPressContainers_images (s : site.Site) appVolumes databaseDir :
  map docker.Image (site.wordPressContainers s appVolumes databaseDir)
  = ["mariadb"; "wordpress:php" +:+ site.GetString (site.SiteConfig s) "php"].
Proof.
  unfold site.wordPressContainers. cbn [map docker.Image].
  change (fmt.Sprintf "wordpress:php%s" [site.GetString (site.SiteConfig s) "php"])
    with ("wordpress:php" +:+ (site.GetString (site.SiteConfig s) "php" +:+ "")).
  by rewrite append_empty_r.
Qed.

(** *** Xdebug *)

Lemma Sprintf_app_container (s : site.Site) :
  fmt.Sprintf "kana_%s_wordpress" [site.SiteName (site.Static s)] = app_container s.
Proof. done. Qed.

Lemma runCli_running (s : site.Site) (command id : string) (w : World) :
  quiet w →
  find_running (app_container s) (listed false [] (daemon w)) = (id, true) →
  let e := next_exec id (shell command) w in
  site.runCli s command false w =
  (Ret ({| StdOut := ExecStdOut e; StdErr := ExecStdErr e;
           ExitCode := ExecExitCode e |}, None),
   extend (exec_events id (shell command) (ExecID e))
          (with_daemon (add_exec e (daemon w)) w)).
Proof.
  intros Hq Hfind e. unfold site.runCli, bind.
  rewrite Sprintf_app_container.
  by rewrite (ContainerExec_running _ _ id) by done.
Qed.

Lemma runCli_restart_running (s : site.Site) (command id : string) (w : World) :
  quiet w →
  find_running (app_container s) (listed false [] (daemon w)) = (id, true) →
  let e := next_exec id (shell command) w in
  site.runCli s command true w =
  (Ret ({| StdOut := ExecStdOut e; StdErr := ExecStdErr e;
           ExitCode := ExecExitCode e |}, None),
   extend (exec_events id (shell command) (ExecID e) ++ restart_events id)
          (with_daemon (set_running id true
                          (set_running id false (add_exec e (daemon w)))) w)).
Proof.
  intros Hq Hfind e. unfold site.runCli, bind.
  rewrite Sprintf_app_container.
  rewrite (ContainerExec_running _ _ id) by done.
  rewrite (ContainerRestart_running _ id); [|apply Hq|apply Hfind].
  by rewrite with_daemon_extend, extend_extend.
Qed.

(** One turn of the loop. *)
Lemma InstallXdebug_range_cons (s : site.Site) (n i : nat) command rest w :
  site.InstallXdebug_range s n i (command :: rest) w =
  match site.runCli s command (Nat.eqb (i + 1) n) w with
  | (Ret (output, Some e), w') => (Ret (false, Some e), w')
  | (Ret (output, None), w') =>
      if Nat.eqb i 0 && gostrings.Contains (StdOut output) "xdebug"
      then (Ret (false, None), w')
      else site.InstallXdebug_range s n (S i) rest w'
  | (Panic msg, w') => (Panic msg, w')
  | (OutOfFuel, w') => (OutOfFuel, w')
  end.
Proof.
  cbn [site.InstallXdebug_range]. unfold bind.
  destruct (site.runCli s command _ w) as [[[output [e|]]| |] w']; try done.
  by destruct (_ && _).
Qed.

(** The commands after the first, in a running container with a daemon that
    answers: each is executed in turn, and the container is restarted after
    the last one only. *)
Lemma InstallXdebug_range_running (s : site.Site) (id : string) (n : nat) :
  ∀ rest i w,
    quiet w →
    find_running (app_container s) (listed false [] (daemon w)) = (id, true) →
    (1 ≤ i)%nat →
    (i + length rest = n)%nat →
    rest ≠ [] →
    ∃ d pre,
      site.InstallXdebug_range s n i rest w =
        (Ret (true, None), extend (pre ++ restart_events id) (with_daemon d w))
      ∧ commands_run pre = map (λ c, (id, shell c)) rest
      ∧ restart_calls pre = [].
Proof.
  induction rest as [|command rest IH]; intros i w Hq Hfind Hi Hn Hne; [done|].
  cbn [site.InstallXdebug_range]. unfold bind at 1.
  assert (Hi0 : Nat.eqb i 0 = false) by (apply Nat.eqb_neq; lia).
  destruct rest as [|command' rest].
  - assert (Hlast : Nat.eqb (i + 1) n = true) by (apply Nat.eqb_eq; simpl in Hn; lia).
    rewrite Hlast, (runCli_restart_running s command id w Hq Hfind), Hi0.
    cbn [andb site.InstallXdebug_range]. eexists _, _. split; [done|]. done.
  - assert (Hmore : Nat.eqb (i + 1) n = false) by (apply Nat.eqb_neq; simpl in Hn; lia).
    rewrite Hmore, (runCli_running s command id w Hq Hfind), Hi0. cbn [andb].
    edestruct (IH (S i)) as (d & pre & Hrun & Hcmds & Hrs);
      [| |lia| |done|rewrite Hrun].
    + apply Hq.
    + apply Hfind.
    + simpl in *; lia.
    + rewrite with_daemon_extend, extend_extend, app_assoc.
      eexists d, _. split; [done|]. split.
      * unfold commands_run in *. rewrite omap_app, Hcmds. done.
      * unfold restart_calls in *. rewrite omap_app, Hrs. done.
Qed.

(** The commands in an application container that does not run: each
    [runCli] is a listing and nothing else, and so is the restart after the
    last one. *)
Lemma clock_extend evs w : clock (extend evs w) = (clock w + length evs)%nat.
Proof. unfold clock. cbn [extend trace]. by rewrite length_app. Qed.

Lemma runCli_not_running (s : site.Site) (command : string) (restart : bool)
    (w : World) :
  is_running (app_container s) (daemon w) = false →
  site.runCli s command restart w =
    (Ret (ExecResult_zero, None),
     extend (listing_events (oracle w) (clock w) (if restart then 2 else 1)) w).
Proof.
  intros Hn. unfold site.runCli, bind. rewrite Sprintf_app_container.
  unfold ContainerExec, bind.
  rewrite IsContainerRunning_not_running by done. cbn [negb]. unfold ret.
  destruct restart; [|done].
  unfold ContainerRestart, bind.
  rewrite IsContainerRunning_not_running by done. cbn [negb]. unfold ret.
  rewrite extend_extend, clock_extend. cbn [oracle extend length app listing_events].
  by rewrite Nat.add_1_r.
Qed.

Lemma listing_events_no_command o start k :
  commands_run (listing_events o start k) = []
  ∧ restart_calls (listing_events o start k) = [].
Proof.
  revert start. induction k as [|k IH]; intros start; [done|].
  destruct (IH (S start)) as [Hc Hr]. split.
  - change (commands_run (listing_events o start (S k)))
      with (commands_run (listing_events o (S start) k)). done.
  - change (restart_calls (listing_events o start (S k)))
      with (restart_calls (listing_events o (S start) k)). done.
Qed.

Lemma InstallXdebug_range_not_running (s : site.Site) (n : nat) :
  ∀ rest i w,
    is_running (app_container s) (daemon w) = false →
    (i + length rest = n)%nat →
    rest ≠ [] →
    site.InstallXdebug_range s n i rest w =
      (Ret (true, None),
       extend (listing_events (oracle w) (clock w) (S (length rest))) w).
Proof.
  induction rest as [|command rest IH]; intros i w Hn Hlen Hne; [done|].
  rewrite InstallXdebug_range_cons, runCli_not_running by done.
  assert (Hzero : Nat.eqb i 0 && gostrings.Contains (StdOut ExecResult_zero) "xdebug"
                  = false) by apply andb_false_r.
  rewrite Hzero.
  destruct rest as [|command' rest].
  - assert (Hlast : Nat.eqb (i + 1) n = true) by (apply Nat.eqb_eq; simpl in Hlen; lia).
    by rewrite Hlast.
  - assert (Hmore : Nat.eqb (i + 1) n = false)
      by (apply Nat.eqb_neq; simpl in Hlen; lia).
    rewrite Hmore, IH; [|done|simpl in *; lia|done].
    rewrite extend_extend, clock_extend.
    cbn [oracle extend length app listing_events]. by rewrite Nat.add_1_r.
Qed.

(** C6, as the code has it.  With the flag unset, [InstallXdebug] returns
    [(false, nil)] and does nothing.  With the flag set it prints a notice
    and runs the check.  If the check returns an error, [InstallXdebug]
    returns [(false, err)] in the world the check left.  If the check
    returns without error and its output contains [xdebug], it returns
    [(false, nil)] in the world the check left, so nothing else is run.
    Otherwise, in a running application container and with a daemon that
    answers, it hands the daemon exactly the eight commands of the list in
    order (the check, the install, the enable and five lines appended to
    php.ini), each wrapped in a shell, makes no stop or start request before
    the last of them has run, restarts the container after it, and returns
    [(true, nil)].  When no running container answers to the name of the
    application container, it returns [(true, nil)] as well, but nothing
    has been run and nothing restarted: its calls are nine listings of the
    running containers, answered or not, one for each of the eight commands
    and one for the restart, and the daemon is as it was. *)
Theorem InstallXdebug_spec (s : site.Site) (w : World) :
  (site.GetBool (site.SiteConfig s) "xdebug" = false →
   site.InstallXdebug s w = (Ret (false, None), w))
  ∧ (site.GetBool (site.SiteConfig s) "xdebug" = true →
     ∀ out e w1,
       site.runCli s "pecl list | grep xdebug" false (extend [installing_event] w)
         = (Ret (out, Some e), w1) →
       site.InstallXdebug s w = (Ret (false, Some e), w1))
  ∧ (site.GetBool (site.SiteConfig s) "xdebug" = true →
     ∀ out w1,
       site.runCli s "pecl list | grep xdebug" false (extend [installing_event] w)
         = (Ret (out, None), w1) →
       gostrings.Contains (StdOut out) "xdebug" = true →
       site.InstallXdebug s w = (Ret (false, None), w1))
  ∧ (site.GetBool (site.SiteConfig s) "xdebug" = true →
     ∀ id,
       quiet w →
       find_running (app_container s) (listed false [] (daemon w)) = (id, true) →
       gostrings.Contains (check_output id w) "xdebug" = false →
       ∃ d pre,
         site.InstallXdebug s w =
           (Ret (true, None),
            extend (installing_event :: pre ++ restart_events id) (with_daemon d w))
         ∧ commands_run pre =
             map (λ c, (id, ["sh"; "-c"; c]))
                 ["pecl list | grep xdebug";
                  "pecl install xdebug";
                  "docker-php-ext-enable xdebug";
                  "echo 'xdebug.start_with_request=yes' >> /usr/local/etc/php/php.ini";
                  "echo 'xdebug.mode=debug' >> /usr/local/etc/php/php.ini";
                  "echo 'xdebug.client_host=host.docker.internal' >> /usr/local/etc/php/php.ini";
                  "echo 'xdebug.discover_client_host=on' >> /usr/local/etc/php/php.ini";
                  "echo 'xdebug.start_with_request=trigger' >> /usr/local/etc/php/php.ini"]
         ∧ restart_calls pre = [])
  ∧ (site.GetBool (site.SiteConfig s) "xdebug" = true →
     is_running (app_container s) (daemon w) = false →
     site.InstallXdebug s w =
       (Ret (true, None),
        extend (installing_event :: listing_events (oracle w) (S (clock w)) 9) w)
     ∧ commands_run (installing_event :: listing_events (oracle w) (S (clock w)) 9)
       = []
     ∧ restart_calls (installing_event :: listing_events (oracle w) (S (clock w)) 9)
       = []).
Proof.
  split; [|split; [|split; [|split]]].
  - intros Hflag. unfold site.InstallXdebug. by rewrite Hflag.
  - intros Hflag out e w1 Hcheck. unfold site.InstallXdebug.
    rewrite Hflag. cbn [negb]. unfold bind at 1, Printf, effect.
    rewrite log_extend. fold installing_event.
    unfold site.xdebugCommands. rewrite InstallXdebug_range_cons.
    cbn [length Nat.add Nat.eqb]. by rewrite Hcheck.
  - intros Hflag out w1 Hcheck Hfound. unfold site.InstallXdebug.
    rewrite Hflag. cbn [negb]. unfold bind at 1, Printf, effect.
    rewrite log_extend. fold installing_event.
    unfold site.xdebugCommands. rewrite InstallXdebug_range_cons.
    cbn [length Nat.add Nat.eqb]. rewrite Hcheck.
    cbn [Nat.eqb andb]. by rewrite Hfound.
  - intros Hflag id Hq Hfind Hcheck. unfold site.InstallXdebug.
    rewrite Hflag. cbn [negb]. unfold bind at 1, Printf, effect.
    rewrite log_extend. fold installing_event.
    unfold site.xdebugCommands. rewrite InstallXdebug_range_cons.
    cbn [length Nat.add Nat.eqb].
    rewrite (runCli_running s _ id); [|apply Hq|apply Hfind].
    cbn [Nat.eqb andb StdOut ExecStdOut next_exec].
    change (exec_result _ _ _ _).1.1 with (check_output id w). rewrite Hcheck.
    edestruct (InstallXdebug_range_running s id 8) as (d & pre & Hrun & Hcmds & Hrs);
      [| |..|rewrite Hrun].
    + apply Hq.
    + apply Hfind.
    + lia.
    + done.
    + done.
    + rewrite !with_daemon_extend, !extend_extend.
      eexists d, (exec_events id _ _ ++ pre). split.
      { by rewrite <- !app_assoc. }
      split; [|unfold restart_calls in *; rewrite omap_app, Hrs; done].
      unfold commands_run in *. rewrite omap_app, Hcmds. done.
  - intros Hflag Hn.
    destruct (listing_events_no_command (oracle w) (S (clock w)) 9) as [Hc Hr].
    split; [|split].
    + unfold site.InstallXdebug.
      rewrite Hflag. cbn [negb]. unfold bind at 1, Printf, effect.
      rewrite log_extend. fold installing_event.
      rewrite InstallXdebug_range_not_running; [|done|done|done].
      rewrite extend_extend, clock_extend.
      cbn [oracle extend length site.xdebugCommands]. by rewrite Nat.add_1_r.
    + exact Hc.
    + exact Hr.
Qed.

End controller_proofs.

(** ** Names in a well-formed daemon *)

Lemma TrimLeft_length s cutset :
  (String.length (gostrings.TrimLeft s cutset) ≤ String.length s)%nat.
Proof.
  induction s as [|c s IH]; simpl; [done|].
  destruct (gostrings.in_cutset c cutset); simpl; lia.
Qed.

Lemma TrimRight_length s cutset :
  (String.length (gostrings.TrimRight s cutset) ≤ String.length s)%nat.
Proof.
  induction s as [|c s IH]; simpl; [done|].
  destruct (gostrings.TrimRight s cutset); simpl in *.
  - destruct (gostrings.in_cutset c cutset); simpl; lia.
  - lia.
Qed.

(** A name that trimming leaves alone does not start with a slash, so the
    daemon stores it behind one. *)
Lemma full_name_plain bare :
  gostrings.Trim bare "/" = bare → full_name bare = "/" +:+ bare.
Proof.
  intros Htrim. destruct bare as [|c rest]; [done|].
  unfold full_name. destruct (decide (c = "/"%char)) as [->|Hc].
  - exfalso. unfold gostrings.Trim in Htrim. simpl in Htrim.
    pose proof (TrimRight_length (gostrings.TrimLeft rest "/") "/") as H1.
    pose proof (TrimLeft_length rest "/") as H2.
    rewrite Htrim in H1. simpl in H1. lia.
  - destruct c as [[] [] [] [] [] [] [] []]; try done.
Qed.

(** In canonical form, the name the adapter compares is the part after the
    slash. *)
Lemma canonical_Trim n :
  canonical n → n = "/" +:+ gostrings.Trim n "/" ∧ gostrings.Trim n "/" ≠ ""
                ∧ gostrings.Trim (gostrings.Trim n "/") "/" = gostrings.Trim n "/".
Proof.
  intros (bare & -> & Hne & Htrim).
  change (gostrings.Trim ("/" +:+ bare) "/") with (gostrings.Trim bare "/").
  by rewrite !Htrim.
Qed.

Lemma named_iff name (c : Container) :
  Forall canonical (Names c) →
  named name c = true ↔ "/" +:+ name ∈ Names c ∧ full_name name = "/" +:+ name.
Proof.
  intros Hcan. unfold named. rewrite existsb_exists. split.
  - intros (n & Hin%list_elem_of_In & Heq%bool_decide_eq_true).
    destruct (canonical_Trim n) as (Hn & Hne & Htrim).
    { by eapply Forall_forall in Hcan. }
    subst name. split; [by rewrite <- Hn|]. by apply full_name_plain.
  - intros [Hin _]. exists ("/" +:+ name). split; [by apply list_elem_of_In|].
    apply bool_decide_eq_true.
    destruct (canonical_Trim ("/" +:+ name)) as (Hn & _).
    { by eapply Forall_forall in Hcan. }
    by apply (inj (String.app "/")) in Hn.
Qed.

Lemma elem_of_concat {A} (x : A) (ls : list (list A)) :
  x ∈ concat ls ↔ ∃ l, x ∈ l ∧ l ∈ ls.
Proof.
  induction ls as [|l ls IH]; simpl.
  - split; [by intros ?%elem_of_nil|]. by intros (l & _ & ?%elem_of_nil).
  - rewrite elem_of_app, IH. split.
    + intros [?|(l' & ? & ?)]; [exists l|exists l'];
        (split; [done|]); [left|by right].
    + intros (l' & ? & [->|?]%elem_of_cons); [by left|].
      right. by exists l'.
Qed.

Lemma elem_of_all_names n d :
  n ∈ all_names d ↔ ∃ c, c ∈ containers d ∧ n ∈ Names c.
Proof.
  unfold all_names. rewrite elem_of_concat. split.
  - intros (l & Hn & (c & -> & Hc)%list_elem_of_fmap_1). by exists c.
  - intros (c & Hc & Hn). exists (Names c). split; [done|].
    by apply list_elem_of_fmap_2.
Qed.

Lemma Forall_canonical_names d (c : Container) :
  well_formed d → c ∈ containers d → Forall canonical (Names c).
Proof.
  intros [Hcan _] Hin. apply Forall_forall. intros n Hn.
  eapply Forall_forall in Hcan; [done|].
  apply elem_of_all_names. by exists c.
Qed.

(** Names are distinct: at most one container of the list carries a name. *)
Lemma one_carrier (n : string) (cs : list Container) (c : Container) :
  NoDup (concat (map Names cs)) → c ∈ cs → n ∈ Names c →
  List.filter (λ c', bool_decide (n ∈ Names c')) cs = [c].
Proof.
  induction cs as [|c0 cs IH]; intros Hnd Hin Hn; [by apply elem_of_nil in Hin|].
  simpl in Hnd. apply NoDup_app in Hnd as (Hnd0 & Hdisj & Hnd').
  simpl. destruct (bool_decide_reflect (n ∈ Names c0)) as [Hn0|Hn0].
  - assert (Hrest : List.filter (λ c', bool_decide (n ∈ Names c')) cs = []).
    { clear IH Hin. induction cs as [|c1 cs IH1]; [done|]. simpl.
      rewrite bool_decide_false.
      - apply IH1.
        + intros x Hx Hx'. apply (Hdisj x Hx). simpl.
          apply elem_of_app. by right.
        + simpl in Hnd'. by apply NoDup_app in Hnd' as (_ & _ & ?).
      - intros Hn1. apply (Hdisj n Hn0). simpl. apply elem_of_app. by left. }
    rewrite Hrest. f_equal.
    apply elem_of_cons in Hin as [->|Hin]; [done|].
    exfalso. apply (Hdisj n Hn0). apply elem_of_concat.
    exists (Names c). split; [done|]. by apply list_elem_of_fmap_2.
  - apply elem_of_cons in Hin as [->|Hin]; [done|]. by apply IH.
Qed.

Lemma named_filter name d :
  well_formed d →
  containers_named name d =
  List.filter (λ c, bool_decide ("/" +:+ name ∈ Names c)
                    && bool_decide (full_name name = "/" +:+ name))
              (containers d).
Proof.
  intros Hwf. unfold containers_named.
  assert (Hall : ∀ c, c ∈ containers d → Forall canonical (Names c)).
  { intros c. by apply Forall_canonical_names. }
  induction (containers d) as [|c cs IH]; [done|]. simpl.
  rewrite IH by (intros; apply Hall; by right).
  assert (Hc : named name c = bool_decide ("/" +:+ name ∈ Names c)
                              && bool_decide (full_name name = "/" +:+ name)).
  { apply eq_true_iff_eq. rewrite named_iff by (apply Hall; left).
    by rewrite andb_true_iff, !bool_decide_eq_true. }
  by rewrite Hc.
Qed.

(** In a well-formed daemon a name answers to at most one container. *)
Lemma named_unique name d (c : Container) :
  well_formed d → c ∈ containers d → named name c = true →
  containers_named name d = [c].
Proof.
  intros Hwf Hin Hnamed.
  pose proof (Forall_canonical_names d c Hwf Hin) as Hcan.
  apply named_iff in Hnamed as [Hn Hfull]; [|done].
  rewrite named_filter by done.
  rewrite <- (one_carrier ("/" +:+ name) (containers d) c); [|apply Hwf|done|done].
  apply List.filter_ext. intros c'.
  by rewrite (bool_decide_true (full_name name = _)), andb_true_r.
Qed.

Lemma filter_none {A} (p : A → bool) (l : list A) :
  (∀ x, x ∈ l → p x = false) → List.filter p l = [].
Proof.
  induction l as [|a l IH]; intros Hall; [done|]. simpl.
  rewrite (Hall a) by left. apply IH. intros x Hx. apply Hall. by right.
Qed.

(** A name the daemon finds free answers to no container. *)
Lemma free_name_unnamed name d :
  well_formed d → full_name name ∉ all_names d → containers_named name d = [].
Proof.
  intros Hwf Hfree. apply filter_none. intros c Hc.
  destruct (named name c) eqn:Hnamed; [|done]. exfalso.
  apply named_iff in Hnamed as [Hn Hfull];
    [|by apply (Forall_canonical_names d)].
  apply Hfree. rewrite Hfull. apply elem_of_all_names. by exists c.
Qed.

(** No container answers to the empty name. *)
Lemma empty_name_unnamed d :
  well_formed d → containers_named "" d = [].
Proof.
  intros Hwf. apply filter_none. intros c Hc.
  destruct (named "" c) eqn:Hnamed; [|done]. exfalso.
  apply named_iff in Hnamed as [Hn _]; [|by apply (Forall_canonical_names d)].
  destruct Hwf as [Hcan _]. eapply Forall_forall in Hcan;
    [|apply elem_of_all_names; by exists c].
  destruct Hcan as (bare & Heq & Hne & _).
  apply (inj (String.app "/")) in Heq. by subst bare.
Qed.

(** ** Running a container *)

Section adapter_proofs.
Context `{GoConnections}.

(** The port configuration is computed without a call: it returns or
    panics, and the world is as before. *)
Lemma getNetworkConfig_from_frame ports :
  ∀ pb ps w,
    (∃ cfg, getNetworkConfig_from ports pb ps w = (Ret cfg, w))
    ∨ (∃ msg, getNetworkConfig_from ports pb ps w = (Panic msg, w)).
Proof.
  induction ports as [|port ports IH]; intros pb ps w; simpl.
  - left. by eexists.
  - destruct (NewPort (Protocol port) (Port port)) as [portName [err|]].
    + right. by eexists.
    + apply IH.
Qed.

(** How [ContainerRun] comes to return an identifier without error: the
    name resolved to a running container, or a container was created and
    started. *)
Lemma ContainerRun_inv (config : ContainerConfig) (w w1 : World) (id : string) :
  ContainerRun config w = (Ret (id, None), w1) →
  (fault (oracle w) (clock w) = None
   ∧ find_running (Name config) (listed false [] (daemon w)) = (id, true)
   ∧ w1 = extend [list_running_event] w)
  ∨ (∃ lerr ports d1,
       create (create_request config ports) (daemon w) = (id, None, d1)
       ∧ known id d1 = true
       ∧ w1 = extend [Ev (CallContainerList false []) lerr;
                      Ev (CallContainerCreate (create_request config ports)) None;
                      Ev (CallContainerStart id) None]
                     (with_daemon (set_running id true d1) w)).
Proof.
  unfold ContainerRun, bind.
  assert (Hlist : ∃ r lerr,
    IsContainerRunning (Name config) w
      = (Ret r, extend [Ev (CallContainerList false []) lerr] w)
    ∧ (r.2 = true → lerr = None
                    ∧ r = find_running (Name config) (listed false [] (daemon w))
                    ∧ fault (oracle w) (clock w) = None)).
  { destruct (fault (oracle w) (clock w)) as [e|] eqn:Hf.
    - eexists _, _. split; [by apply IsContainerRunning_fault|]. done.
    - eexists _, _. split; [by apply IsContainerRunning_answer|]. done. }
  destruct Hlist as ([cid running] & lerr & -> & Hres).
  destruct running.
  - destruct Hres as (-> & Hr & Hf); [done|].
    intros [= -> <-]. left. done.
  - clear Hres.
    destruct (getNetworkConfig_from_frame (Ports config) ∅ ∅
                (extend [Ev (CallContainerList false []) lerr] w))
      as [[ports Hports]|[msg Hports]];
      unfold getNetworkConfig; rewrite Hports; [|done].
    fold (create_request config ports).
    unfold ContainerCreate, extern.
    cbn [oracle daemon extend]. 
    destruct (fault (oracle w) _) as [e|]; [done|].
    destruct (create (create_request config ports) (daemon w))
      as [[resp [e|]] d1] eqn:Hcreate; [done|].
    unfold ContainerStart, extern. cbn [oracle daemon extend log trace].
    destruct (fault (oracle w) _) as [e|]; [done|].
    unfold start. destruct (known resp d1) eqn:Hknown; [|done].
    intros [= -> <-]. right. exists lerr, ports, d1.
    split; [done|]. split; [done|].
    unfold log, extend, with_daemon. simpl. by rewrite <- !app_assoc.
Qed.

Lemma filter_none_inv {A} (p : A → bool) (l : list A) :
  List.filter p l = [] → ∀ x, x ∈ l → p x = false.
Proof.
  induction l as [|a l IH]; intros Hnil x Hx; [by apply elem_of_nil in Hx|].
  simpl in Hnil. destruct (p a) eqn:Hpa; [done|].
  apply elem_of_cons in Hx as [->|Hx]; [done|]. by apply IH.
Qed.

(** A successful creation under a given name: the name was free, and the
    new container is appended, stopped, under the name as the daemon
    stores it. *)
Lemma create_named (req : CreateRequest) (d d1 : Daemon) (id : string) :
  ReqName req ≠ "" →
  create req d = (id, None, d1) →
  (full_name (ReqName req) ∉ all_names d)
  ∧ id = fresh (map ID (containers d))
  ∧ d1 = with_containers
           (containers d ++ [new_container req id (full_name (ReqName req))]) d.
Proof.
  intros Hne. unfold create.
  rewrite bool_decide_false by done.
  destruct (valid_name (ReqName req)); [|done]. cbn [negb].
  destruct (bool_decide_reflect (full_name (ReqName req) ∈ all_names d)); [done|].
  by intros [= <- <-].
Qed.

(** Changing the running state of containers keeps their names. *)
Lemma containers_named_set_running name id b d :
  containers_named name (set_running id b d)
  = map (λ c, if has_id id c then with_Running b c else c)
        (containers_named name d).
Proof.
  unfold containers_named, set_running. cbn [containers with_containers].
  induction (containers d) as [|c cs IH]; [done|]. cbn [map List.filter].
  assert (Hc : named name (if has_id id c then with_Running b c else c)
               = named name c) by (by destruct (has_id id c)).
  rewrite Hc. destruct (named name c); cbn [map]; by rewrite IH.
Qed.

Lemma containers_named_app name cs cs' d :
  containers_named name (with_containers (cs ++ cs') d)
  = containers_named name (with_containers cs d)
    ++ containers_named name (with_containers cs' d).
Proof. unfold containers_named. simpl. apply List.filter_app. Qed.

(** The listing resolves a name to the last container of the list if that
    one runs and answers to the name, and none before it answers. *)
Lemma find_running_last name (cs : list Container) (c : Container) :
  (∀ x, x ∈ cs → named name x = false) →
  Running c = true → named name c = true →
  find_running name (List.filter Running (cs ++ [c])) = (ID c, true).
Proof.
  intros Hold Hr Hn. induction cs as [|x cs IH]; cbn [app List.filter].
  - rewrite Hr. cbn [find_running]. by rewrite Hn.
  - destruct (Running x); cbn [find_running].
    + rewrite (Hold x) by left. apply IH. intros y Hy. apply Hold. by right.
    + apply IH. intros y Hy. apply Hold. by right.
Qed.

(** C1, as the code has it: for every container specification whose name
    is not empty and has no slash at either end, in a daemon whose names are
    distinct and canonical, if [ContainerRun] returns an identifier without
    error and the daemon then answers the next listing, a second
    [ContainerRun] of the same specification returns the same identifier,
    makes no call but that listing and changes nothing in the daemon; one
    container, and only one, answers to the name. *)
Theorem ContainerRun_idempotent (config : ContainerConfig) (w w1 : World)
    (id : string) :
  well_formed (daemon w) →
  Name config ≠ "" →
  gostrings.Trim (Name config) "/" = Name config →
  ContainerRun config w = (Ret (id, None), w1) →
  fault (oracle w1) (clock w1) = None →
  ContainerRun config w1 = (Ret (id, None), extend [list_running_event] w1)
  ∧ length (containers_named (Name config) (daemon w1)) = 1%nat.
Proof.
  intros Hwf Hne Hplain Hrun Hanswer.
  assert (Hfound : find_running (Name config) (listed false [] (daemon w1))
                   = (id, true)
                   ∧ length (containers_named (Name config) (daemon w1)) = 1%nat).
  { apply ContainerRun_inv in Hrun
      as [(Hf & Hfind & ->)|(lerr & ports & d1 & Hcreate & Hknown & ->)].
    - split; [done|]. cbn [daemon extend].
      rewrite listed_running in Hfind.
      apply find_running_sound in Hfind as (c & Hin & _ & _ & Hnamed).
      by rewrite (named_unique _ _ c).
    - apply create_named in Hcreate as (Hfree & Hid & ->); [|done].
      cbn [ReqName create_request] in Hfree.
      pose proof (free_name_unnamed _ _ Hwf Hfree) as Hnone.
      pose proof (full_name_plain _ Hplain) as Hfull.
      set (c := new_container (create_request config ports) id
                  (full_name (ReqName (create_request config ports)))).
      assert (Hc : named (Name config) c = true).
      { unfold named, c. cbn [Names new_container ReqName create_request existsb].
        rewrite Hfull.
        change (gostrings.Trim ("/" +:+ Name config) "/")
          with (gostrings.Trim (Name config) "/").
        rewrite Hplain. by rewrite bool_decide_true. }
      assert (Hcid : has_id id c = true) by (unfold has_id; by rewrite bool_decide_true).
      cbn [daemon extend with_daemon]. split.
      + rewrite listed_running. unfold set_running.
        cbn [containers with_containers]. rewrite map_app. cbn [map].
        rewrite Hcid.
        rewrite (find_running_last _ _ (with_Running true c)); [done| |done|done].
        intros x (y & -> & Hy)%list_elem_of_fmap_1.
        pose proof (filter_none_inv _ _ Hnone y Hy) as Hyn.
        by destruct (has_id id y).
      + rewrite containers_named_set_running, length_map.
        rewrite containers_named_app.
        assert (Hold : containers_named (Name config)
                         (with_containers (containers (daemon w)) (daemon w)) = [])
          by done.
        rewrite Hold. unfold containers_named. cbn [containers with_containers].
        simpl. by rewrite Hc. }
  destruct Hfound as [Hfind Hone]. split; [|done].
  unfold ContainerRun, bind.
  rewrite IsContainerRunning_answer by done. by rewrite Hfind.
Qed.

(** ** Running a one-shot container and cleaning up *)

Lemma named_only_set_running name id id' b d :
  named_only name id d → named_only name id (set_running id' b d).
Proof.
  intros Hd c' (c & -> & Hc)%list_elem_of_fmap_1 Hnamed.
  assert (ID (if has_id id' c then with_Running b c else c) = ID c
          ∧ named name (if has_id id' c then with_Running b c else c)
            = named name c) as [-> Hn] by (by destruct (has_id id' c)).
  apply Hd; [done|]. by rewrite <- Hn.
Qed.

Lemma named_only_without name id d :
  named_only name id d → containers_named name (without id d) = [].
Proof.
  intros Hd. apply filter_none. intros c Hc. cbn [without containers with_containers] in Hc.
  apply list_elem_of_In, filter_In in Hc as [Hc%list_elem_of_In Hid].
  destruct (named name c) eqn:Hnamed; [|done].
  apply Hd in Hnamed; [|done]. unfold has_id in Hid.
  by rewrite bool_decide_true in Hid.
Qed.

(** After a successful creation, only the new container can answer to the
    requested name. *)
Lemma create_named_only (req : CreateRequest) (d d1 : Daemon) (id : string) :
  well_formed d →
  create req d = (id, None, d1) →
  named_only (ReqName req) id d1.
Proof.
  intros Hwf Hcreate.
  assert (Hshape : ∃ n, d1 = with_containers
                            (containers d ++ [new_container req id n]) d
                        ∧ containers_named (ReqName req) d = []).
  { destruct (decide (ReqName req = "")) as [Hempty|Hne].
    - unfold create in Hcreate. rewrite bool_decide_true in Hcreate by done.
      injection Hcreate as <- <-. eexists. split; [done|].
      rewrite Hempty. by apply empty_name_unnamed.
    - apply create_named in Hcreate as (Hfree & _ & ->); [|done].
      eexists. split; [done|]. by apply free_name_unnamed. }
  destruct Hshape as (n & -> & Hnone).
  intros c Hc Hnamed. cbn [containers with_containers] in Hc.
  apply elem_of_app in Hc as [Hc|Hc].
  - by rewrite (filter_none_inv _ _ Hnone c Hc) in Hnamed.
  - apply list_elem_of_singleton in Hc. by subst c.
Qed.

(** After a successful [ContainerRun], the identifier it returned is known
    to the daemon, and only its container can answer to the name. *)
Lemma ContainerRun_named_only (config : ContainerConfig) (w w1 : World)
    (id : string) :
  well_formed (daemon w) →
  ContainerRun config w = (Ret (id, None), w1) →
  known id (daemon w1) = true
  ∧ named_only (Name config) id (daemon w1)
  ∧ oracle w1 = oracle w.
Proof.
  intros Hwf Hrun.
  apply ContainerRun_inv in Hrun
    as [(Hf & Hfind & ->)|(lerr & ports & d1 & Hcreate & Hknown & ->)].
  - cbn [daemon extend]. split; [|split; [|done]].
    + by apply running_known, (found_running (Name config)).
    + rewrite listed_running in Hfind.
      apply find_running_sound in Hfind as (c & Hin & Hid & _ & Hnamed).
      intros c' Hc' Hnamed'.
      pose proof (named_unique _ _ c Hwf Hin Hnamed) as Hone.
      assert (Hmem : c' ∈ containers_named (Name config) (daemon w)).
      { apply list_elem_of_In, filter_In. split; [by apply list_elem_of_In|done]. }
      rewrite Hone in Hmem. apply list_elem_of_singleton in Hmem. by subst c'.
  - cbn [daemon extend with_daemon]. split; [|split; [|done]].
    + by rewrite known_set_running.
    + apply named_only_set_running.
      by apply (create_named_only (create_request config ports) (daemon w)).
Qed.

(** A wait that returns without error found the container, which has then
    exited. *)
Lemma ContainerWait_inv (id : string) (w1 w2 : World) (st : Z) :
  docker.ContainerWait id w1 = (Ret (st, None), w2) →
  known id (daemon w1) = true
  ∧ st = exit_status (oracle w1) id
  ∧ w2 = extend [Ev (CallContainerWait id) None]
                (with_daemon (set_running id false (daemon w1)) w1).
Proof.
  unfold docker.ContainerWait, bind, client.ContainerWait, extern.
  destruct (fault (oracle w1) (clock w1)) as [e|]; [done|].
  unfold wait. destruct (known id (daemon w1)); [|done].
  by intros [= <- <-].
Qed.

(** Fetching the log returns and leaves the daemon as it is. *)
Lemma ContainerLog_frame (id : string) (w : World) :
  ∃ body lerr evs, ContainerLog id w = (Ret (body, lerr), extend evs w).
Proof.
  unfold ContainerLog, bind, ContainerLogs, extern.
  destruct (fault (oracle w) (clock w)) as [e|].
  { by eexists _, _, _. }
  unfold logs. destruct (known id (daemon w)).
  - cbn [fst snd]. unfold ReadAll, extern. cbn [oracle log daemon trace].
    destruct (fault (oracle w) _) as [e|].
    + destruct (bool_decide _ && bool_decide _);
        eexists _, _, _; unfold ret, log, extend; simpl;
        by rewrite <- app_assoc; destruct w.
    + cbn [fst snd].
      destruct (bool_decide _ && bool_decide _);
        eexists _, _, _; unfold ret, log, extend; simpl;
        by rewrite <- app_assoc; destruct w.
  - eexists _, _, _. unfold ret, log, extend. simpl. by destruct w.
Qed.

Lemma not_running_after_stop id d :
  existsb (λ c, has_id id c && Running c) (containers (set_running id false d))
  = false.
Proof.
  unfold set_running. cbn [containers with_containers].
  induction (containers d) as [|c cs IH]; [done|]. cbn [map existsb].
  rewrite IH, orb_false_r.
  destruct (has_id id c) eqn:Hid; [|by rewrite Hid].
  by rewrite andb_false_r.
Qed.

(** C2, as the code has it: for every specification, in a daemon whose
    names are distinct and canonical, if run and wait succeed with exit
    status [st], [ContainerRunAndClean] fetches the log and then asks the
    daemon to remove the container, whatever [st] is.  If the daemon answers
    the request, the container is removed, no error is returned and no
    container answers to the name afterwards.  If the request fails, the
    failure is printed and is also the error returned to the caller, next
    to the exit status and the log text; the container stays. *)
Theorem ContainerRunAndClean_spec (config : ContainerConfig) (w w1 w2 : World)
    (id : string) (st : Z) :
  well_formed (daemon w) →
  ContainerRun config w = (Ret (id, None), w1) →
  docker.ContainerWait id w1 = (Ret (st, None), w2) →
  ∃ body lerr evs,
    ContainerLog id w2 = (Ret (body, lerr), extend evs w2)
    ∧ ContainerRunAndClean config w =
        match fault (oracle w) (clock (extend evs w2)) with
        | Some e =>
            (Ret (st, body, Some e),
             extend (evs ++ [Ev (CallContainerRemove id) (Some e);
                             removal_notice id e]) w2)
        | None =>
            (Ret (st, body, None),
             extend (evs ++ [Ev (CallContainerRemove id) None])
                    (with_daemon (without id (daemon w2)) w2))
        end
    ∧ containers_named (Name config) (without id (daemon w2)) = [].
Proof.
  intros Hwf Hrun Hwait.
  destruct (ContainerRun_named_only _ _ _ _ Hwf Hrun) as (Hknown & Honly & Ho).
  destruct (ContainerWait_inv _ _ _ _ Hwait) as (_ & Hst & Hw2).
  destruct (ContainerLog_frame id w2) as (body & lerr & evs & Hlog).
  exists body, lerr, evs. split; [done|]. split.
  - unfold ContainerRunAndClean, bind. rewrite Hrun, Hwait, Hlog.
    unfold ContainerRemove, extern.
    assert (Ho2 : oracle (extend evs w2) = oracle w) by (by rewrite Hw2).
    rewrite Ho2. destruct (fault (oracle w) (clock (extend evs w2))) as [e|].
    + unfold Printf, effect, ret. rewrite !log_extend, !extend_extend.
      done.
    + unfold remove. cbn [daemon extend].
      assert (Hk2 : known id (daemon w2) = true).
      { rewrite Hw2. cbn [daemon extend with_daemon]. by rewrite known_set_running. }
      assert (Hnr : existsb (λ c, has_id id c && Running c) (containers (daemon w2))
                    = false).
      { rewrite Hw2. cbn [daemon extend with_daemon]. apply not_running_after_stop. }
      rewrite Hk2, Hnr. cbn [negb]. unfold ret.
      rewrite log_extend. fold (without id (daemon w2)).
      rewrite <- Ho2. unfold extend, with_daemon. simpl.
      by rewrite <- app_assoc.
  - apply named_only_without. rewrite Hw2. cbn [daemon extend with_daemon].
    by apply named_only_set_running.
Qed.

(** ** Which failures reach the caller *)

Lemma with_daemon_twice d d' w :
  with_daemon d (with_daemon d' w) = with_daemon d w.
Proof. done. Qed.

(** One external call of the goal: it returned [a] with error [err]. *)
Ltac call_step :=
  match goal with
  | |- context [extern ?c ?z ?sem ?w] =>
      let a := fresh "a" in
      let err := fresh "err" in
      let d := fresh "d" in
      destruct (extern_inv c z sem w) as (a & err & d & ->);
      match type of a with
      | (_ * _)%type => destruct a
      | _ => idtac
      end;
      unfold ret; cbn beta iota;
      rewrite ?with_daemon_extend, ?extend_extend, ?with_daemon_twice;
      destruct err as [?|]; cbn beta iota
  end.

(** The end of a path: the events are those listed in the goal. *)
Ltac at_the_end :=
  unfold ret, Printf, effect; cbn [negb andb orb fst snd];
  rewrite ?log_extend, ?with_daemon_extend, ?extend_extend, ?with_daemon_twice,
          ?new_events_extend, ?new_events_extend_daemon;
  try reflexivity; try (simpl; done).

(** The resolution of a name, found or not. *)
Ltac resolve_name :=
  match goal with
  | |- context [find_running ?name ?cs] =>
      let cid := fresh "cid" in
      destruct (find_running name cs) as [cid []]; cbn [negb]; cbn beta iota
  end.

(** The port configuration: computed, or a panic. *)
Ltac ports_step :=
  match goal with
  | |- context [getNetworkConfig ?ports ?w] =>
      let Hp := fresh "Hp" in
      destruct (getNetworkConfig_from_frame ports ∅ ∅ w) as [[? Hp]|[? Hp]];
      unfold getNetworkConfig; rewrite Hp; clear Hp; cbn beta iota
  end.

(** A test on a value the daemon returned. *)
Ltac test_step :=
  match goal with
  | |- context [bool_decide ?P && bool_decide ?Q] =>
      destruct (bool_decide P && bool_decide Q); cbn beta iota
  | |- context [List.find ?p ?l] =>
      destruct (List.find p l); cbn [negb]; cbn beta iota
  end.

Ltac run_calls :=
  repeat (first [call_step | resolve_name | ports_step | test_step];
          try solve [at_the_end]).

Ltac unfold_calls :=
  unfold ContainerList, ContainerCreate, ContainerStart, client.ContainerStop,
    ContainerRemove, client.ContainerWait, ContainerLogs, ReadAll,
    ContainerInspect, ContainerExecCreate, ContainerExecAttach, StdCopy,
    ContainerExecInspect, NetworkList, NetworkCreate, NetworkRemove.

(** Every failed request that an operation does not absorb is the error the
    operation returns: at most one such request fails, and its error is
    returned. *)
Lemma failures_returned (op : Operation) (w : World) :
  match returned_error op w with
  | (Ret err, w') =>
      match unabsorbed_failures op (new_events w w') with
      | [] => True
      | e :: rest => err = Some e ∧ rest = []
      end
  | _ => True
  end.
Proof.
  destruct op; unfold returned_error, bind.
  - unfold ListContainers, bind. unfold_calls. run_calls.
  - unfold IsContainerRunning, bind. unfold_calls. run_calls.
  - unfold ContainerGetMounts, IsContainerRunning, bind. unfold_calls. run_calls.
  - unfold ContainerRun, IsContainerRunning, bind. unfold_calls. run_calls.
  - unfold docker.ContainerWait, bind. unfold_calls. run_calls.
  - unfold ContainerLog, bind. unfold_calls. run_calls.
  - unfold ContainerRunAndClean, ContainerRun, docker.ContainerWait, ContainerLog,
      IsContainerRunning, bind. unfold_calls. run_calls.
  - unfold docker.ContainerStop, IsContainerRunning, bind. unfold_calls. run_calls.
  - unfold ContainerRestart, IsContainerRunning, bind. unfold_calls. run_calls.
  - unfold ContainerExec, IsContainerRunning, bind. unfold_calls. run_calls.
  - unfold EnsureNetwork, findNetworkByName, findNetworkById, bind.
    unfold_calls. run_calls.
  - unfold RemoveNetwork, findNetworkByName, bind. unfold_calls. run_calls.
Qed.

(** C4, as the code has it: in every operation of the adapter on
    containers and networks, a request to the daemon that fails is returned
    to the caller as the operation's error, unless it is one of three
    requests whose failure the adapter absorbs: the listing by which a name
    is resolved (the name then counts as not running), the inspection behind
    [ContainerGetMounts], and the log request of [ContainerRunAndClean].  A
    failed removal after a one-shot run is not absorbed: it is returned. *)
Theorem daemon_failures_propagate (op : Operation) (w w' : World) (err : error)
    (c : Call) (e : string) :
  returned_error op w = (Ret err, w') →
  Ev c (Some e) ∈ new_events w w' →
  daemon_call c = true →
  absorbed op c = false →
  err = Some e.
Proof.
  intros Hrun Hin Hcall Habs.
  pose proof (failures_returned op w) as Hall. rewrite Hrun in Hall.
  assert (Hmem : e ∈ unabsorbed_failures op (new_events w w')).
  { unfold unabsorbed_failures. apply list_elem_of_omap.
    exists (Ev c (Some e)). split; [done|]. by rewrite Hcall, Habs. }
  destruct (unabsorbed_failures op (new_events w w')) as [|e0 rest].
  - by apply elem_of_nil in Hmem.
  - destruct Hall as [-> ->]. by apply list_elem_of_singleton in Hmem as ->.
Qed.

End adapter_proofs.

(** * Further properties of the lifecycle layer *)

(** ** Stopping, restarting and inspecting a container *)

Lemma ContainerRemove_stopped id w :
  fault (oracle w) (clock w) = None →
  known id (daemon w) = true →
  existsb (λ c, has_id id c && Running c) (containers (daemon w)) = false →
  ContainerRemove id w =
  (Ret (tt, None),
   extend [Ev (CallContainerRemove id) None] (with_daemon (without id (daemon w)) w)).
Proof.
  intros Hf Hk Hr. apply extern_step; [done|]. unfold remove. by rewrite Hk, Hr.
Qed.

Lemma without_set_running id b d : without id (set_running id b d) = without id d.
Proof.
  unfold without, set_running, with_containers. cbn [containers networks execs].
  f_equal.
  induction (containers d) as [|c cs IH]; [done|]. cbn [map List.filter].
  rewrite IH. destruct (has_id id c) eqn:Hid; [|by rewrite Hid].
  assert (Hid' : has_id id (with_Running b c) = true) by done.
  by rewrite Hid'.
Qed.

Lemma known_without id d : known id (without id d) = false.
Proof.
  unfold known, without. cbn [containers with_containers].
  induction (containers d) as [|c cs IH]; [done|]. cbn [List.filter].
  destruct (has_id id c) eqn:Hid; cbn [negb]; [done|].
  cbn [existsb]. by rewrite Hid, IH.
Qed.

(** In a well-formed daemon, the container a name resolves to is the only
    one that answers to the name. *)
Lemma resolved_named_only name id d :
  well_formed d →
  find_running name (listed false [] d) = (id, true) →
  named_only name id d.
Proof.
  intros Hwf Hfind. rewrite listed_running in Hfind.
  apply find_running_sound in Hfind as (c & Hin & Hid & _ & Hnamed).
  intros c' Hc' Hnamed'.
  pose proof (named_unique _ _ c Hwf Hin Hnamed) as Hone.
  assert (Hmem : c' ∈ containers_named name d).
  { apply list_elem_of_In, filter_In. split; [by apply list_elem_of_In|done]. }
  rewrite Hone in Hmem. apply list_elem_of_singleton in Hmem. by subst c'.
Qed.

Lemma named_only_stopped name id d :
  named_only name id d → is_running name (set_running id false d) = false.
Proof.
  intros Honly. unfold is_running, set_running. cbn [containers with_containers].
  unfold named_only in Honly.
  induction (containers d) as [|c cs IH]; [done|]. cbn [map existsb].
  rewrite IH by (intros c' Hc'; apply Honly; by right).
  rewrite orb_false_r.
  destruct (named name c) eqn:Hn.
  - unfold has_id. by rewrite bool_decide_true by (apply Honly; [left|done]).
  - destruct (has_id id c).
    + change (named name (with_Running false c)) with (named name c).
      by rewrite Hn, andb_false_r.
    + by rewrite Hn, andb_false_r.
Qed.

Lemma clock_with_daemon d w : clock (with_daemon d w) = clock w.
Proof. done. Qed.

Lemma ContainerStop_running name id w :
  quiet w →
  find_running name (listed false [] (daemon w)) = (id, true) →
  docker.ContainerStop name w =
    (Ret (true, None),
     extend [list_running_event; Ev (CallContainerStop id) None;
             Ev (CallContainerRemove id) None]
            (with_daemon (without id (daemon w)) w)).
Proof.
  intros Hq Hfind. unfold docker.ContainerStop, bind.
  rewrite IsContainerRunning_answer by apply Hq. rewrite Hfind. cbn [negb].
  pose proof (running_known _ _ (found_running _ _ _ Hfind)) as Hk.
  rewrite ContainerStop_known by (apply Hq || done).
  rewrite with_daemon_extend, extend_extend.
  rewrite ContainerRemove_stopped.
  - cbn [daemon extend with_daemon]. rewrite without_set_running.
    by rewrite !with_daemon_extend, !extend_extend.
  - apply Hq.
  - cbn [daemon extend with_daemon]. by rewrite known_set_running.
  - cbn [daemon extend with_daemon]. apply not_running_after_stop.
Qed.

Lemma ContainerStop_not_running name w :
  is_running name (daemon w) = false →
  docker.ContainerStop name w =
    (Ret (true, None),
     extend [Ev (CallContainerList false []) (fault (oracle w) (clock w))] w).
Proof.
  intros Hn. unfold docker.ContainerStop, bind.
  by rewrite IsContainerRunning_not_running.
Qed.

(** X1: with a daemon that answers, [ContainerStop] of a name that resolves to
    a running container stops that container and then removes it: it makes
    three calls (the listing, the stop, the removal) and returns
    [(true, nil)]; afterwards the daemon no longer knows the identifier and,
    the daemon being well formed, no container answers to the name. *)
Theorem ContainerStop_removes name id w :
  quiet w →
  well_formed (daemon w) →
  find_running name (listed false [] (daemon w)) = (id, true) →
  docker.ContainerStop name w =
    (Ret (true, None),
     extend [list_running_event; Ev (CallContainerStop id) None;
             Ev (CallContainerRemove id) None]
            (with_daemon (without id (daemon w)) w))
  ∧ containers_named name (without id (daemon w)) = []
  ∧ known id (without id (daemon w)) = false.
Proof.
  intros Hq Hwf Hfind. split; [by apply ContainerStop_running|]. split.
  - apply named_only_without. by apply resolved_named_only.
  - apply known_without.
Qed.

(** X2: for a name to which no running container answers (no container has
    the name, or the one that has it is stopped), [ContainerStop] and
    [ContainerRestart] both return [(true, nil)] after the listing alone,
    whether or not the listing fails: a stopped container is neither removed
    nor started, and the daemon is left as it is. *)
Theorem stopped_container_left_alone name w :
  is_running name (daemon w) = false →
  docker.ContainerStop name w =
    (Ret (true, None),
     extend [Ev (CallContainerList false []) (fault (oracle w) (clock w))] w)
  ∧ ContainerRestart name w =
    (Ret (true, None),
     extend [Ev (CallContainerList false []) (fault (oracle w) (clock w))] w).
Proof.
  intros Hn. split.
  - unfold docker.ContainerStop, bind. by rewrite IsContainerRunning_not_running.
  - unfold ContainerRestart, bind. by rewrite IsContainerRunning_not_running.
Qed.

(** X3: if the listing and the stop request succeed and the removal request
    fails with [e], [ContainerStop] returns [(false, e)] and leaves the
    container in place, stopped (one container still answers to the name in
    a well-formed daemon).  A second [ContainerStop] of the name then finds
    nothing running and returns [(true, nil)] after its listing: the removal
    is not tried again, and the container stays. *)
Theorem ContainerStop_failed_removal name id e w :
  well_formed (daemon w) →
  find_running name (listed false [] (daemon w)) = (id, true) →
  fault (oracle w) (clock w) = None →
  fault (oracle w) (S (clock w)) = None →
  fault (oracle w) (S (S (clock w))) = Some e →
  let w' := extend [list_running_event; Ev (CallContainerStop id) None;
                    Ev (CallContainerRemove id) (Some e)]
                   (with_daemon (set_running id false (daemon w)) w) in
  docker.ContainerStop name w = (Ret (false, Some e), w')
  ∧ length (containers_named name (daemon w')) = 1%nat
  ∧ docker.ContainerStop name w' =
      (Ret (true, None),
       extend [Ev (CallContainerList false []) (fault (oracle w) (clock w'))] w').
Proof.
  intros Hwf Hfind Hf0 Hf1 Hf2 w'.
  pose proof (resolved_named_only _ _ _ Hwf Hfind) as Honly.
  split; [|split].
  - unfold docker.ContainerStop, bind.
    rewrite IsContainerRunning_answer by done. rewrite Hfind. cbn [negb].
    pose proof (running_known _ _ (found_running _ _ _ Hfind)) as Hk.
    rewrite ContainerStop_known;
      [|rewrite clock_extend; cbn [oracle extend length]; by rewrite Nat.add_1_r|done].
    rewrite with_daemon_extend, extend_extend.
    unfold ContainerRemove.
    rewrite (extern_fault _ _ _ _ e).
    + by rewrite extend_extend.
    + rewrite clock_extend, clock_with_daemon. cbn [oracle extend with_daemon app length].
      by rewrite Nat.add_comm.
  - subst w'. cbn [daemon extend with_daemon].
    rewrite containers_named_set_running, length_map.
    rewrite listed_running in Hfind.
    apply find_running_sound in Hfind as (c & Hin & _ & _ & Hnamed).
    by rewrite (named_unique _ _ c).
  - unfold docker.ContainerStop, bind.
    rewrite IsContainerRunning_not_running; [done|].
    subst w'. cbn [daemon extend with_daemon]. by apply named_only_stopped.
Qed.

Lemma find_running_restarted name id cs :
  find_running name (List.filter Running cs) = (id, true) →
  find_running name
    (List.filter Running
       (map (λ c, if has_id id c then with_Running true c else c)
          (map (λ c, if has_id id c then with_Running false c else c) cs)))
  = (id, true).
Proof.
  induction cs as [|c cs IH]; [done|]. cbn [map List.filter].
  destruct (has_id id c) eqn:Hid.
  - assert (Hid' : has_id id (with_Running false c) = true) by done.
    rewrite Hid'. cbn [Running with_Running find_running].
    change (named name (with_Running true (with_Running false c)))
      with (named name c).
    destruct (named name c) eqn:Hn.
    + intros _. cbn [ID with_Running]. unfold has_id in Hid.
      by apply bool_decide_eq_true in Hid as ->.
    + destruct (Running c); cbn [find_running]; rewrite ?Hn; apply IH.
  - rewrite Hid. destruct (Running c); cbn [find_running]; [|apply IH].
    destruct (named name c); [done|apply IH].
Qed.

Lemma set_running_ids id b d :
  map ID (containers (set_running id b d)) = map ID (containers d).
Proof.
  unfold set_running. cbn [containers with_containers].
  induction (containers d) as [|c cs IH]; [done|]. cbn [map].
  rewrite IH. by destruct (has_id id c).
Qed.

Lemma set_running_names id b d : all_names (set_running id b d) = all_names d.
Proof.
  unfold all_names, set_running. cbn [containers with_containers].
  induction (containers d) as [|c cs IH]; [done|]. cbn [map concat].
  rewrite IH. by destruct (has_id id c).
Qed.

(** X4: with a daemon that answers, [ContainerRestart] of a name that resolves
    to a running container stops and then starts that container and returns
    [(true, nil)]; afterwards the name resolves to the same identifier, and
    the daemon holds the same identifiers and the same names as before:
    nothing is created or removed. *)
Theorem ContainerRestart_same_container name id w :
  quiet w →
  find_running name (listed false [] (daemon w)) = (id, true) →
  let d' := set_running id true (set_running id false (daemon w)) in
  ContainerRestart name w =
    (Ret (true, None),
     extend [list_running_event; Ev (CallContainerStop id) None;
             Ev (CallContainerStart id) None] (with_daemon d' w))
  ∧ find_running name (listed false [] d') = (id, true)
  ∧ map ID (containers d') = map ID (containers (daemon w))
  ∧ all_names d' = all_names (daemon w).
Proof.
  intros Hq Hfind d'. split; [by apply ContainerRestart_running|].
  split; [|split].
  - rewrite listed_running in *. by apply find_running_restarted.
  - unfold d'. by rewrite !set_running_ids.
  - unfold d'. by rewrite !set_running_names.
Qed.

(** ** The mounts of a container that was just run *)

Lemma fresh_id_unknown (cs : list Container) (c : Container) :
  c ∈ cs → has_id (fresh (map ID cs)) c = false.
Proof.
  intros Hc. unfold has_id. apply bool_decide_eq_false. intros Heq.
  apply (infinite_is_fresh (map ID cs)). rewrite <- Heq.
  by apply list_elem_of_fmap_2.
Qed.

Lemma find_after_create id b (cs : list Container) (c : Container) :
  id = fresh (map ID cs) → ID c = id →
  List.find (has_id id)
    (map (λ c, if has_id id c then with_Running b c else c) (cs ++ [c]))
  = Some (with_Running b c).
Proof.
  intros Hid Hc.
  assert (Hnot : ∀ x, x ∈ cs → has_id id x = false).
  { intros x Hx. rewrite Hid. by apply fresh_id_unknown. }
  clear Hid. induction cs as [|x cs IH]; cbn [app map List.find].
  - assert (Hh : has_id id c = true) by (unfold has_id; by rewrite bool_decide_true).
    rewrite Hh. change (has_id id (with_Running b c)) with (has_id id c).
    by rewrite Hh.
  - rewrite !(Hnot x) by left.
    apply IH. intros y Hy. apply Hnot. by right.
Qed.

Section adapter_more.
Context `{GoConnections}.

(** A container created under a plain name and started is the one the name
    resolves to. *)
Lemma created_resolves (config : ContainerConfig) (ports : portConfig)
    (d d1 : Daemon) (id : string) :
  well_formed d →
  Name config ≠ "" →
  gostrings.Trim (Name config) "/" = Name config →
  create (create_request config ports) d = (id, None, d1) →
  find_running (Name config) (listed false [] (set_running id true d1)) = (id, true)
  ∧ List.find (has_id id) (containers (set_running id true d1))
    = Some (with_Running true
              (new_container (create_request config ports) id
                 (full_name (Name config)))).
Proof.
  intros Hwf Hne Hplain Hcreate.
  apply create_named in Hcreate as (Hfree & Hid & ->); [|done].
  cbn [ReqName create_request] in *.
  pose proof (free_name_unnamed _ _ Hwf Hfree) as Hnone.
  pose proof (full_name_plain _ Hplain) as Hfull.
  set (c := new_container (create_request config ports) id
              (full_name (Name config))).
  assert (Hc : named (Name config) c = true).
  { unfold named, c. cbn [Names new_container existsb]. rewrite Hfull.
    change (gostrings.Trim ("/" +:+ Name config) "/")
      with (gostrings.Trim (Name config) "/").
    rewrite Hplain. by rewrite bool_decide_true. }
  assert (Hcid : has_id id c = true) by (unfold has_id; by rewrite bool_decide_true).
  split.
  - rewrite listed_running. unfold set_running.
    cbn [containers with_containers]. rewrite map_app. cbn [map].
    rewrite Hcid.
    rewrite (find_running_last _ _ (with_Running true c)); [done| |done|done].
    intros x (y & -> & Hy)%list_elem_of_fmap_1.
    pose proof (filter_none_inv _ _ Hnone y Hy) as Hyn.
    by destruct (has_id id y).
  - unfold set_running. cbn [containers with_containers].
    by apply find_after_create.
Qed.

(** ** The port configuration *)

Lemma getNetworkConfig_from_spec ports :
  ∀ pb ps w,
    getNetworkConfig_from ports pb ps w =
    match first_port_error ports with
    | Some e => (Panic e, w)
    | None =>
        (Ret {| PortBindings :=
                  foldl (λ m port, <[port_name port := [Port port]]> m) pb ports;
                PortSet := foldl (λ s port, {[port_name port]} ∪ s) ps ports |}, w)
    end.
Proof.
  induction ports as [|port ports IH]; intros pb ps w; [done|].
  cbn [getNetworkConfig_from first_port_error foldl]. unfold port_error, port_name.
  destruct (NewPort (Protocol port) (Port port)) as [portName [err|]]; [done|].
  cbn [fst snd]. apply IH.
Qed.

Lemma port_set_elem ports :
  ∀ (ps : gset string) name,
    name ∈ foldl (λ s port, {[port_name port]} ∪ s) ps ports
    ↔ name ∈ ps ∨ ∃ port, port ∈ ports ∧ port_name port = name.
Proof.
  induction ports as [|port ports IH]; intros ps name; cbn [foldl].
  - split; [by left|]. intros [?|(port & ?%elem_of_nil & _)]; done.
  - rewrite IH, elem_of_union, elem_of_singleton. split.
    + intros [[->|?]|(p & ? & ?)].
      * right. exists port. split; [left|done].
      * by left.
      * right. exists p. split; [by right|done].
    + intros [?|(p & [->|?]%elem_of_cons & Hp)].
      * left. by right.
      * left. by left.
      * right. by exists p.
Qed.

Lemma port_bindings_dom ports :
  ∀ (pb : gmap string (list string)) (ps : gset string),
    dom pb = ps →
    dom (foldl (λ m port, <[port_name port := [Port port]]> m) pb ports)
    = foldl (λ s port, {[port_name port]} ∪ s) ps ports.
Proof.
  induction ports as [|port ports IH]; intros pb ps Hdom; cbn [foldl]; [done|].
  apply IH. rewrite dom_insert_L. by rewrite Hdom.
Qed.

Lemma port_bindings_lookup ports :
  ∀ (pb : gmap string (list string)) name hosts,
    foldl (λ m port, <[port_name port := [Port port]]> m) pb ports !! name
      = Some hosts →
    pb !! name = Some hosts
    ∨ ∃ port, port ∈ ports ∧ port_name port = name ∧ hosts = [Port port].
Proof.
  induction ports as [|port ports IH]; intros pb name hosts; cbn [foldl].
  - by left.
  - intros [Hpb|(p & ? & ? & ?)]%IH.
    + destruct (decide (port_name port = name)) as [Heq|Hne].
      * rewrite Heq, lookup_insert_eq in Hpb. injection Hpb as <-.
        right. exists port. split; [left|done].
      * rewrite lookup_insert_ne in Hpb by done. by left.
    + right. exists p. split; [by right|done].
Qed.

(** X6: whenever [getNetworkConfig] returns (it does not panic), it has made
    no call and left the world as it was, every port of the list parsed,
    the port set is the key set of the port bindings and holds exactly the
    names of the ports of the list, and every binding is the single host
    port of a port of the list that has that name. *)
Theorem getNetworkConfig_keys (ports : list ExposedPorts) (w w' : World)
    (cfg : portConfig) :
  getNetworkConfig ports w = (Ret cfg, w') →
  w' = w
  ∧ (∀ port, port ∈ ports → port_error port = None)
  ∧ dom (PortBindings cfg) = PortSet cfg
  ∧ (∀ name, name ∈ PortSet cfg ↔ ∃ port, port ∈ ports ∧ port_name port = name)
  ∧ (∀ name hosts, PortBindings cfg !! name = Some hosts →
       ∃ port, port ∈ ports ∧ port_name port = name ∧ hosts = [Port port]).
Proof.
  unfold getNetworkConfig. rewrite getNetworkConfig_from_spec.
  destruct (first_port_error ports) as [e|] eqn:Herr; [done|].
  intros [= <- <-]. split; [done|]. split; [|split; [|split]].
  - clear w. induction ports as [|p ports IH]; intros port Hport.
    + by apply elem_of_nil in Hport.
    + cbn [first_port_error] in Herr.
      destruct (port_error p) eqn:Hp; [done|].
      apply elem_of_cons in Hport as [->|Hport]; [done|]. by apply IH.
  - cbn [PortBindings PortSet]. by apply port_bindings_dom.
  - intros name. cbn [PortSet]. rewrite port_set_elem.
    split; [intros [?%elem_of_empty|?]; done|by right].
  - intros name hosts. cbn [PortBindings].
    intros [Hempty|?]%port_bindings_lookup; [|done].
    by rewrite lookup_empty in Hempty.
Qed.

(** X7: for a specification one of whose ports does not parse, [ContainerRun]
    panics with the error of the first such port when no running container
    answers to the name: the listing has been made, no creation is
    requested.  When a running container answers to the name, its
    identifier is returned after the listing and the ports are never
    looked at. *)
Theorem ContainerRun_bad_port (config : ContainerConfig) (e : string) (w : World) :
  first_port_error (Ports config) = Some e →
  (is_running (Name config) (daemon w) = false →
   ContainerRun config w =
     (Panic e,
      extend [Ev (CallContainerList false []) (fault (oracle w) (clock w))] w))
  ∧ (∀ id, fault (oracle w) (clock w) = None →
           find_running (Name config) (listed false [] (daemon w)) = (id, true) →
           ContainerRun config w = (Ret (id, None), extend [list_running_event] w)).
Proof.
  intros Hbad. split.
  - intros Hnot. unfold ContainerRun, bind.
    rewrite IsContainerRunning_not_running by done.
    unfold getNetworkConfig. rewrite getNetworkConfig_from_spec. by rewrite Hbad.
  - intros id Hf Hfind. unfold ContainerRun, bind.
    rewrite IsContainerRunning_answer by done. by rewrite Hfind.
Qed.

End adapter_more.

(** ** Networks *)

Lemma NetworkList_answer w :
  fault (oracle w) (clock w) = None →
  NetworkList w = (Ret (networks (daemon w), None), extend [Ev CallNetworkList None] w).
Proof.
  intros Hf. unfold NetworkList.
  erewrite extern_step; [|done|done]. by rewrite with_daemon_same.
Qed.

Lemma findNetworkByName_answer name w :
  fault (oracle w) (clock w) = None →
  findNetworkByName name w =
  (Ret (match network_named name (daemon w) with
        | Some n => (true, n, None)
        | None => (false, NetworkResource_zero, None)
        end), extend [Ev CallNetworkList None] w).
Proof.
  intros Hf. unfold findNetworkByName, bind. rewrite NetworkList_answer by done.
  unfold network_named. by destruct (List.find _ _).
Qed.

Lemma findNetworkByName_fault name w e :
  fault (oracle w) (clock w) = Some e →
  findNetworkByName name w =
  (Ret (false, NetworkResource_zero, Some e), extend [Ev CallNetworkList (Some e)] w).
Proof.
  intros Hf. unfold findNetworkByName, bind, NetworkList.
  by rewrite (extern_fault _ _ _ _ e).
Qed.

(** The network just created is the one found under its identifier, and
    under its name if no network had the name. *)
Lemma find_created_by_id (ns : list NetworkResource) (n : NetworkResource) :
  NetworkID n = fresh (map NetworkID ns) →
  List.find (λ x, bool_decide (NetworkID x = NetworkID n)) (ns ++ [n]) = Some n.
Proof.
  intros Hn.
  assert (Hnot : ∀ x, x ∈ ns → bool_decide (NetworkID x = NetworkID n) = false).
  { intros x Hx. apply bool_decide_eq_false. intros Heq.
    apply (infinite_is_fresh (map NetworkID ns)). rewrite <- Hn, <- Heq.
    by apply list_elem_of_fmap_2. }
  clear Hn. induction ns as [|x ns IH]; cbn [app List.find].
  - by rewrite bool_decide_true.
  - rewrite Hnot by left. apply IH. intros y Hy. apply Hnot. by right.
Qed.

Lemma find_created_by_name (ns : list NetworkResource) (n : NetworkResource) :
  List.find (λ x, bool_decide (client.NetworkName x = client.NetworkName n)) ns = None →
  List.find (λ x, bool_decide (client.NetworkName x = client.NetworkName n)) (ns ++ [n])
  = Some n.
Proof.
  induction ns as [|x ns IH]; cbn [app List.find].
  - by rewrite bool_decide_true.
  - destruct (bool_decide _); [done|apply IH].
Qed.

Lemma filter_created_out (ns : list NetworkResource) (n : NetworkResource) :
  NetworkID n = fresh (map NetworkID ns) →
  List.filter (λ x, negb (bool_decide (NetworkID x = NetworkID n))) (ns ++ [n]) = ns.
Proof.
  intros Hn.
  assert (Hnot : ∀ x, x ∈ ns → bool_decide (NetworkID x = NetworkID n) = false).
  { intros x Hx. apply bool_decide_eq_false. intros Heq.
    apply (infinite_is_fresh (map NetworkID ns)). rewrite <- Hn, <- Heq.
    by apply list_elem_of_fmap_2. }
  clear Hn. induction ns as [|x ns IH]; cbn [app List.filter].
  - by rewrite bool_decide_true.
  - rewrite Hnot by left. cbn [negb]. f_equal. apply IH.
    intros y Hy. apply Hnot. by right.
Qed.

Lemma NetworkCreate_answer name driver w :
  fault (oracle w) (clock w) = None →
  NetworkCreate name driver w =
  (Ret (fresh (map NetworkID (networks (daemon w))), None),
   extend [Ev (CallNetworkCreate name driver) None]
          (with_daemon
             (add_network {| NetworkID := fresh (map NetworkID (networks (daemon w)));
                             client.NetworkName := name; Driver := driver |}
                          (daemon w)) w)).
Proof. intros Hf. by apply extern_step. Qed.

Lemma EnsureNetwork_found (name : string) (w : World) (n : NetworkResource) :
  fault (oracle w) (clock w) = None →
  network_named name (daemon w) = Some n →
  EnsureNetwork name w = (Ret (false, n, None), extend [Ev CallNetworkList None] w).
Proof.
  intros Hf Hfind. unfold EnsureNetwork, bind.
  rewrite findNetworkByName_answer by done. by rewrite Hfind.
Qed.

Lemma EnsureNetwork_created (name : string) (w : World) :
  quiet w →
  network_named name (daemon w) = None →
  EnsureNetwork name w =
    (Ret (true, next_network name (daemon w), None),
     extend [Ev CallNetworkList None;
             Ev (CallNetworkCreate name "bridge") None;
             Ev CallNetworkList None]
            (with_daemon (add_network (next_network name (daemon w)) (daemon w)) w)).
Proof.
  intros Hq Hfind. unfold EnsureNetwork, bind.
  rewrite findNetworkByName_answer by apply Hq. rewrite Hfind.
  cbn beta iota. rewrite NetworkCreate_answer by apply Hq.
  fold (next_network name (daemon w)).
  unfold findNetworkById, bind.
  rewrite NetworkList_answer by apply Hq.
  cbn [daemon extend with_daemon networks add_network].
  change (fresh (map NetworkID (networks (daemon w))))
    with (NetworkID (next_network name (daemon w))).
  rewrite find_created_by_id by done.
  by rewrite !with_daemon_extend, !extend_extend.
Qed.

(** X8: with a daemon that answers, [EnsureNetwork] returns the first network
    of the daemon's list that has the name, with [created] false and after
    one listing, if there is one; otherwise it asks for a bridge network of
    that name, finds the new network by its identifier in a second listing
    and returns it with [created] true, the network being added to the
    daemon's list. *)
Theorem EnsureNetwork_spec (name : string) (w : World) :
  quiet w →
  match network_named name (daemon w) with
  | Some n =>
      EnsureNetwork name w =
        (Ret (false, n, None), extend [Ev CallNetworkList None] w)
      ∧ client.NetworkName n = name
  | None =>
      EnsureNetwork name w =
        (Ret (true, next_network name (daemon w), None),
         extend [Ev CallNetworkList None;
                 Ev (CallNetworkCreate name "bridge") None;
                 Ev CallNetworkList None]
                (with_daemon (add_network (next_network name (daemon w)) (daemon w)) w))
  end.
Proof.
  intros Hq. destruct (network_named name (daemon w)) as [n|] eqn:Hfind.
  - split; [by apply EnsureNetwork_found|].
    apply find_some in Hfind as [_ Hn]. by apply bool_decide_eq_true in Hn.
  - by apply EnsureNetwork_created.
Qed.

(** How [EnsureNetwork] comes to return a network without error: one was
    found under the name, or none was and one was created. *)
Lemma EnsureNetwork_inv name w w1 created n :
  EnsureNetwork name w = (Ret (created, n, None), w1) →
  (created = false ∧ network_named name (daemon w) = Some n
   ∧ w1 = extend [Ev CallNetworkList None] w)
  ∨ (created = true ∧ network_named name (daemon w) = None
     ∧ n = next_network name (daemon w)
     ∧ w1 = extend [Ev CallNetworkList None;
                    Ev (CallNetworkCreate name "bridge") None;
                    Ev CallNetworkList None]
                   (with_daemon (add_network n (daemon w)) w)).
Proof.
  unfold EnsureNetwork, bind.
  destruct (fault (oracle w) (clock w)) as [e|] eqn:Hf.
  { by rewrite (findNetworkByName_fault _ _ e). }
  rewrite findNetworkByName_answer by done.
  destruct (network_named name (daemon w)) as [n0|] eqn:Hfind.
  { intros [= <- <- <-]. by left. }
  cbn beta iota.
  set (w0 := extend [Ev CallNetworkList None] w).
  destruct (fault (oracle w0) (clock w0)) as [e|] eqn:Hf0.
  { unfold NetworkCreate. by rewrite (extern_fault _ _ _ _ e). }
  rewrite NetworkCreate_answer by done.
  fold (next_network name (daemon w0)).
  match goal with |- context [findNetworkById _ ?w2] => set (w' := w2) end.
  unfold findNetworkById, bind.
  destruct (fault (oracle w') (clock w')) as [e|] eqn:Hf'.
  { unfold NetworkList. by rewrite (extern_fault _ _ _ _ e). }
  rewrite NetworkList_answer by done.
  subst w' w0. cbn [daemon extend with_daemon networks add_network].
  change (fresh (map NetworkID (networks (daemon w))))
    with (NetworkID (next_network name (daemon w))).
  rewrite find_created_by_id by done.
  intros [= <- <- <-]. right. split; [done|]. split; [done|]. split; [done|].
  by rewrite !with_daemon_extend, !extend_extend.
Qed.

(** X9: whenever [EnsureNetwork] has returned a network without error, found
    or created, a second call for the same name (the daemon answering its
    listing) returns the same network with [created] false and makes no
    call but that listing; the network has the requested name. *)
Theorem EnsureNetwork_idempotent (name : string) (w w1 : World) (created : bool)
    (n : NetworkResource) :
  EnsureNetwork name w = (Ret (created, n, None), w1) →
  fault (oracle w1) (clock w1) = None →
  EnsureNetwork name w1 = (Ret (false, n, None), extend [Ev CallNetworkList None] w1)
  ∧ client.NetworkName n = name.
Proof.
  intros Hrun Hf.
  assert (Hfound : network_named name (daemon w1) = Some n
                   ∧ client.NetworkName n = name).
  { apply EnsureNetwork_inv in Hrun
      as [(_ & Hfind & ->)|(_ & Hnone & -> & ->)].
    - split; [done|]. unfold network_named in Hfind.
      apply find_some in Hfind as [_ Hn]. by apply bool_decide_eq_true in Hn.
    - split; [|done]. unfold network_named in *.
      cbn [daemon extend with_daemon networks add_network].
      by apply (find_created_by_name _ (next_network name (daemon w))). }
  destruct Hfound as [Hfind Hname]. split; [|done].
  unfold EnsureNetwork, bind. rewrite findNetworkByName_answer by done.
  by rewrite Hfind.
Qed.

Lemma NetworkRemove_answer id w :
  fault (oracle w) (clock w) = None →
  existsb (λ n, bool_decide (NetworkID n = id)) (networks (daemon w)) = true →
  NetworkRemove id w =
  (Ret (tt, None),
   extend [Ev (CallNetworkRemove id) None] (with_daemon (without_network id (daemon w)) w)).
Proof.
  intros Hf Hk. apply extern_step; [done|]. unfold network_remove. by rewrite Hk.
Qed.

Lemma found_network_known name d n :
  network_named name d = Some n →
  existsb (λ x, bool_decide (NetworkID x = NetworkID n)) (networks d) = true.
Proof.
  intros [Hin _]%find_some. apply existsb_exists. exists n.
  split; [done|]. by rewrite bool_decide_true.
Qed.

(** X10: when the listing is answered, [RemoveNetwork] returns [(false, nil)]
    without a removal request if no network has the name.  Otherwise it
    asks for the removal, by identifier, of the first network that has the
    name and returns [true] next to the error of that request: [(true, err)]
    with the network still there if the request fails, [(true, nil)] with
    the networks of that identifier gone if it succeeds. *)
Theorem RemoveNetwork_spec (name : string) (w : World) :
  fault (oracle w) (clock w) = None →
  RemoveNetwork name w =
  match network_named name (daemon w) with
  | None => (Ret (false, None), extend [Ev CallNetworkList None] w)
  | Some n =>
      match fault (oracle w) (S (clock w)) with
      | Some e =>
          (Ret (true, Some e),
           extend [Ev CallNetworkList None;
                   Ev (CallNetworkRemove (NetworkID n)) (Some e)] w)
      | None =>
          (Ret (true, None),
           extend [Ev CallNetworkList None; Ev (CallNetworkRemove (NetworkID n)) None]
                  (with_daemon (without_network (NetworkID n) (daemon w)) w))
      end
  end.
Proof.
  intros Hf. unfold RemoveNetwork, bind.
  rewrite findNetworkByName_answer by done.
  destruct (network_named name (daemon w)) as [n|] eqn:Hfind; [|done]. cbn [negb].
  assert (Hclock : clock (extend [Ev CallNetworkList None] w) = S (clock w)).
  { rewrite clock_extend. cbn [length]. lia. }
  destruct (fault (oracle w) (S (clock w))) as [e|] eqn:Hf1.
  - unfold NetworkRemove. rewrite (extern_fault _ _ _ _ e).
    + by rewrite extend_extend.
    + by rewrite Hclock.
  - rewrite NetworkRemove_answer.
    + by rewrite !with_daemon_extend, !extend_extend.
    + by rewrite Hclock.
    + by apply (found_network_known name).
Qed.

Lemma without_created_network (n : NetworkResource) (d : Daemon) :
  NetworkID n = fresh (map NetworkID (networks d)) →
  without_network (NetworkID n) (add_network n d) = d.
Proof.
  intros Hn. unfold without_network, add_network. cbn [containers networks execs].
  rewrite filter_created_out by done. by destruct d.
Qed.

(** X11: with a daemon that answers and no network of the name,
    [EnsureNetwork] followed by [RemoveNetwork] creates the network and
    removes it again, in five calls, and leaves the daemon exactly as it
    was. *)
Theorem EnsureNetwork_then_RemoveNetwork (name : string) (w : World) :
  quiet w →
  network_named name (daemon w) = None →
  (EnsureNetwork name ;;; RemoveNetwork name) w =
    (Ret (true, None),
     extend [Ev CallNetworkList None;
             Ev (CallNetworkCreate name "bridge") None;
             Ev CallNetworkList None;
             Ev CallNetworkList None;
             Ev (CallNetworkRemove (NetworkID (next_network name (daemon w)))) None]
            w).
Proof.
  intros Hq Hnone. unfold bind at 1. rewrite EnsureNetwork_created by done.
  set (n := next_network name (daemon w)).
  unfold RemoveNetwork, bind.
  rewrite findNetworkByName_answer by apply Hq.
  cbn [daemon extend with_daemon].
  assert (Hfind : network_named name (add_network n (daemon w)) = Some n).
  { unfold network_named in *. cbn [networks add_network].
    by apply (find_created_by_name _ n). }
  rewrite Hfind. cbn [negb].
  rewrite NetworkRemove_answer.
  - cbn [daemon extend with_daemon]. rewrite without_created_network by done.
    by rewrite !with_daemon_extend, !extend_extend, with_daemon_twice, with_daemon_same.
  - apply Hq.
  - apply (found_network_known name). cbn [daemon extend with_daemon]. done.
Qed.

(** ** Is the daemon there? *)

Lemma retry_events_pauses o start k :
  pauses (retry_events o start k) = replicate k 5%Z.
Proof.
  revert start. induction k as [|k IH]; intros start; [done|].
  cbn [retry_events replicate].
  change (pauses (_ :: _ :: retry_events o (S (S start)) k))
    with (5%Z :: pauses (retry_events o (S (S start)) k)).
  by rewrite IH.
Qed.

Lemma retry_events_listings o start k :
  length (listings (retry_events o start k)) = k.
Proof.
  revert start. induction k as [|k IH]; intros start; [done|].
  cbn [retry_events].
  change (listings (_ :: _ :: retry_events o (S (S start)) k))
    with (fault o (S start) :: listings (retry_events o (S (S start)) k)).
  cbn [length]. by rewrite IH.
Qed.

Section availability_proofs.
Context `{Host}.

Lemma ContainerList_inv all filters w :
  ContainerList all filters w =
  (Ret (match fault (oracle w) (clock w) with
        | Some e => ([], Some e)
        | None => (listed all filters (daemon w), None)
        end),
   extend [Ev (CallContainerList all filters) (fault (oracle w) (clock w))] w).
Proof.
  unfold ContainerList. destruct (fault (oracle w) (clock w)) as [e|] eqn:Hf.
  - by rewrite (extern_fault _ _ _ _ e).
  - erewrite extern_step; [|done|done]. by rewrite with_daemon_same.
Qed.

(** With a daemon that never answers, the loop gives up when the counter
    reaches 12: from [retries = 11 - k] after [k] more attempts. *)
Lemma ensureDockerIsAvailable_loop_gives_up (k : nat) :
  ∀ fuel retries err w,
    (∀ n, (clock w ≤ n)%nat → fault (oracle w) n ≠ None) →
    retries = (11 - Z.of_nat k)%Z →
    (k ≤ 11)%nat →
    (k < fuel)%nat →
    ensureDockerIsAvailable_loop fuel retries err w =
    (Ret unable_to_start,
     extend (retry_events (oracle w) (clock w) k ++ [giving_up_notice]) w).
Proof.
  induction k as [|k IH]; intros fuel retries err w Hdown Hr Hk Hfuel;
    (destruct fuel as [|fuel]; [lia|]); cbn [ensureDockerIsAvailable_loop];
    rewrite bool_decide_true by lia.
  - rewrite bool_decide_true by lia. done.
  - rewrite bool_decide_false by lia.
    unfold bind at 1, Sleep, effect. rewrite log_extend.
    unfold bind at 1. rewrite ContainerList_inv.
    rewrite clock_extend. cbn [oracle extend length].
    rewrite Nat.add_1_r.
    destruct (fault (oracle w) (S (clock w))) as [e|] eqn:Hf;
      [|by destruct (Hdown (S (clock w)) ltac:(lia))].
    rewrite extend_extend.
    rewrite IH; [| |lia|lia|lia].
    + rewrite extend_extend, clock_extend. cbn [oracle extend length app retry_events].
      rewrite Hf. by replace (clock w + 2)%nat with (S (S (clock w))) by lia.
    + intros n Hn. rewrite clock_extend in Hn. apply Hdown. lia.
Qed.

(** With a daemon that answers the listing of attempt [k + 1], the first
    that does, the loop returns no error after that attempt. *)
Lemma ensureDockerIsAvailable_loop_recovers (k : nat) :
  ∀ fuel retries err w,
    (0 ≤ retries)%Z →
    (retries + Z.of_nat k < 11)%Z →
    (k < fuel)%nat →
    (∀ i, (i < k)%nat → fault (oracle w) (clock w + 2 * i + 1) ≠ None) →
    fault (oracle w) (clock w + 2 * k + 1) = None →
    ensureDockerIsAvailable_loop fuel retries err w =
    (Ret None, extend (retry_events (oracle w) (clock w) (S k)) w).
Proof.
  induction k as [|k IH]; intros fuel retries err w Hr0 Hr Hfuel Hdown Hup;
    (destruct fuel as [|fuel]; [lia|]); cbn [ensureDockerIsAvailable_loop];
    rewrite bool_decide_true by lia; rewrite bool_decide_false by lia;
    unfold bind at 1, Sleep, effect; rewrite log_extend;
    unfold bind at 1; rewrite ContainerList_inv;
    rewrite clock_extend; cbn [oracle extend length]; rewrite Nat.add_1_r.
  - replace (clock w + 2 * 0 + 1)%nat with (S (clock w)) in Hup by lia.
    rewrite Hup. unfold ret. rewrite extend_extend. cbn [retry_events app].
    by rewrite Hup.
  - destruct (fault (oracle w) (S (clock w))) as [e|] eqn:Hf.
    2:{ destruct (Hdown 0%nat ltac:(lia)).
        by replace (clock w + 2 * 0 + 1)%nat with (S (clock w)) by lia. }
    rewrite extend_extend.
    rewrite IH; [| lia | lia | lia | |].
    + rewrite extend_extend, clock_extend. cbn [oracle extend length app].
      change (retry_events (oracle w) (clock w) (S (S k)))
        with (Ev (CallSleep 5) None
              :: Ev (CallContainerList false []) (fault (oracle w) (S (clock w)))
              :: retry_events (oracle w) (S (S (clock w))) (S k)).
      rewrite Hf. by replace (clock w + 2)%nat with (S (S (clock w))) by lia.
    + intros i Hi. rewrite clock_extend. cbn [oracle extend length app].
      replace (clock w + 2 + 2 * i + 1)%nat with (clock w + 2 * S i + 1)%nat by lia.
      apply Hdown. lia.
    + rewrite clock_extend. cbn [oracle extend length app].
      by replace (clock w + 2 + 2 * k + 1)%nat with (clock w + 2 * S k + 1)%nat by lia.
Qed.

(** X12: on a system other than macOS, or when the first listing is answered,
    [ensureDockerIsAvailable] makes that one listing and returns its error
    as it is ([nil] if it was answered): nothing is printed, nothing is
    launched and there is no retry. *)
Theorem ensureDockerIsAvailable_no_retry (fuel : nat) (w : World) :
  GOOS ≠ "darwin" ∨ fault (oracle w) (clock w) = None →
  ensureDockerIsAvailable fuel w =
    (Ret (fault (oracle w) (clock w)),
     extend [Ev (CallContainerList false []) (fault (oracle w) (clock w))] w).
Proof.
  intros Hcase. unfold ensureDockerIsAvailable, bind. rewrite ContainerList_inv.
  destruct (fault (oracle w) (clock w)) as [e|]; [|done].
  destruct Hcase as [Hos|?]; [|done]. by rewrite bool_decide_false.
Qed.

(** X13: on macOS, if the first listing fails, the launch of Docker returns
    without error and the daemon never answers afterwards,
    [ensureDockerIsAvailable] (on any fuel of 12 or more) gives up with the
    error [unable to start Docker for Mac] after exactly eleven retries,
    each a pause of five seconds followed by a listing, and a final
    notice: the counter is tested against 12 before the twelfth pause. *)
Theorem ensureDockerIsAvailable_gives_up (fuel : nat) (w w2 : World) (e : string) :
  GOOS = "darwin" →
  fault (oracle w) (clock w) = Some e →
  Command_Run "open" ["-a"; "Docker"]
    (extend [Ev (CallContainerList false []) (Some e); starting_notice] w)
    = (Ret None, w2) →
  (∀ n, (clock w2 ≤ n)%nat → fault (oracle w2) n ≠ None) →
  (12 ≤ fuel)%nat →
  ensureDockerIsAvailable fuel w =
    (Ret unable_to_start,
     extend (retry_events (oracle w2) (clock w2) 11 ++ [giving_up_notice]) w2)
  ∧ pauses (retry_events (oracle w2) (clock w2) 11 ++ [giving_up_notice])
    = replicate 11 5%Z
  ∧ length (listings (retry_events (oracle w2) (clock w2) 11 ++ [giving_up_notice]))
    = 11%nat.
Proof.
  intros Hos Hf Hopen Hdown Hfuel. split; [|split].
  - unfold ensureDockerIsAvailable, bind. rewrite ContainerList_inv, Hf.
    rewrite bool_decide_true by done.
    unfold Printf, effect. rewrite log_extend, extend_extend.
    fold starting_notice. cbn [app]. rewrite Hopen.
    apply (ensureDockerIsAvailable_loop_gives_up 11); [done|lia|lia|lia].
  - unfold pauses. rewrite omap_app. fold (pauses (retry_events (oracle w2) (clock w2) 11)).
    rewrite retry_events_pauses. done.
  - unfold listings. rewrite omap_app, length_app.
    fold (listings (retry_events (oracle w2) (clock w2) 11)).
    by rewrite retry_events_listings.
Qed.

(** X14: on macOS, if the first listing fails, the launch of Docker returns
    without error, the listings of the first [k] retries fail and the
    listing of retry [k + 1] is answered, with [k < 11],
    [ensureDockerIsAvailable] returns [nil] after exactly [k + 1] pauses of
    five seconds, each followed by a listing. *)
Theorem ensureDockerIsAvailable_recovers (fuel k : nat) (w w2 : World) (e : string) :
  GOOS = "darwin" →
  fault (oracle w) (clock w) = Some e →
  Command_Run "open" ["-a"; "Docker"]
    (extend [Ev (CallContainerList false []) (Some e); starting_notice] w)
    = (Ret None, w2) →
  (k < 11)%nat →
  (∀ i, (i < k)%nat → fault (oracle w2) (clock w2 + 2 * i + 1) ≠ None) →
  fault (oracle w2) (clock w2 + 2 * k + 1) = None →
  (k < fuel)%nat →
  ensureDockerIsAvailable fuel w =
    (Ret None, extend (retry_events (oracle w2) (clock w2) (S k)) w2)
  ∧ pauses (retry_events (oracle w2) (clock w2) (S k)) = replicate (S k) 5%Z.
Proof.
  intros Hos Hf Hopen Hk Hdown Hup Hfuel. split; [|apply retry_events_pauses].
  unfold ensureDockerIsAvailable, bind. rewrite ContainerList_inv, Hf.
  rewrite bool_decide_true by done.
  unfold Printf, effect. rewrite log_extend, extend_extend.
  fold starting_notice. cbn [app]. rewrite Hopen.
  apply ensureDockerIsAvailable_loop_recovers; [lia|lia|lia|done|done].
Qed.

(** X15: on macOS, if the first listing fails and the launch of Docker fails
    too, [ensureDockerIsAvailable] returns the fixed error
    [unable to start Docker for Mac] (neither the error of the listing nor
    that of the launch) at once: no pause, no further listing. *)
Theorem ensureDockerIsAvailable_cannot_launch (fuel : nat) (w w2 : World)
    (e e' : string) :
  GOOS = "darwin" →
  fault (oracle w) (clock w) = Some e →
  Command_Run "open" ["-a"; "Docker"]
    (extend [Ev (CallContainerList false []) (Some e); starting_notice] w)
    = (Ret (Some e'), w2) →
  ensureDockerIsAvailable fuel w = (Ret unable_to_start, w2).
Proof.
  intros Hos Hf Hopen.
  unfold ensureDockerIsAvailable, bind. rewrite ContainerList_inv, Hf.
  rewrite bool_decide_true by done.
  unfold Printf, effect. rewrite log_extend, extend_extend.
  fold starting_notice. cbn [app]. by rewrite Hopen.
Qed.

End availability_proofs.

(** ** Stopping a site *)

(** Removing another container does not change what a name resolves to. *)
Lemma find_running_without name id id' d :
  find_running name (listed false [] d) = (id, true) →
  id' ≠ id →
  find_running name (listed false [] (without id' d)) = (id, true).
Proof.
  rewrite !listed_running. unfold without. cbn [containers with_containers].
  intros Hfind Hne. induction (containers d) as [|c cs IH]; [done|].
  cbn [List.filter] in *.
  destruct (Running c) eqn:Hr; cbn [find_running] in Hfind.
  - destruct (named name c) eqn:Hn.
    + injection Hfind as Hid. unfold has_id.
      rewrite bool_decide_false by congruence. cbn [negb List.filter].
      rewrite Hr. cbn [find_running]. by rewrite Hn, Hid.
    + destruct (has_id id' c); cbn [negb List.filter]; [by apply IH|].
      rewrite Hr. cbn [find_running]. rewrite Hn. by apply IH.
  - destruct (has_id id' c); cbn [negb List.filter]; [by apply IH|].
    rewrite Hr. by apply IH.
Qed.

Lemma named_only_without_other name id id' d :
  named_only name id d → named_only name id (without id' d).
Proof.
  intros Hd c Hc. cbn [without containers with_containers] in Hc.
  apply list_elem_of_In, filter_In in Hc as [Hc%list_elem_of_In _]. by apply Hd.
Qed.

Lemma containers_named_without name id d :
  containers_named name d = [] → containers_named name (without id d) = [].
Proof.
  intros Hnone. apply filter_none. intros c Hc.
  cbn [without containers with_containers] in Hc.
  apply list_elem_of_In, filter_In in Hc as [Hc%list_elem_of_In _].
  by apply (filter_none_inv _ _ Hnone).
Qed.

Section stop_proofs.
Context `{site.Libraries} `{site.Traefik}.

Lemma Sprintf_database_container (s : site.Site) :
  fmt.Sprintf "kana_%s_database" [site.SiteName (site.Static s)]
  = database_container s.
Proof. done. Qed.

(** X16: with a daemon that answers and is well formed, if the database
    container and the application container of the site both run, under
    different identifiers, [StopWordPress] stops and removes the database
    container, then stops and removes the application container, and then
    asks the proxy to stop: its result is the proxy's.  No container
    answers to either name afterwards. *)
Theorem StopWordPress_removes_containers (s : site.Site) (w : World)
    (id1 id2 : string) :
  quiet w →
  well_formed (daemon w) →
  find_running (database_container s) (listed false [] (daemon w)) = (id1, true) →
  find_running (app_container s) (listed false [] (daemon w)) = (id2, true) →
  id1 ≠ id2 →
  site.StopWordPress s w =
    maybe_stop_traefik s
      (extend [list_running_event; Ev (CallContainerStop id1) None;
               Ev (CallContainerRemove id1) None;
               list_running_event; Ev (CallContainerStop id2) None;
               Ev (CallContainerRemove id2) None]
              (with_daemon (without id2 (without id1 (daemon w))) w))
  ∧ containers_named (database_container s) (without id2 (without id1 (daemon w))) = []
  ∧ containers_named (app_container s) (without id2 (without id1 (daemon w))) = [].
Proof.
  intros Hq Hwf Hdb Happ Hne. split; [|split].
  - unfold site.StopWordPress, site.GetSiteContainers.
    rewrite Sprintf_database_container, Sprintf_app_container.
    unfold bind at 1. cbn [site.stopContainers]. unfold bind at 1.
    rewrite (ContainerStop_running _ id1) by done.
    unfold bind at 1.
    rewrite (ContainerStop_running _ id2);
      [|apply Hq|cbn [daemon extend with_daemon]; by apply find_running_without].
    cbn [daemon extend with_daemon]. unfold ret.
    by rewrite !with_daemon_extend, !extend_extend, with_daemon_twice.
  - apply containers_named_without, named_only_without.
    by apply resolved_named_only.
  - apply named_only_without, named_only_without_other.
    by apply resolved_named_only.
Qed.

(** X17: if the database container runs and the daemon fails its stop request
    with [e], [StopWordPress] returns [e] after two calls, the listing and
    the failed stop: the application container is not looked at and the
    proxy is not asked. *)
Theorem StopWordPress_stops_at_first_failure (s : site.Site) (w : World)
    (id e : string) :
  find_running (database_container s) (listed false [] (daemon w)) = (id, true) →
  fault (oracle w) (clock w) = None →
  fault (oracle w) (S (clock w)) = Some e →
  site.StopWordPress s w =
    (Ret (Some e),
     extend [list_running_event; Ev (CallContainerStop id) (Some e)] w).
Proof.
  intros Hfind Hf0 Hf1.
  unfold site.StopWordPress, site.GetSiteContainers.
  rewrite Sprintf_database_container.
  unfold bind at 1. cbn [site.stopContainers]. unfold bind at 1.
  unfold docker.ContainerStop, bind.
  rewrite IsContainerRunning_answer by done. rewrite Hfind. cbn [negb].
  unfold client.ContainerStop. rewrite (extern_fault _ _ _ _ e).
  - by rewrite extend_extend.
  - rewrite clock_extend. cbn [oracle extend length]. by rewrite Nat.add_1_r.
Qed.

(** X18: if neither container of the site runs (for instance because both
    exist but are stopped), [StopWordPress] makes two listings, removes
    nothing and goes on to the proxy; the daemon is unchanged, so that
    [IsSiteRunning], which counts stopped containers too, answers
    afterwards (its listing being answered) as it would have before: [true]
    if a container of the site exists. *)
Theorem StopWordPress_leaves_stopped_containers (s : site.Site) (w : World) :
  is_running (database_container s) (daemon w) = false →
  is_running (app_container s) (daemon w) = false →
  site.StopWordPress s w =
    maybe_stop_traefik s
      (extend [Ev (CallContainerList false []) (fault (oracle w) (clock w));
               Ev (CallContainerList false []) (fault (oracle w) (S (clock w)))] w)
  ∧ (fault (oracle w) (S (S (clock w))) = None →
     (site.IsSiteRunning s
        (extend [Ev (CallContainerList false []) (fault (oracle w) (clock w));
                 Ev (CallContainerList false []) (fault (oracle w) (S (clock w)))] w)).1
     = Ret (site_label_present (site.SiteName (site.Static s)) (daemon w))).
Proof.
  intros Hdb Happ. split.
  - unfold site.StopWordPress, site.GetSiteContainers.
    rewrite Sprintf_database_container, Sprintf_app_container.
    unfold bind at 1. cbn [site.stopContainers]. unfold bind at 1.
    rewrite ContainerStop_not_running by done.
    unfold bind at 1. rewrite ContainerStop_not_running by done.
    unfold ret. rewrite extend_extend, clock_extend.
    cbn [oracle extend length app]. by rewrite Nat.add_1_r.
  - intros Hf. unfold site.IsSiteRunning, bind. rewrite ListContainers_spec.
    rewrite clock_extend. cbn [oracle extend length daemon fst].
    replace (clock w + 2)%nat with (S (S (clock w))) by lia. rewrite Hf.
    unfold ret. by rewrite listed_site, nonempty_filter_existsb.
Qed.

End stop_proofs.

(** ** Creating a container under a free name *)

Lemma unnamed_not_running name d :
  containers_named name d = [] → is_running name d = false.
Proof.
  intros Hnone. unfold is_running.
  apply not_true_iff_false. intros (c & Hc & Hrn)%existsb_exists.
  apply andb_true_iff in Hrn as [_ Hn].
  apply list_elem_of_In in Hc.
  by rewrite (filter_none_inv _ _ Hnone c Hc) in Hn.
Qed.

Lemma known_add_container (c : Container) d :
  known (ID c) (add_container c d) = true.
Proof.
  unfold known, add_container. cbn [containers with_containers].
  rewrite existsb_app. cbn [existsb]. unfold has_id at 2.
  rewrite bool_decide_true by done. by rewrite orb_true_r.
Qed.

Lemma without_added (c : Container) d :
  ID c = fresh (map ID (containers d)) →
  without (ID c) (add_container c d) = d.
Proof.
  intros Hid. unfold without, add_container, with_containers.
  cbn [containers networks execs].
  assert (Hf : List.filter (λ x, negb (has_id (ID c) x)) (containers d ++ [c])
               = containers d).
  { assert (Hnot : ∀ x, x ∈ containers d → has_id (ID c) x = false).
    { intros x Hx. rewrite Hid. by apply fresh_id_unknown. }
    clear Hid. induction (containers d) as [|x cs IH]; cbn [app List.filter].
    - unfold has_id. by rewrite bool_decide_true.
    - rewrite Hnot by left. cbn [negb]. f_equal. apply IH.
      intros y Hy. apply Hnot. by right. }
  rewrite Hf. by destruct d.
Qed.



Section creation_proofs.
Context `{GoConnections}.

Lemma getNetworkConfig_ok ports w :
  first_port_error ports = None →
  getNetworkConfig ports w = (Ret (port_config ports), w).
Proof.
  intros Hok. unfold getNetworkConfig. rewrite getNetworkConfig_from_spec.
  by rewrite Hok.
Qed.

Lemma create_free (config : ContainerConfig) (d : Daemon) :
  valid_name (Name config) = true →
  full_name (Name config) ∉ all_names d →
  create (create_request config (port_config (Ports config))) d
  = (ID (created config d), None, add_container (created config d) d).
Proof.
  intros Hvalid Hfree. unfold create. cbn [ReqName create_request].
  assert (Hne : Name config ≠ "") by (intros Heq; by rewrite Heq in Hvalid).
  rewrite bool_decide_false by done. rewrite Hvalid. cbn [negb].
  by rewrite bool_decide_false by done.
Qed.

(** [ContainerRun] of a specification whose name is valid and free, with a
    daemon that answers: the container is created and started. *)
Lemma ContainerRun_creates (config : ContainerConfig) (w : World) :
  quiet w →
  well_formed (daemon w) →
  first_port_error (Ports config) = None →
  valid_name (Name config) = true →
  full_name (Name config) ∉ all_names (daemon w) →
  ContainerRun config w =
    (Ret (ID (created config (daemon w)), None),
     extend (run_events config (daemon w))
            (with_daemon (set_running (ID (created config (daemon w))) true
                            (add_container (created config (daemon w)) (daemon w)))
                         w)).
Proof.
  intros Hq Hwf Hports Hvalid Hfree. unfold ContainerRun, bind.
  rewrite IsContainerRunning_not_running
    by (by apply unnamed_not_running, free_name_unnamed).
  rewrite (Hq (clock w)).
  rewrite getNetworkConfig_ok by done.
  fold (create_request config (port_config (Ports config))).
  unfold ContainerCreate.
  erewrite extern_step; [|apply Hq|by apply create_free].
  rewrite with_daemon_extend, extend_extend.
  rewrite ContainerStart_known;
    [|apply Hq|cbn [daemon extend with_daemon]; apply known_add_container].
  by rewrite !with_daemon_extend, !extend_extend.
Qed.

Lemma ContainerWait_known id w :
  fault (oracle w) (clock w) = None →
  known id (daemon w) = true →
  client.ContainerWait id w =
  (Ret (exit_status (oracle w) id, None),
   extend [Ev (CallContainerWait id) None]
          (with_daemon (set_running id false (daemon w)) w)).
Proof.
  intros Hf Hk. apply extern_step; [done|]. unfold wait. by rewrite Hk.
Qed.

Lemma ContainerLogs_known id w :
  fault (oracle w) (clock w) = None →
  known id (daemon w) = true →
  ContainerLogs id w = (Ret (id, None), extend [Ev (CallContainerLogs id) None] w).
Proof.
  intros Hf Hk. unfold ContainerLogs.
  erewrite extern_step; [|done|unfold logs; by rewrite Hk].
  by rewrite with_daemon_same.
Qed.

Lemma ReadAll_answer id w :
  fault (oracle w) (clock w) = None →
  ReadAll id w = (Ret (output (oracle w) id, None), extend [Ev (CallReadAll id) None] w).
Proof.
  intros Hf. unfold ReadAll.
  erewrite extern_step; [|done|done]. by rewrite with_daemon_same.
Qed.

(** [ContainerRunAndClean] of such a specification: the exit status and the
    log text of the new container are returned, and the daemon is left as
    it was found. *)
Lemma ContainerRunAndClean_restores (config : ContainerConfig) (w : World) :
  quiet w →
  well_formed (daemon w) →
  first_port_error (Ports config) = None →
  valid_name (Name config) = true →
  full_name (Name config) ∉ all_names (daemon w) →
  ContainerRunAndClean config w =
    (Ret (exit_status (oracle w) (fresh (map ID (containers (daemon w)))),
          output (oracle w) (fresh (map ID (containers (daemon w)))), None),
     extend (one_shot_events config (daemon w)) w).
Proof.
  intros Hq Hwf Hports Hvalid Hfree. unfold ContainerRunAndClean, bind.
  rewrite ContainerRun_creates by done.
  set (c := created config (daemon w)).
  set (id := fresh (map ID (containers (daemon w)))).
  assert (Hid : ID c = id) by done. rewrite Hid.
  assert (Hk : ∀ b, known id (set_running id b (add_container c (daemon w))) = true).
  { intros b. rewrite known_set_running, <- Hid. apply known_add_container. }
  unfold docker.ContainerWait, bind.
  rewrite ContainerWait_known by (apply Hq || apply Hk).
  cbn [oracle extend with_daemon]. unfold ret. cbn beta iota.
  rewrite !with_daemon_extend, !extend_extend, with_daemon_twice.
  unfold ContainerLog, bind.
  rewrite ContainerLogs_known;
    [|apply Hq|cbn [daemon extend with_daemon]; by rewrite known_set_running, Hk].
  rewrite !extend_extend.
  rewrite ReadAll_answer by apply Hq.
  cbn [oracle extend with_daemon daemon].
  rewrite !extend_extend.
  rewrite bool_decide_false by (by intros ?). cbn [andb]. unfold ret.
  rewrite ContainerRemove_stopped.
  - cbn [daemon extend with_daemon].
    rewrite !without_set_running, <- Hid, without_added by done.
    rewrite !with_daemon_extend, !extend_extend, with_daemon_twice, with_daemon_same.
    done.
  - apply Hq.
  - cbn [daemon extend with_daemon]. by rewrite known_set_running, Hk.
  - cbn [daemon extend with_daemon]. apply not_running_after_stop.
Qed.

(** X19: with a daemon that answers and is well formed, for a specification
    whose ports parse and whose name is valid and free,
    [ContainerRunAndClean] returns the exit status and the log text of the
    container it created, and no error, after seven calls (listing,
    creation, start, wait, log request, read, removal), exactly one of them
    a creation request; the daemon is left exactly as it was found. *)
Theorem ContainerRunAndClean_restores_daemon (config : ContainerConfig) (w : World) :
  quiet w →
  well_formed (daemon w) →
  first_port_error (Ports config) = None →
  valid_name (Name config) = true →
  full_name (Name config) ∉ all_names (daemon w) →
  ContainerRunAndClean config w =
    (Ret (exit_status (oracle w) (fresh (map ID (containers (daemon w)))),
          output (oracle w) (fresh (map ID (containers (daemon w)))), None),
     extend (one_shot_events config (daemon w)) w)
  ∧ length (one_shot_events config (daemon w)) = 7%nat
  ∧ requests_created (one_shot_events config (daemon w))
    = [create_request config (port_config (Ports config))].
Proof.
  intros Hq Hwf Hports Hvalid Hfree. split; [|done].
  by apply ContainerRunAndClean_restores.
Qed.

End creation_proofs.

(** ** One-shot commands of a site *)

Lemma requests_created_app evs evs' :
  requests_created (evs ++ evs') = requests_created evs ++ requests_created evs'.
Proof. unfold requests_created. apply omap_app. Qed.

Lemma ensured_containers name d : containers (ensured name d) = containers d.
Proof. unfold ensured. by destruct (network_named name d). Qed.

Lemma ensured_names name d : all_names (ensured name d) = all_names d.
Proof. unfold all_names. by rewrite ensured_containers. Qed.

Lemma ensured_well_formed name d : well_formed d → well_formed (ensured name d).
Proof. unfold well_formed. by rewrite ensured_names. Qed.

Lemma ensure_events_no_request name d : requests_created (ensure_events name d) = [].
Proof. unfold ensure_events. by destruct (network_named name d). Qed.

Lemma EnsureNetwork_quiet name w :
  quiet w →
  ∃ created n,
    EnsureNetwork name w =
      (Ret (created, n, None),
       extend (ensure_events name (daemon w)) (with_daemon (ensured name (daemon w)) w)).
Proof.
  intros Hq. unfold ensure_events, ensured.
  destruct (network_named name (daemon w)) as [n|] eqn:Hfind.
  - exists false, n. rewrite with_daemon_same. by apply EnsureNetwork_found.
  - eexists true, _. by apply EnsureNetwork_created.
Qed.

Lemma Getwd_answer w :
  fault (oracle w) (clock w) = None →
  Getwd w = (Ret (cwd (oracle w), None), extend [Ev CallGetwd None] w).
Proof.
  intros Hf. unfold Getwd.
  erewrite extern_step; [|done|done]. by rewrite with_daemon_same.
Qed.

Lemma MkdirAll_answer path w :
  fault (oracle w) (clock w) = None →
  MkdirAll path w = (Ret (tt, None), extend [Ev (CallMkdirAll path) None] w).
Proof.
  intros Hf. unfold MkdirAll.
  erewrite extern_step; [|done|done]. by rewrite with_daemon_same.
Qed.

Lemma Stat_answer path w :
  fault (oracle w) (clock w) = None →
  Stat path w = (Ret (tt, None), extend [Ev (CallStat path) None] w).
Proof.
  intros Hf. unfold Stat.
  erewrite extern_step; [|done|done]. by rewrite with_daemon_same.
Qed.

Lemma Remove_answer path w :
  fault (oracle w) (clock w) = None →
  Remove path w = (Ret (tt, None), extend [Ev (CallRemove path) None] w).
Proof.
  intros Hf. unfold Remove.
  erewrite extern_step; [|done|done]. by rewrite with_daemon_same.
Qed.

(** Names built from a site's name. *)
Lemma all_chars_app p s t :
  all_chars p (s +:+ t) = all_chars p s && all_chars p t.
Proof.
  induction s as [|c s IH]; [done|].
  change (String c s +:+ t) with (String c (s +:+ t)). cbn [all_chars].
  by rewrite IH, andb_assoc.
Qed.

Lemma valid_container_name name suffix :
  all_chars is_name_char name = true →
  all_chars is_name_char suffix = true →
  valid_name ("kana_" +:+ name +:+ suffix) = true.
Proof.
  intros Hname Hsuffix.
  change (valid_name ("kana_" +:+ name +:+ suffix))
    with (all_chars is_name_char ("na_" +:+ name +:+ suffix)).
  change ("na_" +:+ name +:+ suffix) with ("na_" +:+ (name +:+ suffix)).
  by rewrite !all_chars_app, Hname, Hsuffix.
Qed.

Lemma TrimRight_app s t cutset :
  t ≠ "" → gostrings.TrimRight t cutset = t →
  gostrings.TrimRight (s +:+ t) cutset = s +:+ t.
Proof.
  intros Hne Ht. induction s as [|c s IH]; [done|].
  change (String c s +:+ t) with (String c (s +:+ t)).
  cbn [gostrings.TrimRight]. rewrite IH.
  assert (Hst : s +:+ t ≠ "") by (by destruct s).
  by destruct (s +:+ t).
Qed.

Lemma plain_container_name name suffix :
  suffix ≠ "" → gostrings.TrimRight suffix "/" = suffix →
  gostrings.Trim ("kana_" +:+ name +:+ suffix) "/" = "kana_" +:+ name +:+ suffix.
Proof.
  intros Hne Hs. unfold gostrings.Trim.
  change (gostrings.TrimLeft ("kana_" +:+ name +:+ suffix) "/")
    with ("kana_" +:+ (name +:+ suffix)).
  rewrite (TrimRight_app "kana_" (name +:+ suffix)); [done| |].
  - destruct name; [done|discriminate].
  - by apply TrimRight_app.
Qed.

Lemma create_conflict (config : ContainerConfig) (ports : portConfig) d :
  valid_name (Name config) = true →
  full_name (Name config) ∈ all_names d →
  create (create_request config ports) d
  = ("", Some "Conflict. The container name is already in use", d).
Proof.
  intros Hvalid Htaken. unfold create. cbn [ReqName create_request].
  assert (Hne : Name config ≠ "") by (intros Heq; by rewrite Heq in Hvalid).
  rewrite bool_decide_false by done. rewrite Hvalid. cbn [negb].
  by rewrite bool_decide_true by done.
Qed.

Section cli_proofs.
Context `{GoConnections} `{ImageStore} `{site.Libraries} `{!site.SiteMethods}.

Lemma getLocalAppDir_quiet w :
  quiet w →
  site.getLocalAppDir w =
  (Ret (site.path_Join [cwd (oracle w); "wordpress"], None),
   extend [Ev CallGetwd None;
           Ev (CallMkdirAll (site.path_Join [cwd (oracle w); "wordpress"])) None] w).
Proof.
  intros Hq. unfold site.getLocalAppDir, bind.
  rewrite Getwd_answer by apply Hq. cbn [oracle extend].
  rewrite MkdirAll_answer by apply Hq. by rewrite extend_extend.
Qed.

Lemma getMounts_quiet (s : site.Site) appDir siteType w :
  quiet w →
  site.getMounts s appDir siteType w =
    (Ret (site_mounts s appDir siteType (cwd (oracle w)), None),
     extend [Ev CallGetwd None] w).
Proof.
  intros Hq. unfold site.getMounts, bind.
  rewrite Getwd_answer by apply Hq. unfold ret, site_mounts.
  destruct (decide (siteType = "plugin")) as [->|Hp].
  - rewrite (bool_decide_true ("plugin" = "plugin")) by done.
    by rewrite (bool_decide_false ("plugin" = "theme")) by done.
  - rewrite (bool_decide_false (siteType = "plugin")) by done.
    by destruct (bool_decide (siteType = "theme")).
Qed.

Lemma Sprintf_cli_container (s : site.Site) :
  fmt.Sprintf "kana_%s_wordpress_cli" [site.SiteName (site.Static s)]
  = cli_container s.
Proof. done. Qed.

Lemma one_shot_events_request (config : ContainerConfig) d :
  requests_created (one_shot_events config d)
  = [create_request config (port_config (Ports config))].
Proof. done. Qed.

(** [ContainerRun] of a specification whose name is held by a container
    that does not run: the daemon refuses the creation. *)
Lemma ContainerRun_conflict (config : ContainerConfig) (w : World) :
  quiet w →
  first_port_error (Ports config) = None →
  valid_name (Name config) = true →
  is_running (Name config) (daemon w) = false →
  full_name (Name config) ∈ all_names (daemon w) →
  ContainerRun config w =
    (Ret ("", Some "Conflict. The container name is already in use"),
     extend [list_running_event;
             Ev (CallContainerCreate
                   (create_request config (port_config (Ports config))))
                (Some "Conflict. The container name is already in use")] w).
Proof.
  intros Hq Hports Hvalid Hnot Htaken. unfold ContainerRun, bind.
  rewrite IsContainerRunning_not_running by done.
  rewrite (Hq (clock w)).
  rewrite getNetworkConfig_ok by done.
  fold (create_request config (port_config (Ports config))).
  unfold ContainerCreate.
  erewrite extern_step; [|apply Hq|by apply create_conflict].
  cbn beta iota. unfold ret. cbn [daemon extend].
  by rewrite !with_daemon_extend, !extend_extend, with_daemon_same.
Qed.

(** What [RunWPCli] does before it runs its container, with a daemon and an
    operating system that answer: it ensures the network, asks for the
    running configuration and computes the mounts from it. *)
Lemma RunWPCli_prepares (s : site.Site) (command : list string) (w : World) :
  quiet w →
  returns_quietly (site.GetRunningConfig s) (λ _, True) →
  (∀ image, returns_quietly (EnsureImage image) (λ err, err = None)) →
  ∃ cfg evs,
    (site.GetRunningConfig s (network_ensured "kana" w)).1 = Ret cfg
    ∧ site.RunWPCli s command w =
      (let* (_, output, err) :=
         ContainerRunAndClean
           (site.wpCliContainer s (["wp"; "--path=/var/www/html"] ++ command)
                                (cli_mounts s cfg (cwd (oracle w)))) in
       match err with
       | Some _ => ret ("", err)
       | None => ret (output, None)
       end)
        (extend evs (with_daemon (ensured "kana" (daemon w)) w))
    ∧ requests_created evs = [].
Proof.
  intros Hq Hcfg Himg. unfold site.RunWPCli. unfold bind at 1.
  destruct (EnsureNetwork_quiet "kana" w Hq) as (created & n & ->).
  cbn beta iota. unfold bind at 1.
  assert (Hq' : ∀ evs d, quiet (extend evs (with_daemon d w)))
    by (intros evs d k; apply Hq).
  destruct (Hcfg (network_ensured "kana" w) (Hq' _ _))
    as (cfg & evs2 & Hrun & _ & Hr2).
  pose proof Hrun as Hret. unfold network_ensured in Hrun. rewrite Hrun.
  cbn beta iota. rewrite extend_extend.
  set (appDir := site.path_Join _).
  assert (Hdir : ∃ evs3,
    (if site.Local cfg then site.getLocalAppDir else ret (appDir, None))
      (extend (ensure_events "kana" (daemon w) ++ evs2)
              (with_daemon (ensured "kana" (daemon w)) w))
    = (Ret (if site.Local cfg then site.path_Join [cwd (oracle w); "wordpress"]
            else appDir, None),
       extend evs3 (extend (ensure_events "kana" (daemon w) ++ evs2)
                           (with_daemon (ensured "kana" (daemon w)) w)))
    ∧ requests_created evs3 = []).
  { destruct (site.Local cfg).
    - eexists. split; [rewrite getLocalAppDir_quiet by apply Hq'; reflexivity|done].
    - exists []. by rewrite extend_nil. }
  destruct Hdir as (evs3 & Hdir & Hr3).
  unfold bind at 1. rewrite Hdir. cbn beta iota.
  rewrite extend_extend. unfold bind at 1.
  rewrite getMounts_quiet by apply Hq'.
  cbn beta iota. rewrite extend_extend. unfold bind at 1.
  match goal with |- context [EnsureImage ?img ?w0] =>
    destruct (Himg img w0 (Hq' _ _)) as (err & evs5 & -> & -> & Hr5) end.
  cbn beta iota. rewrite extend_extend.
  exists cfg. eexists. split; [by rewrite Hret|]. split; [done|].
  by rewrite !requests_created_app, ensure_events_no_request, Hr2, Hr3, Hr5.
Qed.

(** [RunWPCli] with a daemon that answers, when no container has the name
    of the site's command-line container. *)
Lemma RunWPCli_runs (s : site.Site) (command : list string) (w : World) :
  quiet w →
  well_formed (daemon w) →
  all_chars is_name_char (site.SiteName (site.Static s)) = true →
  ("/" +:+ cli_container s) ∉ all_names (daemon w) →
  returns_quietly (site.GetRunningConfig s) (λ _, True) →
  (∀ image, returns_quietly (EnsureImage image) (λ err, err = None)) →
  ∃ cfg evs,
    (site.GetRunningConfig s (network_ensured "kana" w)).1 = Ret cfg
    ∧ site.RunWPCli s command w =
      (Ret (output (oracle w) (fresh (map ID (containers (daemon w)))), None),
       extend evs (with_daemon (ensured "kana" (daemon w)) w))
    ∧ requests_created evs =
        [create_request
           (site.wpCliContainer s (["wp"; "--path=/var/www/html"] ++ command)
                                (cli_mounts s cfg (cwd (oracle w))))
           (port_config [])].
Proof.
  intros Hq Hwf Hchars Hfree Hcfg Himg.
  destruct (RunWPCli_prepares s command w Hq Hcfg Himg)
    as (cfg & evs0 & HP & -> & Hr0).
  set (config := site.wpCliContainer s _ _).
  assert (Hname : docker.Name config = cli_container s) by done.
  unfold bind. rewrite (ContainerRunAndClean_restores config).
  - cbn [daemon oracle extend with_daemon]. unfold ret.
    rewrite ensured_containers, extend_extend.
    exists cfg. eexists. split; [done|]. split; [done|].
    rewrite !requests_created_app, Hr0. by rewrite one_shot_events_request.
  - intros k. apply Hq.
  - cbn [daemon extend with_daemon]. by apply ensured_well_formed.
  - done.
  - rewrite Hname. by apply valid_container_name.
  - rewrite Hname. cbn [daemon extend with_daemon]. rewrite ensured_names.
    rewrite full_name_plain by (by apply plain_container_name). done.
Qed.

(** X20: with a daemon and an operating system that answer, a well-formed
    daemon, a site name made of the characters of a container name and no
    container under the name of the site's command-line container; of
    [GetRunningConfig] and [EnsureImage], whose code is elsewhere, it is
    only assumed that, whenever no call fails, they return ([EnsureImage]
    without error), leave the daemon as it is and ask for no container.
    Then [RunWPCli] returns the log text of the container it creates and no
    error; it asks for one container only, that of [wpCliContainer] with
    the command behind [wp --path=/var/www/html] and with the mounts
    [getMounts] computes for the configuration [GetRunningConfig] returned
    (the application directory at the document root and, for a plugin or a
    theme, the working directory under the site's name); the daemon holds
    the same containers afterwards as before. *)
Theorem RunWPCli_one_shot (s : site.Site) (command : list string) (w : World) :
  quiet w →
  well_formed (daemon w) →
  all_chars is_name_char (site.SiteName (site.Static s)) = true →
  ("/" +:+ cli_container s) ∉ all_names (daemon w) →
  returns_quietly (site.GetRunningConfig s) (λ _, True) →
  (∀ image, returns_quietly (EnsureImage image) (λ err, err = None)) →
  ∃ cfg evs d',
    (site.GetRunningConfig s (network_ensured "kana" w)).1 = Ret cfg
    ∧ site.RunWPCli s command w =
      (Ret (output (oracle w) (fresh (map ID (containers (daemon w)))), None),
       extend evs (with_daemon d' w))
    ∧ containers d' = containers (daemon w)
    ∧ requests_created evs =
        [create_request
           (site.wpCliContainer s (["wp"; "--path=/var/www/html"] ++ command)
                                (cli_mounts s cfg (cwd (oracle w))))
           (port_config [])].
Proof.
  intros Hq Hwf Hchars Hfree Hcfg Himg.
  destruct (RunWPCli_runs s command w) as (cfg & evs & HP & Hrun & Hreq);
    try done.
  exists cfg, evs, (ensured "kana" (daemon w)).
  split; [done|]. split; [done|]. split; [apply ensured_containers|done].
Qed.

(** [RunWPCli] when the name of the command-line container is held by a
    container that does not run. *)
Lemma RunWPCli_conflict (s : site.Site) (command : list string) (w : World) :
  quiet w →
  all_chars is_name_char (site.SiteName (site.Static s)) = true →
  ("/" +:+ cli_container s) ∈ all_names (daemon w) →
  is_running (cli_container s) (daemon w) = false →
  returns_quietly (site.GetRunningConfig s) (λ _, True) →
  (∀ image, returns_quietly (EnsureImage image) (λ err, err = None)) →
  ∃ evs d',
    site.RunWPCli s command w =
      (Ret ("", Some "Conflict. The container name is already in use"),
       extend evs (with_daemon d' w))
    ∧ containers d' = containers (daemon w)
    ∧ map ReqName (requests_created evs) = [cli_container s]
    ∧ map Cmd (requests_created evs) = [["wp"; "--path=/var/www/html"] ++ command].
Proof.
  intros Hq Hchars Htaken Hnot Hcfg Himg.
  destruct (RunWPCli_prepares s command w Hq Hcfg Himg)
    as (cfg & evs0 & _ & -> & Hr0).
  set (config := site.wpCliContainer s _ _).
  assert (Hname : docker.Name config = cli_container s) by done.
  unfold bind, ContainerRunAndClean, bind.
  rewrite (ContainerRun_conflict config).
  - cbn beta iota. unfold ret. rewrite extend_extend.
    eexists _, _. split; [done|]. split; [apply ensured_containers|].
    rewrite !requests_created_app, Hr0. done.
  - intros k. apply Hq.
  - done.
  - rewrite Hname. by apply valid_container_name.
  - rewrite Hname. unfold is_running. cbn [daemon extend with_daemon].
    by rewrite ensured_containers.
  - rewrite Hname. cbn [daemon extend with_daemon]. rewrite ensured_names.
    rewrite full_name_plain by (by apply plain_container_name). done.
Qed.

Section plugins_proofs.
Context `{!site.StringSlices}.

Lemma installPlugins_runs (s : site.Site) (plugins : list string) :
  all_chars is_name_char (site.SiteName (site.Static s)) = true →
  returns_quietly (site.GetRunningConfig s) (λ _, True) →
  (∀ image, returns_quietly (EnsureImage image) (λ err, err = None)) →
  ∀ w,
    quiet w →
    well_formed (daemon w) →
    ("/" +:+ cli_container s) ∉ all_names (daemon w) →
    ∃ evs d',
      site.installPlugins s plugins w = (Ret None, extend evs (with_daemon d' w))
      ∧ containers d' = containers (daemon w)
      ∧ map Cmd (requests_created evs) =
          map (λ plugin, ["wp"; "--path=/var/www/html"; "plugin"; "install";
                          "--activate"; plugin]) plugins.
Proof.
  intros Hchars Hcfg Himg.
  induction plugins as [|plugin rest IH]; intros w Hq Hwf Hfree.
  - exists [], (daemon w). by rewrite extend_nil, with_daemon_same.
  - cbn [site.installPlugins]. unfold bind.
    destruct (RunWPCli_runs s ["plugin"; "install"; "--activate"; plugin] w)
      as (cfg & evs & _ & -> & Hreq); try done.
    cbn beta iota.
    edestruct (IH (extend evs (with_daemon (ensured "kana" (daemon w)) w)))
      as (evs' & d' & -> & Hcs & Hreqs).
    + intros k. apply Hq.
    + cbn [daemon extend with_daemon]. by apply ensured_well_formed.
    + cbn [daemon extend with_daemon]. by rewrite ensured_names.
    + exists (evs ++ evs'), d'. split; [|split].
      * by rewrite with_daemon_extend, extend_extend, with_daemon_twice.
      * rewrite Hcs. cbn [daemon extend with_daemon]. apply ensured_containers.
      * rewrite requests_created_app, map_app, Hreq, Hreqs. done.
Qed.

(** X21: with a daemon and an operating system that answer, a well-formed
    daemon, a site name made of the characters of a container name and no
    container under the name of the site's command-line container; of
    [GetRunningConfig] and [EnsureImage], whose code is elsewhere, it is
    only assumed that, whenever no call fails, they return ([EnsureImage]
    without error), leave the daemon as it is and ask for no container.
    Then [InstallDefaultPlugins] returns [nil] and asks for one container
    per configured plugin, in the order of the configuration, each with the
    command [wp --path=/var/www/html plugin install --activate <plugin>];
    the daemon holds the same containers afterwards as before. *)
Theorem InstallDefaultPlugins_in_order (s : site.Site) (w : World) :
  quiet w →
  well_formed (daemon w) →
  all_chars is_name_char (site.SiteName (site.Static s)) = true →
  ("/" +:+ cli_container s) ∉ all_names (daemon w) →
  returns_quietly (site.GetRunningConfig s) (λ _, True) →
  (∀ image, returns_quietly (EnsureImage image) (λ err, err = None)) →
  ∃ evs d',
    site.InstallDefaultPlugins s w = (Ret None, extend evs (with_daemon d' w))
    ∧ containers d' = containers (daemon w)
    ∧ map Cmd (requests_created evs) =
        map (λ plugin, ["wp"; "--path=/var/www/html"; "plugin"; "install";
                        "--activate"; plugin])
            (site.GetStringSlice (site.SiteConfig s) "plugins").
Proof.
  intros Hq Hwf Hchars Hfree Hcfg Himg. unfold site.InstallDefaultPlugins.
  by apply (installPlugins_runs s).
Qed.

(** X22: with a daemon and an operating system that answer and a site name made
    of the characters of a container name; of [GetRunningConfig] and
    [EnsureImage], whose code is elsewhere, it is only assumed that,
    whenever no call fails, they return ([EnsureImage] without error),
    leave the daemon as it is and ask for no container.  If a container
    exists under the name of the site's command-line container but does
    not run (one left behind by an earlier command), [RunWPCli] returns the
    empty output and the daemon's name-conflict error: its one creation
    request is refused and the daemon holds the same containers afterwards
    as before.  In the same situation [InstallDefaultPlugins], with at
    least one plugin configured, fails with that error at the first plugin
    and asks for no other. *)
Theorem wp_cli_blocked_by_leftover_container (s : site.Site)
    (command : list string) (w : World) :
  quiet w →
  all_chars is_name_char (site.SiteName (site.Static s)) = true →
  ("/" +:+ cli_container s) ∈ all_names (daemon w) →
  is_running (cli_container s) (daemon w) = false →
  returns_quietly (site.GetRunningConfig s) (λ _, True) →
  (∀ image, returns_quietly (EnsureImage image) (λ err, err = None)) →
  (∃ evs d',
     site.RunWPCli s command w =
       (Ret ("", Some "Conflict. The container name is already in use"),
        extend evs (with_daemon d' w))
     ∧ containers d' = containers (daemon w)
     ∧ map ReqName (requests_created evs) = [cli_container s])
  ∧ (∀ plugin rest,
       site.GetStringSlice (site.SiteConfig s) "plugins" = plugin :: rest →
       ∃ evs d',
         site.InstallDefaultPlugins s w =
           (Ret (Some "Conflict. The container name is already in use"),
            extend evs (with_daemon d' w))
         ∧ containers d' = containers (daemon w)
         ∧ map Cmd (requests_created evs) =
             [["wp"; "--path=/var/www/html"; "plugin"; "install"; "--activate";
               plugin]]).
Proof.
  intros Hq Hchars Htaken Hnot Hcfg Himg. split.
  - destruct (RunWPCli_conflict s command w)
      as (evs & d' & Hrun & Hcs & Hnames & _); try done.
    by exists evs, d'.
  - intros plugin rest Hplugins. unfold site.InstallDefaultPlugins.
    rewrite Hplugins. cbn [site.installPlugins]. unfold bind.
    destruct (RunWPCli_conflict s ["plugin"; "install"; "--activate"; plugin] w)
      as (evs & d' & -> & Hcs & _ & Hcmd); try done.
    cbn beta iota. by exists evs, d'.
Qed.

End plugins_proofs.

(** X23: with a daemon and an operating system that answer, a well-formed
    daemon, a site name made of the characters of a container name and no
    container under the name of the site's command-line container; of
    [GetRunningConfig] and [EnsureImage], whose code is elsewhere, it is
    only assumed that, whenever no call fails, they return ([EnsureImage]
    without error), leave the daemon as it is and ask for no container.
    Then [InstallWordPress] returns [nil] and asks for one container, whose
    command is [wp --path=/var/www/html core install] with the site's
    secure URL as [--url], the title built from the site's type and name,
    and the administrator's name, password and address of the dynamic
    configuration; the daemon holds the same containers afterwards as
    before. *)
Theorem InstallWordPress_command (s : site.Site) (w : World) :
  quiet w →
  well_formed (daemon w) →
  all_chars is_name_char (site.SiteName (site.Static s)) = true →
  ("/" +:+ cli_container s) ∉ all_names (daemon w) →
  returns_quietly (site.GetRunningConfig s) (λ _, True) →
  (∀ image, returns_quietly (EnsureImage image) (λ err, err = None)) →
  ∃ evs d',
    site.InstallWordPress s w = (Ret None, extend evs (with_daemon d' w))
    ∧ containers d' = containers (daemon w)
    ∧ map Cmd (requests_created evs) =
        [["wp"; "--path=/var/www/html"; "core"; "install";
          "--url=" +:+ site.secureURL s;
          "--title=Kana Development " +:+ site.GetString (site.SiteConfig s) "type"
            +:+ ": " +:+ site.SiteName (site.Static s);
          "--admin_user=" +:+ site.GetString (site.DynamicConfig s) "admin.username";
          "--admin_password=" +:+ site.GetString (site.DynamicConfig s) "admin.password";
          "--admin_email=" +:+ site.GetString (site.DynamicConfig s) "admin.email"]].
Proof.
  intros Hq Hwf Hchars Hfree Hcfg Himg.
  unfold site.InstallWordPress. unfold bind at 1, Printf, effect.
  rewrite log_extend. unfold bind.
  match goal with |- context [site.RunWPCli s ?cmd ?w0] =>
    destruct (RunWPCli_runs s cmd w0)
      as (cfg & evs & _ & -> & Hreq);
      [intros k; apply Hq|done|done|done|done|done|]
  end.
  cbn beta iota. unfold ret.
  eexists _, _. split; [by rewrite with_daemon_extend, extend_extend|].
  split; [cbn [daemon extend with_daemon]; apply ensured_containers|].
  rewrite requests_created_app, Hreq.
  cbn [requests_created omap app map Cmd create_request site.wpCliContainer
       docker.Command].
  cbn [site.GetURL].
  change (fmt.Sprintf "--url=%s" [site.secureURL s])
    with ("--url=" +:+ (site.secureURL s +:+ "")).
  change (fmt.Sprintf "--title=Kana Development %s: %s"
            [site.GetString (site.SiteConfig s) "type"; site.SiteName (site.Static s)])
    with ("--title=Kana Development " +:+ site.GetString (site.SiteConfig s) "type"
          +:+ ": " +:+ (site.SiteName (site.Static s) +:+ "")).
  change (fmt.Sprintf "--admin_user=%s"
            [site.GetString (site.DynamicConfig s) "admin.username"])
    with ("--admin_user="
          +:+ (site.GetString (site.DynamicConfig s) "admin.username" +:+ "")).
  change (fmt.Sprintf "--admin_password=%s"
            [site.GetString (site.DynamicConfig s) "admin.password"])
    with ("--admin_password="
          +:+ (site.GetString (site.DynamicConfig s) "admin.password" +:+ "")).
  change (fmt.Sprintf "--admin_email=%s"
            [site.GetString (site.DynamicConfig s) "admin.email"])
    with ("--admin_email="
          +:+ (site.GetString (site.DynamicConfig s) "admin.email" +:+ "")).
  by rewrite !append_empty_r.
Qed.

End cli_proofs.

(** ** Starting a site *)

Lemma all_names_add_container (c : Container) d :
  all_names (add_container c d) = all_names d ++ Names c.
Proof.
  unfold all_names, add_container. cbn [containers with_containers].
  rewrite map_app, concat_app. cbn [map concat]. by rewrite app_nil_r.
Qed.

Lemma set_running_added (c : Container) b d :
  ID c = fresh (map ID (containers d)) →
  set_running (ID c) b (add_container c d) = add_container (with_Running b c) d.
Proof.
  intros Hid. unfold set_running, add_container, with_containers.
  cbn [containers networks execs]. f_equal.
  rewrite map_app. cbn [map]. unfold has_id at 2.
  rewrite bool_decide_true by done. f_equal.
  assert (Hnot : ∀ x, x ∈ containers d → has_id (ID c) x = false).
  { intros x Hx. rewrite Hid. by apply fresh_id_unknown. }
  clear Hid. induction (containers d) as [|x cs IH]; [done|]. cbn [map].
  rewrite Hnot by left. f_equal. apply IH. intros y Hy. apply Hnot. by right.
Qed.


Lemma listed_ensured name d : listed false [] (ensured name d) = listed false [] d.
Proof. unfold listed. by rewrite ensured_containers. Qed.

Lemma site_label_found name (c : Container) d :
  c ∈ containers d →
  client.Labels c !! "kana.site" = Some name →
  site_label_present name d = true.
Proof.
  intros Hc Hl. unfold site_label_present. apply existsb_exists.
  exists c. split; [by apply list_elem_of_In|].
  destruct (bool_decide (name = "")).
  - unfold carries_any_site. by rewrite bool_decide_true by (by rewrite Hl).
  - unfold carries_site. by rewrite bool_decide_true.
Qed.

Section start_proofs.
Context `{GoConnections} `{ImageStore} `{site.Libraries} `{!site.SiteMethods}.

(** What [StartWordPress] does before it runs the containers, with a daemon
    and an operating system that answer: it ensures the network and the
    directories and computes the mounts. *)
Lemma StartWordPress_prepares (s : site.Site) (w : World) :
  quiet w →
  returns_quietly (site.IsLocalSite s) (λ _, True) →
  ∃ b evs,
    (site.IsLocalSite s (network_ensured "kana" w)).1 = Ret b
    ∧ site.StartWordPress s w =
      site.runContainers
        (site.wordPressContainers s (start_mounts s b (cwd (oracle w)))
           (site.path_Join [site.SiteDirectory (site.Static s); "database"]))
        (extend evs (with_daemon (ensured "kana" (daemon w)) w))
    ∧ requests_created evs = [].
Proof.
  intros Hq Hlocal. unfold site.StartWordPress, bind.
  destruct (EnsureNetwork_quiet "kana" w Hq) as (created & n & ->).
  cbn beta iota.
  assert (Hq2 : ∀ evs d, quiet (extend evs (with_daemon d w)))
    by (intros evs d k; apply Hq).
  destruct (Hlocal (network_ensured "kana" w) (Hq2 _ _))
    as (b & evs2 & Hrun & _ & Hr2).
  pose proof Hrun as Hret. unfold network_ensured in Hrun. rewrite Hrun.
  cbn beta iota. rewrite extend_extend.
  exists b. destruct b.
  - rewrite getLocalAppDir_quiet by apply Hq2.
    cbn beta iota. rewrite Stat_answer by apply Hq2.
    cbn beta iota. rewrite Remove_answer by apply Hq2.
    unfold ret at 1. cbn beta iota.
    rewrite MkdirAll_answer by apply Hq2. cbn beta iota.
    rewrite MkdirAll_answer by apply Hq2. cbn beta iota.
    rewrite !extend_extend.
    rewrite getMounts_quiet by apply Hq2.
    cbn beta iota. rewrite !extend_extend.
    eexists. split; [by rewrite Hret|]. split; [done|].
    rewrite !requests_created_app, ensure_events_no_request, Hr2. done.
  - unfold ret at 1. cbn beta iota.
    rewrite MkdirAll_answer by apply Hq2. cbn beta iota.
    rewrite MkdirAll_answer by apply Hq2. cbn beta iota.
    rewrite !extend_extend.
    rewrite getMounts_quiet by apply Hq2.
    cbn beta iota. rewrite !extend_extend.
    eexists. split; [by rewrite Hret|]. split; [done|].
    rewrite !requests_created_app, ensure_events_no_request, Hr2. done.
Qed.

(** One turn of the loop of [StartWordPress] on a specification whose name
    is free, and on one whose container runs already. *)
Lemma runContainers_creates (c : ContainerConfig) (rest : list ContainerConfig)
    (w : World) :
  quiet w →
  well_formed (daemon w) →
  (∀ image, returns_quietly (EnsureImage image) (λ err, err = None)) →
  first_port_error (Ports c) = None →
  valid_name (docker.Name c) = true →
  full_name (docker.Name c) ∉ all_names (daemon w) →
  ∃ evs,
    site.runContainers (c :: rest) w =
      site.runContainers rest
        (extend (evs ++ run_events c (daemon w))
           (with_daemon (set_running (ID (created c (daemon w))) true
                           (add_container (created c (daemon w)) (daemon w))) w))
    ∧ requests_created evs = [].
Proof.
  intros Hq Hwf Himg Hports Hvalid Hfree. cbn [site.runContainers]. unfold bind.
  destruct (Himg (docker.Image c) w Hq) as (err & evs & -> & -> & Hr).
  cbn beta iota.
  rewrite ContainerRun_creates; [|intros k; apply Hq|done..].
  cbn [daemon extend with_daemon]. cbn beta iota.
  exists evs. split; [|done].
  by rewrite !with_daemon_extend, !extend_extend.
Qed.

Lemma runContainers_running (c : ContainerConfig) (rest : list ContainerConfig)
    (id : string) (w : World) :
  quiet w →
  (∀ image, returns_quietly (EnsureImage image) (λ err, err = None)) →
  find_running (docker.Name c) (listed false [] (daemon w)) = (id, true) →
  ∃ evs,
    site.runContainers (c :: rest) w =
      site.runContainers rest (extend (evs ++ [list_running_event]) w)
    ∧ requests_created evs = [].
Proof.
  intros Hq Himg Hfind. cbn [site.runContainers]. unfold bind.
  destruct (Himg (docker.Image c) w Hq) as (err & evs & -> & -> & Hr).
  cbn beta iota.
  unfold ContainerRun, bind.
  rewrite IsContainerRunning_answer by apply Hq.
  cbn [daemon extend]. rewrite Hfind. unfold ret. cbn beta iota.
  exists evs. split; [|done]. by rewrite !extend_extend.
Qed.

Lemma runContainers_conflict (c : ContainerConfig) (rest : list ContainerConfig)
    (w : World) :
  quiet w →
  (∀ image, returns_quietly (EnsureImage image) (λ err, err = None)) →
  first_port_error (Ports c) = None →
  valid_name (docker.Name c) = true →
  is_running (docker.Name c) (daemon w) = false →
  full_name (docker.Name c) ∈ all_names (daemon w) →
  ∃ evs,
    site.runContainers (c :: rest) w =
      (Ret (Some "Conflict. The container name is already in use"),
       extend (evs ++ [list_running_event;
                       Ev (CallContainerCreate
                             (create_request c (port_config (Ports c))))
                          (Some "Conflict. The container name is already in use")])
              w)
    ∧ requests_created evs = [].
Proof.
  intros Hq Himg Hports Hvalid Hnot Htaken. cbn [site.runContainers]. unfold bind.
  destruct (Himg (docker.Image c) w Hq) as (err & evs & -> & -> & Hr).
  cbn beta iota.
  unfold ContainerRun, bind.
  rewrite IsContainerRunning_not_running by done.
  assert (Hq' : quiet (extend evs w)) by (intros k; apply Hq).
  rewrite (Hq' (clock (extend evs w))).
  rewrite getNetworkConfig_ok by done.
  fold (create_request c (port_config (Ports c))).
  unfold ContainerCreate.
  erewrite extern_step; [|apply Hq|by apply create_conflict].
  cbn beta iota. unfold ret. cbn [daemon extend].
  exists evs. split; [|done].
  by rewrite !with_daemon_extend, !extend_extend, with_daemon_same.
Qed.

Lemma run_events_request (c : ContainerConfig) d :
  requests_created (run_events c d) = [create_request c (port_config (Ports c))].
Proof. done. Qed.



(** X25: with a daemon and an operating system that answer; of [IsLocalSite] and [EnsureImage], whose code is elsewhere, it is
    only assumed that, whenever no call fails, they return ([EnsureImage]
    without error), leave the daemon as it is and ask for no container.
    If the database container and the application container of the site
    both run, [StartWordPress] returns [nil] without asking for any
    container, and the daemon holds the same containers afterwards as
    before. *)
Theorem StartWordPress_already_running (s : site.Site) (w : World)
    (id1 id2 : string) :
  quiet w →
  find_running (database_container s) (listed false [] (daemon w)) = (id1, true) →
  find_running (app_container s) (listed false [] (daemon w)) = (id2, true) →
  returns_quietly (site.IsLocalSite s) (λ _, True) →
  (∀ image, returns_quietly (EnsureImage image) (λ err, err = None)) →
  ∃ evs d',
    site.StartWordPress s w = (Ret None, extend evs (with_daemon d' w))
    ∧ requests_created evs = []
    ∧ containers d' = containers (daemon w).
Proof.
  intros Hq Hdb Happ Hlocal Himg.
  destruct (StartWordPress_prepares s w Hq Hlocal)
    as (b & evs0 & _ & -> & Hr0).
  assert (Hq' : ∀ evs d, quiet (extend evs (with_daemon d w)))
    by (intros evs d k; apply Hq).
  unfold site.wordPressContainers. cbn zeta.
  match goal with |- context [site.runContainers [?c1; ?c2]] =>
    set (dbc := c1); set (appc := c2)
  end.
  destruct (runContainers_running dbc [appc] id1
              (extend evs0 (with_daemon (ensured "kana" (daemon w)) w)))
    as (evs1 & -> & Hr1); [apply Hq'|done| |].
  { cbn [daemon extend with_daemon]. by rewrite listed_ensured. }
  rewrite extend_extend.
  destruct (runContainers_running appc [] id2
              (extend (evs0 ++ evs1 ++ [list_running_event])
                      (with_daemon (ensured "kana" (daemon w)) w)))
    as (evs2 & -> & Hr2); [apply Hq'|done| |].
  { cbn [daemon extend with_daemon]. by rewrite listed_ensured. }
  cbn [site.runContainers]. unfold ret. rewrite extend_extend.
  eexists _, _. split; [done|]. split; [|apply ensured_containers].
  rewrite !requests_created_app, Hr0, Hr1, Hr2. done.
Qed.

(** X26: with a daemon and an operating system that answer and a site name made
    of the characters of a container name; of [IsLocalSite] and [EnsureImage], whose code is elsewhere, it is
    only assumed that, whenever no call fails, they return ([EnsureImage]
    without error), leave the daemon as it is and ask for no container.
    If a container exists under the name of the site's database container
    but does not run (it is stopped), [StartWordPress] fails with the
    daemon's name-conflict error: its one creation request, for the
    database container, is refused, the application container is not asked
    for, and the daemon holds the same containers afterwards as before. *)
Theorem StartWordPress_name_conflict (s : site.Site) (w : World) :
  quiet w →
  all_chars is_name_char (site.SiteName (site.Static s)) = true →
  ("/" +:+ database_container s) ∈ all_names (daemon w) →
  is_running (database_container s) (daemon w) = false →
  returns_quietly (site.IsLocalSite s) (λ _, True) →
  (∀ image, returns_quietly (EnsureImage image) (λ err, err = None)) →
  ∃ evs d',
    site.StartWordPress s w =
      (Ret (Some "Conflict. The container name is already in use"),
       extend evs (with_daemon d' w))
    ∧ containers d' = containers (daemon w)
    ∧ map ReqName (requests_created evs) = [database_container s].
Proof.
  intros Hq Hchars Htaken Hnot Hlocal Himg.
  destruct (StartWordPress_prepares s w Hq Hlocal)
    as (b & evs0 & _ & -> & Hr0).
  assert (Hq' : ∀ evs d, quiet (extend evs (with_daemon d w)))
    by (intros evs d k; apply Hq).
  unfold site.wordPressContainers. cbn zeta.
  match goal with |- context [site.runContainers [?c1; ?c2]] =>
    set (dbc := c1); set (appc := c2)
  end.
  assert (Hn1 : docker.Name dbc = database_container s) by done.
  destruct (runContainers_conflict dbc [appc]
              (extend evs0 (with_daemon (ensured "kana" (daemon w)) w)))
    as (evs1 & -> & Hr1);
    [apply Hq'|done|done|rewrite Hn1; by apply valid_container_name| | |].
  { rewrite Hn1. unfold is_running. cbn [daemon extend with_daemon].
    by rewrite ensured_containers. }
  { rewrite Hn1. cbn [daemon extend with_daemon]. by rewrite ensured_names. }
  rewrite extend_extend.
  eexists _, _. split; [done|]. split; [apply ensured_containers|].
  rewrite !requests_created_app, Hr0, Hr1. done.
Qed.

(** X27: with a daemon and an operating system that answer, a well-formed
    daemon and a site name made of the characters of a container name;
    of [IsLocalSite] and [EnsureImage], whose code is elsewhere, it is
    only assumed that, whenever no call fails, they return ([EnsureImage]
    without error), leave the daemon as it is and ask for no container.
    If the name of the database container is free and a container exists
    under the name of the application container but does not run,
    [StartWordPress] fails with the daemon's name-conflict error after two
    creation requests, the database and then the application, the second
    refused.  The database container it has just created (its identifier
    is new) is left running: nothing is rolled back, and [IsSiteRunning]
    answers [true] afterwards. *)
Theorem StartWordPress_no_rollback (s : site.Site) (w : World) :
  quiet w →
  well_formed (daemon w) →
  all_chars is_name_char (site.SiteName (site.Static s)) = true →
  ("/" +:+ database_container s) ∉ all_names (daemon w) →
  ("/" +:+ app_container s) ∈ all_names (daemon w) →
  is_running (app_container s) (daemon w) = false →
  returns_quietly (site.IsLocalSite s) (λ _, True) →
  (∀ image, returns_quietly (EnsureImage image) (λ err, err = None)) →
  ∃ evs d' id1,
    site.StartWordPress s w =
      (Ret (Some "Conflict. The container name is already in use"),
       extend evs (with_daemon d' w))
    ∧ map ReqName (requests_created evs) = [database_container s; app_container s]
    ∧ known id1 (daemon w) = false
    ∧ find_running (database_container s) (listed false [] d') = (id1, true)
    ∧ (site.IsSiteRunning s (extend evs (with_daemon d' w))).1 = Ret true.
Proof.
  intros Hq Hwf Hchars Hdb Happ Hnot Hlocal Himg.
  destruct (StartWordPress_prepares s w Hq Hlocal)
    as (b & evs0 & _ & -> & Hr0).
  set (d0 := ensured "kana" (daemon w)).
  set (dbdir := site.path_Join _).
  assert (Hq' : ∀ evs d, quiet (extend evs (with_daemon d w)))
    by (intros evs d k; apply Hq).
  assert (Hwf0 : well_formed d0) by (by apply ensured_well_formed).
  assert (Hnames0 : all_names d0 = all_names (daemon w)) by apply ensured_names.
  assert (Hcs0 : containers d0 = containers (daemon w)) by apply ensured_containers.
  unfold site.wordPressContainers. cbn zeta.
  match goal with |- context [site.runContainers [?c1; ?c2]] =>
    set (dbc := c1); set (appc := c2)
  end.
  assert (Hn1 : docker.Name dbc = database_container s) by done.
  assert (Hn2 : docker.Name appc = app_container s) by done.
  assert (Hplain1 : gostrings.Trim (database_container s) "/" = database_container s)
    by (by apply plain_container_name).
  assert (Hplain2 : gostrings.Trim (app_container s) "/" = app_container s)
    by (by apply plain_container_name).
  destruct (runContainers_creates dbc [appc] (extend evs0 (with_daemon d0 w)))
    as (evs1 & -> & Hr1);
    [apply Hq'|done|done|done|rewrite Hn1; by apply valid_container_name| |].
  { rewrite Hn1. cbn [daemon extend with_daemon]. by rewrite Hnames0. }
  cbn [daemon extend with_daemon].
  set (c1 := created dbc d0). set (d1 := add_container c1 d0).
  rewrite !with_daemon_extend, !extend_extend, with_daemon_twice.
  assert (Hcreate1 : create (create_request dbc (port_config (Ports dbc))) d0
                     = (ID c1, None, d1)).
  { apply create_free; rewrite Hn1; [by apply valid_container_name|].
    by rewrite Hnames0. }
  destruct (created_resolves dbc (port_config (Ports dbc)) d0 d1 (ID c1))
    as [Hfind1 _];
    [done|rewrite Hn1; by destruct (site.SiteName _)|by rewrite Hn1|done|].
  rewrite Hn1 in Hfind1.
  set (d2 := set_running (ID c1) true d1) in *.
  assert (Hd2 : d2 = add_container (with_Running true c1) d0)
    by (by apply set_running_added).
  assert (Hnames2 : all_names d2 = all_names (daemon w) ++ ["/" +:+ database_container s]).
  { unfold d2, d1. by rewrite set_running_names, all_names_add_container, Hnames0. }
  assert (Hother : named (app_container s) (with_Running true c1) = false).
  { unfold named. cbn [Names with_Running c1 created new_container existsb].
    rewrite Hn1, full_name_plain by done.
    change (gostrings.Trim ("/" +:+ database_container s) "/")
      with (gostrings.Trim (database_container s) "/").
    rewrite Hplain1, orb_false_r. apply bool_decide_eq_false. intros Heq.
    apply (inj (String.app "kana_")) in Heq.
    by apply (inj (String.app (site.SiteName (site.Static s)))) in Heq. }
  destruct (runContainers_conflict appc [] (extend (evs0 ++ evs1 ++ run_events dbc d0)
                                                   (with_daemon d2 w)))
    as (evs2 & -> & Hr2);
    [apply Hq'|done|done|rewrite Hn2; by apply valid_container_name| | |].
  { rewrite Hn2. cbn [daemon extend with_daemon]. rewrite Hd2.
    unfold is_running, add_container. cbn [containers with_containers].
    rewrite existsb_app, Hcs0. fold (is_running (app_container s) (daemon w)).
    rewrite Hnot. cbn [existsb orb]. by rewrite Hother, andb_false_r. }
  { rewrite Hn2. cbn [daemon extend with_daemon]. rewrite Hnames2.
    rewrite full_name_plain by done. apply elem_of_app. by left. }
  rewrite extend_extend.
  eexists _, d2, (ID c1). split; [done|]. split; [|split; [|split]].
  - rewrite !requests_created_app, Hr0, Hr1, Hr2, !run_events_request. done.
  - unfold known. rewrite <- Hcs0. apply not_true_iff_false.
    intros (c & Hc%list_elem_of_In & Hid)%existsb_exists.
    by rewrite (fresh_id_unknown (containers d0) c Hc : has_id (ID c1) c = false)
      in Hid.
  - done.
  - unfold site.IsSiteRunning, bind. rewrite ListContainers_spec.
    rewrite (Hq' _ _ (clock _)). cbn [fst daemon extend with_daemon]. unfold ret.
    rewrite listed_site, nonempty_filter_existsb.
    fold (site_label_present (site.SiteName (site.Static s)) d2).
    cbn [fst]. f_equal. apply (site_label_found _ (with_Running true c1)).
    + rewrite Hd2. cbn [containers add_container with_containers].
      apply elem_of_app. right. by left.
    + cbn [client.Labels with_Running c1 created new_container ReqLabels
           create_request]. apply lookup_singleton_eq.
Qed.

End start_proofs.

(** ** A site that becomes ready *)

Section ready_proofs.
Context `{site.Libraries}.

Lemma polls_pauses (s : site.Site) k : pauses (polls s k) = replicate k 1%Z.
Proof.
  unfold polls. induction k as [|k IH]; [done|].
  cbn [replicate concat]. rewrite <- app_assoc. cbn [app].
  change (pauses (get_event s :: sleep_event :: ?l)) with (1%Z :: pauses l).
  by rewrite IH.
Qed.

Lemma polls_requests (s : site.Site) k : length (http_requests (polls s k)) = S k.
Proof.
  unfold polls. induction k as [|k IH]; [done|].
  cbn [replicate concat]. rewrite <- app_assoc. cbn [app].
  change (http_requests (get_event s :: sleep_event :: ?l))
    with ((insecure_client, site.secureURL s) :: http_requests l).
  cbn [length]. by rewrite IH.
Qed.

(** The loop entered with [tries] at most [30 - k]: if the next [k]
    requests are answered by a status other than 200 and the one after them
    by 200, the site is ready after [k] pauses. *)
Lemma VerifySite_loop_ready (s : site.Site) (k : nat) :
  ∀ fuel status tries w,
    quiet w →
    status ≠ 200%Z →
    (0 ≤ tries)%Z →
    (tries + Z.of_nat k ≤ 30)%Z →
    (k < fuel)%nat →
    (∀ i, (i < k)%nat →
          http_status (oracle w) (clock w + 2 * i) (site.secureURL s) ≠ 200%Z) →
    http_status (oracle w) (clock w + 2 * k) (site.secureURL s) = 200%Z →
    site.VerifySite_loop fuel s insecure_client status tries w =
    (Ret (true, None), extend (polls s k) w).
Proof.
  induction k as [|k IH]; intros fuel status tries w Hq Hst Ht0 Ht Hfuel Hno Hyes;
    (destruct fuel as [|fuel]; [lia|]); cbn [site.VerifySite_loop];
    rewrite bool_decide_true by done;
    unfold bind at 1; rewrite HttpGet_answer by apply Hq.
  - replace (clock w + 2 * 0)%nat with (clock w) in Hyes by lia.
    by rewrite bool_decide_true by done.
  - rewrite bool_decide_false
      by (specialize (Hno 0%nat ltac:(lia));
          by replace (clock w + 2 * 0)%nat with (clock w) in Hno by lia).
    rewrite bool_decide_false by lia.
    unfold bind, Sleep, effect. rewrite log_extend, extend_extend.
    rewrite IH.
    + by rewrite extend_extend.
    + intros n. apply Hq.
    + specialize (Hno 0%nat ltac:(lia)).
      by replace (clock w + 2 * 0)%nat with (clock w) in Hno by lia.
    + lia.
    + lia.
    + lia.
    + intros i Hi. rewrite clock_extend. cbn [oracle extend length app].
      replace (clock w + 2 + 2 * i)%nat with (clock w + 2 * S i)%nat by lia.
      apply Hno. lia.
    + rewrite clock_extend. cbn [oracle extend length app].
      by replace (clock w + 2 + 2 * k)%nat with (clock w + 2 * S k)%nat by lia.
Qed.

Lemma VerifySite_ready_at_once (s : site.Site) (fuel : nat) (w : World) :
  quiet w →
  http_status (oracle w) (S (clock w)) (site.secureURL s) = 200%Z →
  site.VerifySite fuel s w =
    (Ret (true, None),
     extend [Ev (CallReadFile (site.rootCert s)) None; get_event s] w).
Proof.
  intros Hq Hyes. unfold site.VerifySite, bind, ReadFile.
  erewrite extern_step; [|apply Hq|done]. rewrite with_daemon_same.
  rewrite HttpGet_answer by apply Hq. rewrite extend_extend.
  rewrite clock_extend. cbn [oracle extend length]. rewrite Nat.add_1_r, Hyes.
  destruct fuel; cbn [site.VerifySite_loop]; by rewrite bool_decide_false by (by intros ?).
Qed.

(** X28: with an environment in which no call fails, if the first request is
    answered by a status other than 200, so are the next [k] requests, and
    the request after them is answered by 200, with [k ≤ 30],
    [VerifySite] (on any fuel above [k]) returns [(true, nil)] after exactly
    [k + 2] requests and [k] pauses of one second: the thirty-second
    request can still succeed. *)
Theorem VerifySite_becomes_ready (s : site.Site) (fuel k : nat) (w : World) :
  quiet w →
  http_status (oracle w) (clock w + 1) (site.secureURL s) ≠ 200%Z →
  (∀ i, (i < k)%nat →
        http_status (oracle w) (clock w + 2 + 2 * i) (site.secureURL s) ≠ 200%Z) →
  http_status (oracle w) (clock w + 2 + 2 * k) (site.secureURL s) = 200%Z →
  (k ≤ 30)%nat →
  (k < fuel)%nat →
  site.VerifySite fuel s w =
    (Ret (true, None),
     extend (Ev (CallReadFile (site.rootCert s)) None :: get_event s :: polls s k) w)
  ∧ length (http_requests
              (Ev (CallReadFile (site.rootCert s)) None :: get_event s :: polls s k))
    = (k + 2)%nat
  ∧ pauses (Ev (CallReadFile (site.rootCert s)) None :: get_event s :: polls s k)
    = replicate k 1%Z.
Proof.
  intros Hq Hfirst Hno Hyes Hk Hfuel. split; [|split].
  - unfold site.VerifySite, bind, ReadFile.
    erewrite extern_step; [|apply Hq|done]. rewrite with_daemon_same.
    rewrite HttpGet_answer by apply Hq. rewrite extend_extend.
    fold insecure_client.
    rewrite (VerifySite_loop_ready s k).
    + by rewrite extend_extend.
    + intros n. apply Hq.
    + rewrite !clock_extend. cbn [oracle extend length].
      by replace (clock w + 1)%nat with (clock w + 1)%nat by lia.
    + lia.
    + lia.
    + done.
    + intros i Hi. rewrite clock_extend. cbn [oracle extend length app].
      by apply Hno.
    + rewrite clock_extend. cbn [oracle extend length app]. done.
  - change (http_requests (_ :: get_event s :: polls s k))
      with ((insecure_client, site.secureURL s) :: http_requests (polls s k)).
    cbn [length]. rewrite polls_requests. lia.
  - change (pauses (_ :: get_event s :: polls s k)) with (pauses (polls s k)).
    apply polls_pauses.
Qed.

End ready_proofs.

(** ** Opening a site *)

Section open_proofs.
Context `{site.Libraries} `{Host} `{site.Browser}.

(** X29: [OpenSite] returns the error of [VerifySite] if there is one, in the
    world [VerifySite] left: nothing is opened.  If no call fails and the
    site answers the first request with 200, [OpenSite] opens the secure
    URL and returns [nil] whatever the opening returns: an error of the
    browser or of [xdg-open] is dropped. *)
Theorem OpenSite_spec (fuel : nat) (s : site.Site) (w : World) :
  (∀ ok e w1, site.VerifySite fuel s w = (Ret (ok, Some e), w1) →
              site.OpenSite fuel s w = (Ret (Some e), w1))
  ∧ (quiet w →
     http_status (oracle w) (S (clock w)) (site.secureURL s) = 200%Z →
     ∀ r w2,
       site.openURL (site.secureURL s)
         (extend [Ev (CallReadFile (site.rootCert s)) None; get_event s] w)
         = (Ret r, w2) →
       site.OpenSite fuel s w = (Ret None, w2)).
Proof.
  split.
  - intros ok e w1 Hverify. unfold site.OpenSite, bind. by rewrite Hverify.
  - intros Hq Hyes r w2 Hopen. unfold site.OpenSite, bind.
    rewrite VerifySite_ready_at_once by done. cbn beta iota. by rewrite Hopen.
Qed.

End open_proofs.

(** ** Executing a command in a running container *)

(** X30: with a daemon that answers, [ContainerExec] in a container that runs
    makes five calls (the listing, the creation of one exec session for the
    command behind [sh -c], the attachment, the copy of its output, its
    inspection) and returns the standard output, the standard error and the
    exit code of that session, without error. *)
Theorem ContainerExec_returns_output (name : string) (command : list string)
    (id : string) (w : World) :
  quiet w →
  find_running name (listed false [] (daemon w)) = (id, true) →
  ContainerExec name command w =
    (Ret ({| StdOut := ExecStdOut (next_exec id (["sh"; "-c"] ++ command) w);
             StdErr := ExecStdErr (next_exec id (["sh"; "-c"] ++ command) w);
             ExitCode := ExecExitCode (next_exec id (["sh"; "-c"] ++ command) w) |},
          None),
     extend (exec_events id (["sh"; "-c"] ++ command)
                         (ExecID (next_exec id (["sh"; "-c"] ++ command) w)))
            (with_daemon (add_exec (next_exec id (["sh"; "-c"] ++ command) w)
                                   (daemon w)) w))
  ∧ commands_run (exec_events id (["sh"; "-c"] ++ command)
                    (ExecID (next_exec id (["sh"; "-c"] ++ command) w)))
    = [(id, ["sh"; "-c"] ++ command)].
Proof.
  intros Hq Hfind. split; [|done]. by apply ContainerExec_running.
Qed.


(** ** The theorems at work *)

Lemma ContainerExec_not_running_witness :
  is_running "kana_demo_wordpress" (daemon demo.app_stopped) = false
  ∧ ContainerExec "kana_demo_wordpress" ["ls"] demo.app_stopped =
    (Ret ({| StdOut := ""; StdErr := ""; ExitCode := 0 |}, None),
     extend [Ev (CallContainerList false []) None] demo.app_stopped).
Proof.
  split; [reflexivity|].
  apply (ContainerExec_not_running "kana_demo_wordpress" ["ls"] demo.app_stopped).
  reflexivity.
Defined.

Lemma app_running_well_formed o : well_formed (daemon (demo.app_running o)).
Proof.
  split.
  - repeat constructor. exists "kana_demo_wordpress". by repeat split.
  - apply NoDup_singleton.
Qed.


Lemma ContainerRun_idempotent_witness :
  ContainerRun (H := demo.connections) (demo.spec "kana_demo_database")
               demo.after_first_run
  = (Ret ("0", None), extend [list_running_event] demo.after_first_run)
  ∧ length (containers_named "kana_demo_database" (daemon demo.after_first_run)) = 1%nat.
Proof.
  apply (ContainerRun_idempotent (H := demo.connections)
           (demo.spec "kana_demo_database") (demo.app_running demo.answers)).
  - apply app_running_well_formed.
  - discriminate.
  - reflexivity.
  - vm_compute. reflexivity.
  - reflexivity.
Defined.

(** C1 as stated, for every specification, fails in two ways.  A name with
    a leading slash is accepted by the daemon but never matched by the
    adapter, which compares it with names stripped of their slashes: the
    second run asks for a second container and gets the daemon's conflict
    error.  An empty name makes the daemon choose a name on each run: two
    runs create two containers with two identifiers. *)
Lemma ContainerRun_not_idempotent :
  (ContainerRun (H := demo.connections) (demo.spec "/web") demo.fresh_start).1
    = Ret ("0", None)
  ∧ (ContainerRun (H := demo.connections) (demo.spec "/web")
       (ContainerRun (H := demo.connections) (demo.spec "/web") demo.fresh_start).2).1
    = Ret ("", Some "Conflict. The container name is already in use")
  ∧ (ContainerRun (H := demo.connections) (demo.spec "") demo.fresh_start).1
    = Ret ("0", None)
  ∧ (ContainerRun (H := demo.connections) (demo.spec "")
       (ContainerRun (H := demo.connections) (demo.spec "") demo.fresh_start).2).1
    = Ret ("1", None)
  ∧ map ID (containers (daemon
       (ContainerRun (H := demo.connections) (demo.spec "")
          (ContainerRun (H := demo.connections) (demo.spec "") demo.fresh_start).2).2))
    = ["0"; "1"].
Proof. repeat split; vm_compute; reflexivity. Qed.

Lemma ContainerRunAndClean_spec_witness :
  ∃ body lerr evs,
    ContainerLog "0" (demo.after_wait demo.answers)
      = (Ret (body, lerr), extend evs (demo.after_wait demo.answers))
    ∧ ContainerRunAndClean (H := demo.connections) demo.one_shot
        (demo.app_running demo.answers) =
        match fault demo.answers (clock (extend evs (demo.after_wait demo.answers))) with
        | Some e =>
            (Ret (0%Z, body, Some e),
             extend (evs ++ [Ev (CallContainerRemove "0") (Some e);
                             removal_notice "0" e]) (demo.after_wait demo.answers))
        | None =>
            (Ret (0%Z, body, None),
             extend (evs ++ [Ev (CallContainerRemove "0") None])
                    (with_daemon (without "0" (daemon (demo.after_wait demo.answers)))
                                 (demo.after_wait demo.answers)))
        end
    ∧ containers_named "kana_demo_wordpress_cli"
        (without "0" (daemon (demo.after_wait demo.answers))) = [].
Proof.
  apply (ContainerRunAndClean_spec (H := demo.connections) demo.one_shot
           (demo.app_running demo.answers) (demo.after_run demo.answers)
           (demo.after_wait demo.answers) "0" 0%Z).
  - apply app_running_well_formed.
  - vm_compute. reflexivity.
  - vm_compute. reflexivity.
Defined.

(** C2 as stated fails where the removal fails: with the daemon
    unreachable at the removal (the seventh call), run and wait have
    succeeded with status 0, the failure is printed, and it is also what the
    caller gets as error; the container is still there. *)
Lemma ContainerRunAndClean_removal_failure :
  (ContainerRun (H := demo.connections) demo.one_shot
     (demo.app_running (demo.failing_at 6 "daemon unreachable"))).1
    = Ret ("0", None)
  ∧ (docker.ContainerWait "0" (demo.after_run (demo.failing_at 6 "daemon unreachable"))).1
    = Ret (0%Z, None)
  ∧ (ContainerRunAndClean (H := demo.connections) demo.one_shot
       (demo.app_running (demo.failing_at 6 "daemon unreachable"))).1
    = Ret (0%Z, "[plugins]", Some "daemon unreachable")
  ∧ drop 6 (new_events (demo.app_running (demo.failing_at 6 "daemon unreachable"))
       (ContainerRunAndClean (H := demo.connections) demo.one_shot
          (demo.app_running (demo.failing_at 6 "daemon unreachable"))).2)
    = [Ev (CallContainerRemove "0") (Some "daemon unreachable");
       removal_notice "0" "daemon unreachable"]
  ∧ map ID (containers_named "kana_demo_wordpress_cli" (daemon
       (ContainerRunAndClean (H := demo.connections) demo.one_shot
          (demo.app_running (demo.failing_at 6 "daemon unreachable"))).2))
    = ["0"].
Proof. repeat split; vm_compute; reflexivity. Qed.

Lemma VerifySite_never_200_witness :
  site.VerifySite 31 demo.the_site demo.fresh_start
    = (Ret (false, site.timeout_reached),
       extend (Ev (CallReadFile (site.rootCert demo.the_site)) None
               :: get_event demo.the_site :: polls demo.the_site 30)
              demo.fresh_start)
  ∧ length (http_requests
              (Ev (CallReadFile (site.rootCert demo.the_site)) None
               :: get_event demo.the_site :: polls demo.the_site 30)) = 32%nat
  ∧ pauses (Ev (CallReadFile (site.rootCert demo.the_site)) None
            :: get_event demo.the_site :: polls demo.the_site 30)
    = replicate 30 1%Z
  ∧ take 3 (Ev (CallReadFile (site.rootCert demo.the_site)) None
            :: get_event demo.the_site :: polls demo.the_site 30)
    = [Ev (CallReadFile (site.rootCert demo.the_site)) None;
       get_event demo.the_site; get_event demo.the_site].
Proof.
  apply (VerifySite_never_200 demo.the_site 31 demo.fresh_start).
  - intros n. reflexivity.
  - intros n. discriminate.
  - lia.
Defined.

(** C3 as stated fails: against an endpoint that always answers 503,
    verification fails with the timeout after 32 requests, not 30, and the
    30 pauses leave the first two requests without a pause between them. *)
Lemma VerifySite_32_requests :
  (site.VerifySite 40 demo.the_site demo.fresh_start).1
    = Ret (false, Some "timeout reached. unable to open site")
  ∧ length (http_requests (new_events demo.fresh_start
              (site.VerifySite 40 demo.the_site demo.fresh_start).2)) = 32%nat
  ∧ length (pauses (new_events demo.fresh_start
              (site.VerifySite 40 demo.the_site demo.fresh_start).2)) = 30%nat
  ∧ take 3 (new_events demo.fresh_start
              (site.VerifySite 40 demo.the_site demo.fresh_start).2)
    = [Ev (CallReadFile "/home/dev/.config/kana/certs/kana.root.pem") None;
       Ev (CallHttpGet insecure_client "https://demo.sites.kana.li/") None;
       Ev (CallHttpGet insecure_client "https://demo.sites.kana.li/") None].
Proof. repeat split; vm_compute; reflexivity. Qed.

Lemma daemon_failures_propagate_witness :
  demo.stop_error = Some "daemon unreachable".
Proof.
  apply (daemon_failures_propagate (H := demo.connections)
           (OpContainerStop "kana_demo_wordpress") demo.stop_fails
           (returned_error (H := demo.connections)
              (OpContainerStop "kana_demo_wordpress") demo.stop_fails).2
           demo.stop_error (CallContainerStop "a1") "daemon unreachable").
  - vm_compute. reflexivity.
  - vm_compute. repeat constructor.
  - reflexivity.
  - reflexivity.
Defined.

(** C4 as stated fails on both counts.  Failures other than the two it
    names are absorbed: with the daemon unreachable at the listing,
    [ContainerStop] of a running container reports success and no error, and
    with the daemon unreachable at the log request, [ContainerRunAndClean]
    returns an empty log and no error.  And the failure it says is only
    logged is returned: a failed removal is the error of
    [ContainerRunAndClean]. *)
Lemma daemon_failures_absorbed :
  is_running "kana_demo_wordpress"
    (daemon (demo.app_running (demo.failing_at 0 "daemon unreachable"))) = true
  ∧ docker.ContainerStop "kana_demo_wordpress"
      (demo.app_running (demo.failing_at 0 "daemon unreachable"))
    = (Ret (true, None),
       extend [Ev (CallContainerList false []) (Some "daemon unreachable")]
              (demo.app_running (demo.failing_at 0 "daemon unreachable")))
  ∧ (ContainerRunAndClean (H := demo.connections) demo.one_shot
       (demo.app_running (demo.failing_at 4 "daemon unreachable"))).1
    = Ret (0%Z, "", None)
  ∧ take 2 (drop 4 (new_events (demo.app_running (demo.failing_at 4 "daemon unreachable"))
       (ContainerRunAndClean (H := demo.connections) demo.one_shot
          (demo.app_running (demo.failing_at 4 "daemon unreachable"))).2))
    = [Ev (CallContainerLogs "0") (Some "daemon unreachable");
       Ev (CallContainerRemove "0") None]
  ∧ (ContainerRunAndClean (H := demo.connections) demo.one_shot
       (demo.app_running (demo.failing_at 6 "daemon unreachable"))).1
    = Ret (0%Z, "[plugins]", Some "daemon unreachable").
Proof. repeat split; vm_compute; reflexivity. Qed.

(** C5 fails on the code: for the demo site, whose own configuration sets
    PHP 8.1 while the dynamic configuration has PHP 7.4, [StartWordPress]
    creates the application container from the image for PHP 8.1 and
    [RunWPCli] the command-line container from the image for PHP 7.4. *)
Lemma RunWPCli_other_php_version :
  site.GetString (site.SiteConfig demo.the_site) "php" = "8.1"
  ∧ site.GetString (site.DynamicConfig demo.the_site) "php" = "7.4"
  ∧ (site.StartWordPress (H := demo.connections) (H0 := demo.images)
       (H2 := demo.methods) demo.the_site demo.fresh_start).1 = Ret None
  ∧ images_requested (new_events demo.fresh_start
       (site.StartWordPress (H := demo.connections) (H0 := demo.images)
          (H2 := demo.methods) demo.the_site demo.fresh_start).2)
    = ["mariadb"; "wordpress:php8.1"]
  ∧ (site.RunWPCli (H := demo.connections) (H0 := demo.images)
       (H2 := demo.methods) demo.the_site ["plugin"; "list"] demo.fresh_start).1
    = Ret ("[plugins]", None)
  ∧ images_requested (new_events demo.fresh_start
       (site.RunWPCli (H := demo.connections) (H0 := demo.images)
          (H2 := demo.methods) demo.the_site ["plugin"; "list"] demo.fresh_start).2)
    = ["wordpress:cli-php7.4"].
Proof. repeat split; vm_compute; reflexivity. Qed.

Lemma InstallXdebug_spec_witness :
  site.InstallXdebug demo.plain_site (demo.app_running demo.answers)
    = (Ret (false, None), demo.app_running demo.answers)
  ∧ site.InstallXdebug demo.the_site
      (demo.app_running (demo.failing_at 2 "daemon unreachable"))
    = (Ret (false, Some "daemon unreachable"),
       (site.runCli demo.the_site "pecl list | grep xdebug" false
          (extend [installing_event]
             (demo.app_running (demo.failing_at 2 "daemon unreachable")))).2)
  ∧ site.InstallXdebug demo.the_site (demo.app_running demo.xdebug_installed)
    = (Ret (false, None),
       (site.runCli demo.the_site "pecl list | grep xdebug" false
          (extend [installing_event] (demo.app_running demo.xdebug_installed))).2)
  ∧ (∃ d pre,
      site.InstallXdebug demo.the_site (demo.app_running demo.answers) =
        (Ret (true, None),
         extend (installing_event :: pre ++ restart_events "a1")
                (with_daemon d (demo.app_running demo.answers)))
      ∧ commands_run pre =
          map (λ c, ("a1", ["sh"; "-c"; c]))
              ["pecl list | grep xdebug";
               "pecl install xdebug";
               "docker-php-ext-enable xdebug";
               "echo 'xdebug.start_with_request=yes' >> /usr/local/etc/php/php.ini";
               "echo 'xdebug.mode=debug' >> /usr/local/etc/php/php.ini";
               "echo 'xdebug.client_host=host.docker.internal' >> /usr/local/etc/php/php.ini";
               "echo 'xdebug.discover_client_host=on' >> /usr/local/etc/php/php.ini";
               "echo 'xdebug.start_with_request=trigger' >> /usr/local/etc/php/php.ini"]
      ∧ restart_calls pre = [])
  ∧ (site.InstallXdebug demo.the_site demo.app_stopped =
       (Ret (true, None),
        extend (installing_event
                :: listing_events (oracle demo.app_stopped)
                     (S (clock demo.app_stopped)) 9) demo.app_stopped)
     ∧ commands_run (installing_event
                     :: listing_events (oracle demo.app_stopped)
                          (S (clock demo.app_stopped)) 9) = []
     ∧ restart_calls (installing_event
                      :: listing_events (oracle demo.app_stopped)
                           (S (clock demo.app_stopped)) 9) = []).
Proof.
  split; [|split; [|split; [|split]]].
  - apply (InstallXdebug_spec demo.plain_site (demo.app_running demo.answers)).
    reflexivity.
  - eapply (InstallXdebug_spec demo.the_site
              (demo.app_running (demo.failing_at 2 "daemon unreachable"))).
    + reflexivity.
    + vm_compute. reflexivity.
  - eapply (InstallXdebug_spec demo.the_site
              (demo.app_running demo.xdebug_installed)).
    + reflexivity.
    + vm_compute. reflexivity.
    + reflexivity.
  - apply (InstallXdebug_spec demo.the_site (demo.app_running demo.answers)).
    + reflexivity.
    + intros n. reflexivity.
    + reflexivity.
    + reflexivity.
  - apply (InstallXdebug_spec demo.the_site demo.app_stopped).
    + reflexivity.
    + reflexivity.
Defined.

(** C6 as stated fails on the count: in a running application container,
    with xdebug not yet installed, [InstallXdebug] runs eight commands, not
    seven, of which five, not four, append a line to php.ini. *)
Lemma InstallXdebug_five_ini_lines :
  (site.InstallXdebug demo.the_site (demo.app_running demo.answers)).1
    = Ret (true, None)
  ∧ length (commands_run (new_events (demo.app_running demo.answers)
      (site.InstallXdebug demo.the_site (demo.app_running demo.answers)).2))
    = 8%nat
  ∧ length (List.filter appends_to_ini
      (commands_run (new_events (demo.app_running demo.answers)
         (site.InstallXdebug demo.the_site (demo.app_running demo.answers)).2)))
    = 5%nat
  ∧ length (List.filter appends_to_ini
      (map (λ c, ("a1", ["sh"; "-c"; c])) site.xdebugCommands)) = 5%nat.
Proof. repeat split; vm_compute; reflexivity. Qed.

Lemma GetInstalledWordPressPlugins_spec_witness :
  site.GetInstalledWordPressPlugins (H := demo.connections) (H0 := demo.images)
    (H2 := demo.methods) demo.the_site demo.fresh_start
  = (Ret (["query-monitor"; "classic-editor"], None),
     (site.RunWPCli (H := demo.connections) (H0 := demo.images)
        (H2 := demo.methods) demo.the_site
        ["plugin"; "list"; "--format=json"] demo.fresh_start).2).
Proof.
  apply (GetInstalledWordPressPlugins_spec (H := demo.connections)
           (H0 := demo.images) (H2 := demo.methods)
           demo.the_site demo.fresh_start "[plugins]" demo.raw_plugins).
  - vm_compute. reflexivity.
  - reflexivity.
Defined.

Lemma VerifySite_unreadable_root_cert_witness :
  site.VerifySite 31 demo.the_site demo.no_certificate =
    (Ret (false, Some "open kana.root.pem: no such file or directory"),
     extend [Ev (CallReadFile (site.rootCert demo.the_site))
                (Some "open kana.root.pem: no such file or directory")]
            demo.no_certificate)
  ∧ http_requests (new_events demo.no_certificate
                     (site.VerifySite 31 demo.the_site demo.no_certificate).2) = []
  ∧ ∀ w2, Forall (λ r, r = ({| InsecureSkipVerify := true; RootCAs := None |},
                            site.secureURL demo.the_site))
                 (http_requests (new_events w2
                    (site.VerifySite 31 demo.the_site w2).2)).
Proof.
  apply (VerifySite_unreadable_root_cert demo.the_site 31 demo.no_certificate).
  reflexivity.
Defined.

(** C10 as stated fails for a site without a name: [ListContainers] then
    filters on the label key alone, so a container of the site [demo] makes
    [IsSiteRunning] answer [true] although no container carries the label
    [kana.site] with the empty value. *)
Lemma IsSiteRunning_nameless :
  (site.IsSiteRunning demo.nameless_site demo.app_stopped).1 = Ret true
  ∧ existsb (carries_site (site.SiteName (site.Static demo.nameless_site)))
            (containers (daemon demo.app_stopped)) = false
  ∧ map (λ c, client.Labels c !! "kana.site") (containers (daemon demo.app_stopped))
    = [Some "demo"].
Proof. repeat split; vm_compute; reflexivity. Qed.

(** ** The further properties at work *)

Lemma site_running_well_formed o : well_formed (daemon (demo.site_running o)).
Proof.
  split.
  - repeat constructor.
    + exists "kana_demo_database". by repeat split.
    + exists "kana_demo_wordpress". by repeat split.
  - apply NoDup_cons. split; [|apply NoDup_singleton].
    by intros ?%list_elem_of_singleton.
Qed.

Lemma ret_returns_quietly {A} (a : A) (P : A → Prop) :
  P a → returns_quietly (ret a) P.
Proof. intros HP w _. exists a, []. by rewrite extend_nil. Qed.

Lemma checking_images_quietly image :
  returns_quietly (EnsureImage (ImageStore := demo.checking_images) image)
                  (λ err, err = None).
Proof.
  intros w Hq. exists None, [Ev (CallContainerList true []) None].
  cbn [EnsureImage demo.checking_images]. unfold bind.
  rewrite ContainerList_inv, (Hq (clock w)). done.
Qed.

Lemma ContainerStop_removes_witness :
  docker.ContainerStop "kana_demo_wordpress" (demo.app_running demo.answers) =
    (Ret (true, None),
     extend [list_running_event; Ev (CallContainerStop "a1") None;
             Ev (CallContainerRemove "a1") None]
            (with_daemon (without "a1" (daemon (demo.app_running demo.answers)))
                         (demo.app_running demo.answers)))
  ∧ containers_named "kana_demo_wordpress"
      (without "a1" (daemon (demo.app_running demo.answers))) = []
  ∧ known "a1" (without "a1" (daemon (demo.app_running demo.answers))) = false.
Proof.
  apply (ContainerStop_removes "kana_demo_wordpress" "a1"
           (demo.app_running demo.answers)).
  - intros n. reflexivity.
  - apply app_running_well_formed.
  - reflexivity.
Defined.

Lemma stopped_container_left_alone_witness :
  docker.ContainerStop "kana_demo_wordpress" demo.app_stopped =
    (Ret (true, None),
     extend [Ev (CallContainerList false []) None] demo.app_stopped)
  ∧ ContainerRestart "kana_demo_wordpress" demo.app_stopped =
    (Ret (true, None),
     extend [Ev (CallContainerList false []) None] demo.app_stopped).
Proof.
  apply (stopped_container_left_alone "kana_demo_wordpress" demo.app_stopped).
  reflexivity.
Defined.

Lemma ContainerStop_failed_removal_witness :
  docker.ContainerStop "kana_demo_wordpress" demo.removal_fails
    = (Ret (false, Some "daemon unreachable"), demo.left_stopped)
  ∧ length (containers_named "kana_demo_wordpress" (daemon demo.left_stopped)) = 1%nat
  ∧ docker.ContainerStop "kana_demo_wordpress" demo.left_stopped =
      (Ret (true, None),
       extend [Ev (CallContainerList false [])
                  (fault (oracle demo.removal_fails) (clock demo.left_stopped))]
              demo.left_stopped).
Proof.
  apply (ContainerStop_failed_removal "kana_demo_wordpress" "a1"
           "daemon unreachable" demo.removal_fails).
  - apply app_running_well_formed.
  - reflexivity.
  - reflexivity.
  - reflexivity.
  - reflexivity.
Defined.

Lemma ContainerRestart_same_container_witness :
  ContainerRestart "kana_demo_wordpress" (demo.app_running demo.answers) =
    (Ret (true, None),
     extend [list_running_event; Ev (CallContainerStop "a1") None;
             Ev (CallContainerStart "a1") None]
            (with_daemon
               (set_running "a1" true
                  (set_running "a1" false (daemon (demo.app_running demo.answers))))
               (demo.app_running demo.answers)))
  ∧ find_running "kana_demo_wordpress"
      (listed false []
         (set_running "a1" true
            (set_running "a1" false (daemon (demo.app_running demo.answers)))))
    = ("a1", true)
  ∧ map ID (containers
              (set_running "a1" true
                 (set_running "a1" false (daemon (demo.app_running demo.answers)))))
    = map ID (containers (daemon (demo.app_running demo.answers)))
  ∧ all_names (set_running "a1" true
                 (set_running "a1" false (daemon (demo.app_running demo.answers))))
    = all_names (daemon (demo.app_running demo.answers)).
Proof.
  apply (ContainerRestart_same_container "kana_demo_wordpress" "a1"
           (demo.app_running demo.answers)).
  - intros n. reflexivity.
  - reflexivity.
Defined.

Lemma ContainerExec_returns_output_witness :
  ContainerExec "kana_demo_wordpress" ["ls"] (demo.app_running demo.answers) =
    (Ret ({| StdOut := ""; StdErr := ""; ExitCode := 0 |}, None),
     extend (exec_events "a1" ["sh"; "-c"; "ls"] "0")
            (with_daemon
               (add_exec (next_exec "a1" ["sh"; "-c"; "ls"]
                            (demo.app_running demo.answers))
                         (daemon (demo.app_running demo.answers)))
               (demo.app_running demo.answers)))
  ∧ commands_run (exec_events "a1" ["sh"; "-c"; "ls"] "0")
    = [("a1", ["sh"; "-c"; "ls"])].
Proof.
  apply (ContainerExec_returns_output "kana_demo_wordpress" ["ls"] "a1"
           (demo.app_running demo.answers)).
  - intros n. reflexivity.
  - reflexivity.
Defined.

Lemma getNetworkConfig_keys_witness :
  demo.fresh_start = demo.fresh_start
  ∧ (∀ port, port ∈ demo.web_ports → port_error (H := demo.connections) port = None)
  ∧ dom (PortBindings (port_config (H := demo.connections) demo.web_ports))
    = PortSet (port_config (H := demo.connections) demo.web_ports)
  ∧ (∀ name, name ∈ PortSet (port_config (H := demo.connections) demo.web_ports)
             ↔ ∃ port, port ∈ demo.web_ports
                       ∧ port_name (H := demo.connections) port = name)
  ∧ (∀ name hosts,
       PortBindings (port_config (H := demo.connections) demo.web_ports) !! name
         = Some hosts →
       ∃ port, port ∈ demo.web_ports
               ∧ port_name (H := demo.connections) port = name
               ∧ hosts = [Port port]).
Proof.
  apply (getNetworkConfig_keys (H := demo.connections) demo.web_ports
           demo.fresh_start demo.fresh_start
           (port_config (H := demo.connections) demo.web_ports)).
  reflexivity.
Defined.

Lemma ContainerRun_bad_port_witness :
  ContainerRun (H := demo.strict_connections)
    (demo.with_ports [{| Port := "80"; Protocol := "tcp" |};
                       {| Port := ""; Protocol := "tcp" |}])
    demo.fresh_start
  = (Panic "No port specified",
     extend [Ev (CallContainerList false []) None] demo.fresh_start).
Proof.
  apply (ContainerRun_bad_port (H := demo.strict_connections)
           (demo.with_ports [{| Port := "80"; Protocol := "tcp" |};
                              {| Port := ""; Protocol := "tcp" |}])
           "No port specified" demo.fresh_start).
  - reflexivity.
  - reflexivity.
Defined.

Lemma ContainerRunAndClean_restores_daemon_witness :
  ContainerRunAndClean (H := demo.connections) demo.one_shot
    (demo.app_running demo.answers) =
    (Ret (0%Z, "[plugins]", None),
     extend (one_shot_events (H := demo.connections) demo.one_shot
               (daemon (demo.app_running demo.answers)))
            (demo.app_running demo.answers))
  ∧ length (one_shot_events (H := demo.connections) demo.one_shot
              (daemon (demo.app_running demo.answers))) = 7%nat
  ∧ requests_created (one_shot_events (H := demo.connections) demo.one_shot
                        (daemon (demo.app_running demo.answers)))
    = [create_request demo.one_shot (port_config (H := demo.connections) [])].
Proof.
  apply (ContainerRunAndClean_restores_daemon (H := demo.connections) demo.one_shot
           (demo.app_running demo.answers)).
  - intros n. reflexivity.
  - apply app_running_well_formed.
  - reflexivity.
  - reflexivity.
  - apply not_elem_of_cons. split; [discriminate|apply not_elem_of_nil].
Defined.

Lemma EnsureNetwork_spec_witness :
  EnsureNetwork "kana" demo.fresh_start =
    (Ret (true, {| NetworkID := "0"; client.NetworkName := "kana";
                   Driver := "bridge" |}, None),
     extend [Ev CallNetworkList None; Ev (CallNetworkCreate "kana" "bridge") None;
             Ev CallNetworkList None]
            (with_daemon
               (add_network {| NetworkID := "0"; client.NetworkName := "kana";
                               Driver := "bridge" |} (daemon demo.fresh_start))
               demo.fresh_start)).
Proof.
  exact (EnsureNetwork_spec "kana" demo.fresh_start (λ n, eq_refl)).
Defined.

Lemma EnsureNetwork_idempotent_witness :
  EnsureNetwork "kana" demo.after_network =
    (Ret (false, {| NetworkID := "0"; client.NetworkName := "kana";
                    Driver := "bridge" |}, None),
     extend [Ev CallNetworkList None] demo.after_network)
  ∧ client.NetworkName {| NetworkID := "0"; client.NetworkName := "kana";
                          Driver := "bridge" |} = "kana".
Proof.
  apply (EnsureNetwork_idempotent "kana" demo.fresh_start demo.after_network true).
  - vm_compute. reflexivity.
  - reflexivity.
Defined.

Lemma RemoveNetwork_spec_witness :
  RemoveNetwork "kana" (demo.with_network (demo.failing_at 1 "daemon unreachable"))
  = (Ret (true, Some "daemon unreachable"),
     extend [Ev CallNetworkList None;
             Ev (CallNetworkRemove "n1") (Some "daemon unreachable")]
            (demo.with_network (demo.failing_at 1 "daemon unreachable"))).
Proof.
  exact (RemoveNetwork_spec "kana"
           (demo.with_network (demo.failing_at 1 "daemon unreachable")) eq_refl).
Defined.

Lemma EnsureNetwork_then_RemoveNetwork_witness :
  (EnsureNetwork "kana" ;;; RemoveNetwork "kana") demo.fresh_start =
    (Ret (true, None),
     extend [Ev CallNetworkList None; Ev (CallNetworkCreate "kana" "bridge") None;
             Ev CallNetworkList None; Ev CallNetworkList None;
             Ev (CallNetworkRemove "0") None]
            demo.fresh_start).
Proof.
  apply (EnsureNetwork_then_RemoveNetwork "kana" demo.fresh_start).
  - intros n. reflexivity.
  - reflexivity.
Defined.

Lemma ensureDockerIsAvailable_no_retry_witness :
  ensureDockerIsAvailable (H := demo.linux) 12 (demo.no_daemon demo.down) =
    (Ret (Some "Cannot connect to the Docker daemon"),
     extend [Ev (CallContainerList false [])
                (Some "Cannot connect to the Docker daemon")]
            (demo.no_daemon demo.down)).
Proof.
  apply (ensureDockerIsAvailable_no_retry (H := demo.linux) 12
           (demo.no_daemon demo.down)).
  left. discriminate.
Defined.

Lemma ensureDockerIsAvailable_cannot_launch_witness :
  ensureDockerIsAvailable (H := demo.mac_without_docker) 12
    (demo.no_daemon demo.down)
  = (Ret (Some "error: unable to start Docker for Mac"), demo.launched demo.down).
Proof.
  apply (ensureDockerIsAvailable_cannot_launch (H := demo.mac_without_docker) 12
           (demo.no_daemon demo.down) (demo.launched demo.down)
           "Cannot connect to the Docker daemon" "exit status 1").
  - reflexivity.
  - reflexivity.
  - reflexivity.
Defined.

Lemma ensureDockerIsAvailable_gives_up_witness :
  ensureDockerIsAvailable (H := demo.mac) 12 (demo.no_daemon demo.down) =
    (Ret (Some "error: unable to start Docker for Mac"),
     extend (retry_events demo.down 2 11 ++ [giving_up_notice])
            (demo.launched demo.down))
  ∧ pauses (retry_events demo.down 2 11 ++ [giving_up_notice]) = replicate 11 5%Z
  ∧ length (listings (retry_events demo.down 2 11 ++ [giving_up_notice])) = 11%nat.
Proof.
  apply (ensureDockerIsAvailable_gives_up (H := demo.mac) 12
           (demo.no_daemon demo.down) (demo.launched demo.down)
           "Cannot connect to the Docker daemon").
  - reflexivity.
  - reflexivity.
  - reflexivity.
  - intros n _. discriminate.
  - lia.
Defined.

Lemma ensureDockerIsAvailable_recovers_witness :
  ensureDockerIsAvailable (H := demo.mac) 3 (demo.no_daemon (demo.down_until 6)) =
    (Ret None,
     extend (retry_events (demo.down_until 6) 2 3)
            (demo.launched (demo.down_until 6)))
  ∧ pauses (retry_events (demo.down_until 6) 2 3) = replicate 3 5%Z.
Proof.
  apply (ensureDockerIsAvailable_recovers (H := demo.mac) 3 2
           (demo.no_daemon (demo.down_until 6))
           (demo.launched (demo.down_until 6))
           "Cannot connect to the Docker daemon").
  - reflexivity.
  - reflexivity.
  - reflexivity.
  - lia.
  - intros i Hi. destruct i as [|[|i]]; [discriminate|discriminate|lia].
  - reflexivity.
  - lia.
Defined.

Lemma StopWordPress_removes_containers_witness :
  site.StopWordPress (H3 := demo.traefik) demo.the_site
    (demo.site_running demo.answers) =
    maybe_stop_traefik (H0 := demo.traefik) demo.the_site
      (extend [list_running_event; Ev (CallContainerStop "d1") None;
               Ev (CallContainerRemove "d1") None;
               list_running_event; Ev (CallContainerStop "a1") None;
               Ev (CallContainerRemove "a1") None]
              (with_daemon
                 (without "a1" (without "d1" (daemon (demo.site_running demo.answers))))
                 (demo.site_running demo.answers)))
  ∧ containers_named (database_container demo.the_site)
      (without "a1" (without "d1" (daemon (demo.site_running demo.answers)))) = []
  ∧ containers_named (app_container demo.the_site)
      (without "a1" (without "d1" (daemon (demo.site_running demo.answers)))) = [].
Proof.
  apply (StopWordPress_removes_containers (H0 := demo.traefik) demo.the_site
           (demo.site_running demo.answers) "d1" "a1").
  - intros n. reflexivity.
  - apply site_running_well_formed.
  - reflexivity.
  - reflexivity.
  - discriminate.
Defined.

Lemma StopWordPress_leaves_stopped_containers_witness :
  site.StopWordPress (H3 := demo.traefik) demo.the_site demo.site_stopped =
    maybe_stop_traefik (H0 := demo.traefik) demo.the_site
      (extend [Ev (CallContainerList false []) None;
               Ev (CallContainerList false []) None] demo.site_stopped)
  ∧ (site.IsSiteRunning demo.the_site
       (extend [Ev (CallContainerList false []) None;
                Ev (CallContainerList false []) None] demo.site_stopped)).1
    = Ret true.
Proof.
  split.
  - apply (StopWordPress_leaves_stopped_containers (H0 := demo.traefik)
             demo.the_site demo.site_stopped); reflexivity.
  - apply (StopWordPress_leaves_stopped_containers (H0 := demo.traefik)
             demo.the_site demo.site_stopped); reflexivity.
Defined.

Lemma StopWordPress_stops_at_first_failure_witness :
  site.StopWordPress (H3 := demo.traefik) demo.the_site
    (demo.site_running (demo.failing_at 1 "daemon unreachable")) =
    (Ret (Some "daemon unreachable"),
     extend [list_running_event;
             Ev (CallContainerStop "d1") (Some "daemon unreachable")]
            (demo.site_running (demo.failing_at 1 "daemon unreachable"))).
Proof.
  apply (StopWordPress_stops_at_first_failure (H0 := demo.traefik) demo.the_site
           (demo.site_running (demo.failing_at 1 "daemon unreachable"))
           "d1" "daemon unreachable").
  - reflexivity.
  - reflexivity.
  - reflexivity.
Defined.


Lemma StartWordPress_already_running_witness :
  ∃ evs d',
    site.StartWordPress (H := demo.connections) (H0 := demo.checking_images)
      (H2 := demo.methods) demo.the_site (demo.site_running demo.answers)
      = (Ret None, extend evs (with_daemon d' (demo.site_running demo.answers)))
    ∧ requests_created evs = []
    ∧ containers d' = containers (daemon (demo.site_running demo.answers)).
Proof.
  apply (StartWordPress_already_running (H := demo.connections) (H0 := demo.checking_images)
           (H2 := demo.methods) demo.the_site
           (demo.site_running demo.answers) "d1" "a1").
  - intros n. reflexivity.
  - reflexivity.
  - reflexivity.
  - apply (ret_returns_quietly false). exact I.
  - apply checking_images_quietly.
Defined.

Lemma StartWordPress_name_conflict_witness :
  ∃ evs d',
    site.StartWordPress (H := demo.connections) (H0 := demo.checking_images)
      (H2 := demo.methods) demo.the_site demo.site_stopped
      = (Ret (Some "Conflict. The container name is already in use"),
         extend evs (with_daemon d' demo.site_stopped))
    ∧ containers d' = containers (daemon demo.site_stopped)
    ∧ map ReqName (requests_created evs) = [database_container demo.the_site].
Proof.
  apply (StartWordPress_name_conflict (H := demo.connections) (H0 := demo.checking_images)
           (H2 := demo.methods) demo.the_site demo.site_stopped).
  - intros n. reflexivity.
  - reflexivity.
  - left.
  - reflexivity.
  - apply (ret_returns_quietly false). exact I.
  - apply checking_images_quietly.
Defined.

Lemma RunWPCli_one_shot_witness :
  ∃ cfg evs d',
    (site.GetRunningConfig (SiteMethods := demo.methods) demo.the_site
       (network_ensured "kana" (demo.app_running demo.answers))).1 = Ret cfg
    ∧ site.RunWPCli (H := demo.connections) (H0 := demo.checking_images)
        (H2 := demo.methods) demo.the_site ["plugin"; "list"]
        (demo.app_running demo.answers)
      = (Ret ("[plugins]", None),
         extend evs (with_daemon d' (demo.app_running demo.answers)))
    ∧ containers d' = containers (daemon (demo.app_running demo.answers))
    ∧ requests_created evs =
        [create_request
           (site.wpCliContainer demo.the_site
              (["wp"; "--path=/var/www/html"] ++ ["plugin"; "list"])
              (cli_mounts demo.the_site cfg "/home/dev/demo"))
           (port_config (H := demo.connections) [])].
Proof.
  apply (RunWPCli_one_shot (H := demo.connections) (H0 := demo.checking_images)
           (H2 := demo.methods) demo.the_site ["plugin"; "list"]
           (demo.app_running demo.answers)).
  - intros n. reflexivity.
  - apply app_running_well_formed.
  - reflexivity.
  - apply not_elem_of_cons. split; [discriminate|apply not_elem_of_nil].
  - apply (ret_returns_quietly
             {| site.Type_ := "site"; site.Local := false; site.Xdebug := false |}).
    exact I.
  - apply checking_images_quietly.
Defined.

Lemma InstallWordPress_command_witness :
  ∃ evs d',
    site.InstallWordPress (H := demo.connections) (H0 := demo.checking_images)
      (H2 := demo.methods) demo.the_site (demo.app_running demo.answers)
      = (Ret None, extend evs (with_daemon d' (demo.app_running demo.answers)))
    ∧ containers d' = containers (daemon (demo.app_running demo.answers))
    ∧ map Cmd (requests_created evs) =
        [["wp"; "--path=/var/www/html"; "core"; "install";
          "--url=" +:+ site.secureURL demo.the_site;
          "--title=Kana Development "
            +:+ site.GetString (site.SiteConfig demo.the_site) "type"
            +:+ ": " +:+ site.SiteName (site.Static demo.the_site);
          "--admin_user="
            +:+ site.GetString (site.DynamicConfig demo.the_site) "admin.username";
          "--admin_password="
            +:+ site.GetString (site.DynamicConfig demo.the_site) "admin.password";
          "--admin_email="
            +:+ site.GetString (site.DynamicConfig demo.the_site) "admin.email"]].
Proof.
  apply (InstallWordPress_command (H := demo.connections) (H0 := demo.checking_images)
           (H2 := demo.methods) demo.the_site
           (demo.app_running demo.answers)).
  - intros n. reflexivity.
  - apply app_running_well_formed.
  - reflexivity.
  - apply not_elem_of_cons. split; [discriminate|apply not_elem_of_nil].
  - apply (ret_returns_quietly
             {| site.Type_ := "site"; site.Local := false; site.Xdebug := false |}).
    exact I.
  - apply checking_images_quietly.
Defined.

Lemma InstallDefaultPlugins_in_order_witness :
  ∃ evs d',
    site.InstallDefaultPlugins (H := demo.connections) (H0 := demo.checking_images)
      (H2 := demo.methods) (H6 := demo.slices) demo.the_site
      (demo.app_running demo.answers)
      = (Ret None, extend evs (with_daemon d' (demo.app_running demo.answers)))
    ∧ containers d' = containers (daemon (demo.app_running demo.answers))
    ∧ map Cmd (requests_created evs) =
        map (λ plugin, ["wp"; "--path=/var/www/html"; "plugin"; "install";
                        "--activate"; plugin])
            (site.GetStringSlice (StringSlices := demo.slices)
               (site.SiteConfig demo.the_site) "plugins").
Proof.
  apply (InstallDefaultPlugins_in_order (H := demo.connections) (H0 := demo.checking_images)
           (H2 := demo.methods) (H3 := demo.slices) demo.the_site
           (demo.app_running demo.answers)).
  - intros n. reflexivity.
  - apply app_running_well_formed.
  - reflexivity.
  - apply not_elem_of_cons. split; [discriminate|apply not_elem_of_nil].
  - apply (ret_returns_quietly
             {| site.Type_ := "site"; site.Local := false; site.Xdebug := false |}).
    exact I.
  - apply checking_images_quietly.
Defined.

Lemma VerifySite_becomes_ready_witness :
  site.VerifySite 3 demo.the_site (demo.world [] (demo.ready_from 6)) =
    (Ret (true, None),
     extend (Ev (CallReadFile (site.rootCert demo.the_site)) None
             :: get_event demo.the_site :: polls demo.the_site 2)
            (demo.world [] (demo.ready_from 6)))
  ∧ length (http_requests
              (Ev (CallReadFile (site.rootCert demo.the_site)) None
               :: get_event demo.the_site :: polls demo.the_site 2)) = (2 + 2)%nat
  ∧ pauses (Ev (CallReadFile (site.rootCert demo.the_site)) None
            :: get_event demo.the_site :: polls demo.the_site 2)
    = replicate 2 1%Z.
Proof.
  apply (VerifySite_becomes_ready demo.the_site 3 2
           (demo.world [] (demo.ready_from 6))).
  - intros n. reflexivity.
  - discriminate.
  - intros i Hi. destruct i as [|[|i]]; [discriminate|discriminate|lia].
  - reflexivity.
  - lia.
  - lia.
Defined.

Lemma OpenSite_spec_witness :
  site.OpenSite (H4 := demo.mac) (H5 := demo.browser) 0 demo.the_site
    (demo.world [] (demo.ready_from 0))
  = (Ret None,
     extend [Ev (CallReadFile (site.rootCert demo.the_site)) None;
             get_event demo.the_site]
            (demo.world [] (demo.ready_from 0))).
Proof.
  apply (OpenSite_spec (H0 := demo.mac) (H1 := demo.browser) 0 demo.the_site
           (demo.world [] (demo.ready_from 0)))
    with (r := Some "exec: no browser found").
  - intros n. reflexivity.
  - reflexivity.
  - reflexivity.
Defined.

Lemma app_stopped_well_formed : well_formed (daemon demo.app_stopped).
Proof.
  split.
  - repeat constructor. exists "kana_demo_wordpress". by repeat split.
  - apply NoDup_singleton.
Qed.

Lemma StartWordPress_no_rollback_witness :
  ∃ evs d' id1,
    site.StartWordPress (H := demo.connections) (H0 := demo.checking_images)
      (H2 := demo.methods) demo.the_site demo.app_stopped
      = (Ret (Some "Conflict. The container name is already in use"),
         extend evs (with_daemon d' demo.app_stopped))
    ∧ map ReqName (requests_created evs)
      = [database_container demo.the_site; app_container demo.the_site]
    ∧ known id1 (daemon demo.app_stopped) = false
    ∧ find_running (database_container demo.the_site) (listed false [] d')
      = (id1, true)
    ∧ (site.IsSiteRunning demo.the_site
         (extend evs (with_daemon d' demo.app_stopped))).1 = Ret true.
Proof.
  apply (StartWordPress_no_rollback (H := demo.connections) (H0 := demo.checking_images)
           (H2 := demo.methods) demo.the_site demo.app_stopped).
  - intros n. reflexivity.
  - apply app_stopped_well_formed.
  - reflexivity.
  - apply not_elem_of_cons. split; [discriminate|apply not_elem_of_nil].
  - left.
  - reflexivity.
  - apply (ret_returns_quietly false). exact I.
  - apply checking_images_quietly.
Defined.

Lemma wp_cli_blocked_by_leftover_container_witness :
  (∃ evs d',
     site.RunWPCli (H := demo.connections) (H0 := demo.checking_images) (H2 := demo.methods)
       demo.the_site ["plugin"; "list"] demo.cli_left_over
       = (Ret ("", Some "Conflict. The container name is already in use"),
          extend evs (with_daemon d' demo.cli_left_over))
     ∧ containers d' = containers (daemon demo.cli_left_over)
     ∧ map ReqName (requests_created evs) = [cli_container demo.the_site])
  ∧ (∀ plugin rest,
       site.GetStringSlice (StringSlices := demo.slices)
         (site.SiteConfig demo.the_site) "plugins" = plugin :: rest →
       ∃ evs d',
         site.InstallDefaultPlugins (H := demo.connections) (H0 := demo.checking_images)
           (H2 := demo.methods) (H6 := demo.slices) demo.the_site
           demo.cli_left_over
           = (Ret (Some "Conflict. The container name is already in use"),
              extend evs (with_daemon d' demo.cli_left_over))
         ∧ containers d' = containers (daemon demo.cli_left_over)
         ∧ map Cmd (requests_created evs) =
             [["wp"; "--path=/var/www/html"; "plugin"; "install"; "--activate";
               plugin]]).
Proof.
  apply (wp_cli_blocked_by_leftover_container (H := demo.connections)
           (H0 := demo.checking_images) (H2 := demo.methods) (H3 := demo.slices)
           demo.the_site ["plugin"; "list"]
           demo.cli_left_over).
  - intros n. reflexivity.
  - reflexivity.
  - left.
  - reflexivity.
  - apply (ret_returns_quietly
             {| site.Type_ := "site"; site.Local := false; site.Xdebug := false |}).
    exact I.
  - apply checking_images_quietly.
Defined.
